(** * ec2-github-runner: a model of the action's three flows

    The Go program drives three AWS services (EC2, IAM, SSM) through the
    interfaces [EC2API], [IAMAPI] and [SSMAPI], logs through the GitHub
    action object, reads the wall clock and sleeps.  The model threads a
    [World] (the clock and the history of everything the program did to the
    outside) through every function, and takes the answers of the outside
    from an [Env]: the k-th call of an operation gets the k-th answer.

    Loops are bounded by a [fuel] argument; running out of fuel is the
    outcome [Running], which no Go return corresponds to. *)

From Stdlib Require Import ZArith List String Ascii Bool Lia.
Import ListNotations.

Local Open Scope string_scope.
Local Open Scope list_scope.
Local Open Scope Z_scope.

(** ** Errors, log arguments *)

(** [fmt.Errorf] and the logging calls are kept unrendered: the format
    string and its arguments. *)
Inductive arg : Type :=
| AStr (s : string)
| AInt (n : Z)
| AErr (e : error)
with error : Type :=
| Errorf (format : string) (args : list arg)
| ApiError (msg : string)
| NumError (func num : string).

(** ** Wire shapes of the three services

    Only the members the program reads or writes.  The SDK's [*string]
    members are plain strings here: the services fill them in. *)

Record Tag := { Key : string; Value : string }.
Record TagSpecification := { ResourceType : string; Tags : list Tag }.

(** [base64.StdEncoding.EncodeToString], kept symbolic. *)
Inductive base64 : Type := StdEncoding (raw : string).

Record RunInstancesInput := {
  ImageId : string;
  InstanceType : string;
  MaxCount : Z;
  MinCount : Z;
  MonitoringEnabled : bool;
  SubnetId : string;
  SecurityGroupIds : list string;
  UserData : base64;
  TagSpecifications : list TagSpecification;
  IamInstanceProfile : option string
}.

Record Instance := { InstanceId : string; StateName : string }.
Record Reservation := { Instances : list Instance }.
Record DescribeInstancesOutput := { Reservations : list Reservation }.
Record RunInstancesOutput := { RunInstances_Instances : list Instance }.

Definition InstanceStateNameRunning : string := "running".

Record Role := { RoleName : string }.
Record InstanceProfile := { InstanceProfileName : string; Roles : list Role }.
Record ListInstanceProfilesOutput := { InstanceProfiles : list InstanceProfile }.

Record InstanceInformation := { Info_InstanceId : string; PingStatus : string }.
Record DescribeInstanceInformationOutput :=
  { InstanceInformationList : list InstanceInformation }.

Definition PingStatusOnline : string := "Online".

Record SendCommandInput := {
  InstanceIds : list string;
  DocumentName : string;
  Parameters : list (string * list string)
}.
Record SendCommandOutput := { CommandId : string }.

Record GetCommandInvocationOutput := {
  Inv_CommandId : string;
  Inv_InstanceId : string;
  Status : string;
  ResponseCode : Z;
  StandardOutputContent : string;
  StandardErrorContent : string
}.

(** ** The history *)

Inductive event : Type :=
| EvInfof (format : string) (args : list arg)
| EvWarningf (format : string) (args : list arg)
| EvFatalf (format : string) (args : list arg)
| EvGroup (title : string)
| EvEndGroup
| EvSetOutput (k v : string)
| EvSleep (d : Z)
| EvLoadDefaultConfig (r : option error)
| EvRunInstances (params : RunInstancesInput) (r : RunInstancesOutput + error)
| EvDescribeInstances (ids : list string) (r : DescribeInstancesOutput + error)
| EvTerminateInstances (ids : list string) (r : option error)
| EvListInstanceProfiles (r : ListInstanceProfilesOutput + error)
| EvCreateInstanceProfile (name : string) (r : option error)
| EvAddRoleToInstanceProfile (profile role : string) (r : option error)
| EvDescribeInstanceInformation (ids : list string)
    (r : DescribeInstanceInformationOutput + error)
| EvSendCommand (params : SendCommandInput) (r : SendCommandOutput + error)
| EvWaitForOutput (commandId instanceId : string) (maxWaitDur : Z)
    (r : GetCommandInvocationOutput + error).

Definition isRunInstances (e : event) : bool :=
  match e with EvRunInstances _ _ => true | _ => false end.
Definition isDescribeInstances (e : event) : bool :=
  match e with EvDescribeInstances _ _ => true | _ => false end.
Definition isTerminateInstances (e : event) : bool :=
  match e with EvTerminateInstances _ _ => true | _ => false end.
Definition isListInstanceProfiles (e : event) : bool :=
  match e with EvListInstanceProfiles _ => true | _ => false end.
Definition isCreateInstanceProfile (e : event) : bool :=
  match e with EvCreateInstanceProfile _ _ => true | _ => false end.
Definition isAddRoleToInstanceProfile (e : event) : bool :=
  match e with EvAddRoleToInstanceProfile _ _ _ => true | _ => false end.
Definition isDescribeInstanceInformation (e : event) : bool :=
  match e with EvDescribeInstanceInformation _ _ => true | _ => false end.
Definition isSendCommand (e : event) : bool :=
  match e with EvSendCommand _ _ => true | _ => false end.
Definition isWaitForOutput (e : event) : bool :=
  match e with EvWaitForOutput _ _ _ _ => true | _ => false end.
Definition isSleep (e : event) : bool :=
  match e with EvSleep _ => true | _ => false end.

(** Number of events of one kind in a history. *)
Definition calls (kind : event -> bool) (tr : list event) : nat :=
  List.length (filter kind tr).

(** ** The outside *)

Record Env := {
  GetInput : string -> string;
  json_Unmarshal : string -> list TagSpecification + error;
  config_LoadDefaultConfig : option error;
  (* nanoseconds the step taken after [n] events costs beyond what it asks *)
  latency : nat -> N;
  ec2_RunInstances : nat -> RunInstancesInput -> RunInstancesOutput + error;
  ec2_DescribeInstances : nat -> list string -> DescribeInstancesOutput + error;
  ec2_TerminateInstances : nat -> list string -> option error;
  iam_ListInstanceProfiles : nat -> ListInstanceProfilesOutput + error;
  iam_CreateInstanceProfile : nat -> string -> option error;
  iam_AddRoleToInstanceProfile : nat -> string -> string -> option error;
  ssm_DescribeInstanceInformation :
    nat -> list string -> DescribeInstanceInformationOutput + error;
  ssm_SendCommand : nat -> SendCommandInput -> SendCommandOutput + error;
  (* ssm.NewCommandExecutedWaiter(client).WaitForOutput, an SDK routine *)
  ssm_WaitForOutput :
    nat -> string -> string -> Z -> GetCommandInvocationOutput + error
}.

Record World := { now : Z; trace : list event }.

(** A log line or an output: no time passes. *)
Definition emit (ev : event) (w : World) : World :=
  {| now := now w; trace := trace w ++ [ev] |}.

(** A call to the outside: it is recorded with its answer and takes time. *)
Definition called (env : Env) (ev : event) (w : World) : World :=
  {| now := now w + Z.of_N (latency env (List.length (trace w)));
     trace := trace w ++ [ev] |}.

(** [time.Sleep d]: at least [d], nothing asked when [d <= 0]. *)
Definition time_Sleep (env : Env) (d : Z) (w : World) : World :=
  {| now := now w + Z.max 0 d + Z.of_N (latency env (List.length (trace w)));
     trace := trace w ++ [EvSleep d] |}.

(** ** Durations: int64 nanoseconds *)

Definition wrap64 (z : Z) : Z := (z + 2 ^ 63) mod 2 ^ 64 - 2 ^ 63.
Definition Second : Z := 1000000000.
(** [time.Duration(n) * time.Second] *)
Definition Seconds (n : Z) : Z := wrap64 (n * Second).

(** ** Outcomes of a Go function returning [(A, error)] *)

Inductive outcome (A : Type) : Type :=
| Ok (a : A)        (* returned, err == nil *)
| Fail (e : error)  (* returned, err != nil *)
| Exit              (* action.Fatalf: the message, then os.Exit(1) *)
| Panic             (* index out of range *)
| Running.          (* out of fuel *)
Arguments Ok {A} a.
Arguments Fail {A} e.
Arguments Exit {A}.
Arguments Panic {A}.
Arguments Running {A}.

Definition M (A : Type) : Type := World -> outcome A * World.

(** [v, err := f(...)] followed by the two continuations. *)
Definition call {A B : Type} (m : outcome A * World)
    (onOk : A -> M B) (onErr : error -> M B) : outcome B * World :=
  match m with
  | (Ok a, w) => onOk a w
  | (Fail e, w) => onErr e w
  | (Exit, w) => (Exit, w)
  | (Panic, w) => (Panic, w)
  | (Running, w) => (Running, w)
  end.

Definition action_Fatalf {A : Type} (format : string) (args : list arg) : M A :=
  fun w => (Exit, emit (EvFatalf format args) w).

(** ** ec2.go: WaitForInstanceRunning *)

Fixpoint WaitForInstanceRunning_loop (fuel : nat) (env : Env)
    (instanceId instanceState : string) (w : World) : outcome unit * World :=
  if negb (instanceState =? "running")%string then
    match fuel with
    | O => (Running, w)
    | S fuel' =>
      let r := ec2_DescribeInstances env
                 (calls isDescribeInstances (trace w)) [instanceId] in
      let w1 := called env (EvDescribeInstances [instanceId] r) w in
      match r with
      | inr err =>
        (Fail (Errorf "error describing instance %s: %v"
                 [AStr instanceId; AErr err]), w1)
      | inl resp =>
        match Reservations resp with
        | [] => (Panic, w1)
        | reservation :: _ =>
          match Instances reservation with
          | [] => (Panic, w1)
          | inst :: _ =>
            let instanceState := StateName inst in
            let w2 := emit (EvInfof "Instance state: %s" [AStr instanceState]) w1 in
            let w3 := if negb (instanceState =? "running")%string
                      then time_Sleep env (5 * Second) w2 else w2 in
            WaitForInstanceRunning_loop fuel' env instanceId instanceState w3
          end
        end
      end
    end
  else
    (Ok tt, emit (EvInfof "Instance %s is now running." [AStr instanceId]) w).

Definition WaitForInstanceRunning (fuel : nat) (env : Env)
    (instanceId : string) : M unit :=
  WaitForInstanceRunning_loop fuel env instanceId "".

(** ** ec2.go: GetOrCreateInstanceProfile *)

(** The two nested [range] loops with their early [return]: the name of the
    first listed profile one of whose roles is named [iamRoleName]. *)
Fixpoint findProfile (iamRoleName : string) (profiles : list InstanceProfile)
    : option string :=
  match profiles with
  | [] => None
  | profile :: rest =>
    if existsb (fun role => (RoleName role =? iamRoleName)%string) (Roles profile)
    then Some (InstanceProfileName profile)
    else findProfile iamRoleName rest
  end.

Definition GetOrCreateInstanceProfile (env : Env) (iamRoleName : string)
    : M string :=
  fun w =>
  let r := iam_ListInstanceProfiles env (calls isListInstanceProfiles (trace w)) in
  let w1 := called env (EvListInstanceProfiles r) w in
  match r with
  | inr err => (Fail (Errorf "error listing instance profiles: %v" [AErr err]), w1)
  | inl profiles =>
    match findProfile iamRoleName (InstanceProfiles profiles) with
    | Some name =>
      (Ok name,
       emit (EvInfof "Instance profile for IAM role %s already exists."
               [AStr iamRoleName]) w1)
    | None =>
      let rc := iam_CreateInstanceProfile env
                  (calls isCreateInstanceProfile (trace w1)) iamRoleName in
      let w2 := called env (EvCreateInstanceProfile iamRoleName rc) w1 in
      match rc with
      | Some err =>
        (Fail (Errorf "error creating instance profile: %v" [AErr err]), w2)
      | None =>
        let w3 := emit (EvInfof "Created instance profile %s" [AStr iamRoleName]) w2 in
        let ra := iam_AddRoleToInstanceProfile env
                    (calls isAddRoleToInstanceProfile (trace w3))
                    iamRoleName iamRoleName in
        let w4 := called env
                    (EvAddRoleToInstanceProfile iamRoleName iamRoleName ra) w3 in
        match ra with
        | Some err =>
          (Fail (Errorf "error attaching role to instance profile: %v" [AErr err]),
           w4)
        | None =>
          (Ok iamRoleName,
           emit (EvInfof "Attached role %s to instance profile %s"
                   [AStr iamRoleName; AStr iamRoleName]) w4)
        end
      end
    end
  end.

(** ** ec2.go: CreateAndStartEC2Instance *)

Definition startParams0 (ec2AmiId subnetId securityGroupId instanceType
    userData : string) : RunInstancesInput :=
  {| ImageId := ec2AmiId;
     InstanceType := instanceType;
     MaxCount := 1;
     MinCount := 1;
     MonitoringEnabled := false;
     SubnetId := subnetId;
     SecurityGroupIds := [securityGroupId];
     UserData := StdEncoding userData;
     TagSpecifications := [];
     IamInstanceProfile := None |}.

Definition withTags (p : RunInstancesInput) (tags : list TagSpecification)
    : RunInstancesInput :=
  {| ImageId := ImageId p; InstanceType := InstanceType p;
     MaxCount := MaxCount p; MinCount := MinCount p;
     MonitoringEnabled := MonitoringEnabled p; SubnetId := SubnetId p;
     SecurityGroupIds := SecurityGroupIds p; UserData := UserData p;
     TagSpecifications := tags;
     IamInstanceProfile := IamInstanceProfile p |}.

Definition withProfile (p : RunInstancesInput) (name : string)
    : RunInstancesInput :=
  {| ImageId := ImageId p; InstanceType := InstanceType p;
     MaxCount := MaxCount p; MinCount := MinCount p;
     MonitoringEnabled := MonitoringEnabled p; SubnetId := SubnetId p;
     SecurityGroupIds := SecurityGroupIds p; UserData := UserData p;
     TagSpecifications := TagSpecifications p;
     IamInstanceProfile := Some name |}.

Definition CreateAndStartEC2Instance (fuel : nat) (env : Env)
    (ec2AmiId subnetId securityGroupId iamRoleName instanceType userData
     tagSpecifications : string) : M string :=
  fun w =>
  let startParams :=
    startParams0 ec2AmiId subnetId securityGroupId instanceType userData in
  (* if tagSpecifications != "" { json.Unmarshal ... } *)
  match (if negb (tagSpecifications =? "")%string then
           match json_Unmarshal env tagSpecifications with
           | inr err => inr err
           | inl tags => inl (withTags startParams tags)
           end
         else inl startParams) with
  | inr err => action_Fatalf "Error parsing tag specifications: %v" [AErr err] w
  | inl startParams =>
    (* if iamRoleName != "" { GetOrCreateInstanceProfile ... } *)
    call (if negb (iamRoleName =? "")%string then
            call (GetOrCreateInstanceProfile env iamRoleName w)
              (fun instanceProfileName w1 =>
                 (Ok (withProfile startParams instanceProfileName), w1))
              (fun err w1 =>
                 (Fail (Errorf
                          "error creating or retrieving instance profile for IAM role name %s: %v"
                          [AStr iamRoleName; AErr err]), w1))
          else (Ok startParams, w))
      (fun startParams w1 =>
         let r := ec2_RunInstances env (calls isRunInstances (trace w1))
                    startParams in
         let w2 := called env (EvRunInstances startParams r) w1 in
         match r with
         | inr err =>
           (Fail (Errorf "error starting EC2 instance: %v" [AErr err]), w2)
         | inl runResult =>
           match RunInstances_Instances runResult with
           | [] => (Panic, w2)
           | inst :: _ =>
             let instanceId := InstanceId inst in
             call (WaitForInstanceRunning fuel env instanceId w2)
               (fun _ w3 => (Ok instanceId, w3))
               (fun err w3 =>
                  (Fail (Errorf "error waiting for instance to be running: %v"
                           [AErr err]), w3))
           end
         end)
      (fun err w1 => (Fail err, w1))
  end.

(** ** ec2.go: TerminateEC2Instance *)

Definition TerminateEC2Instance (env : Env) (ec2InstanceId : string) : M unit :=
  fun w =>
  let r := ec2_TerminateInstances env
             (calls isTerminateInstances (trace w)) [ec2InstanceId] in
  let w1 := called env (EvTerminateInstances [ec2InstanceId] r) w in
  match r with
  | Some err =>
    (Fail (Errorf "error stopping EC2 instance %s: %v"
             [AStr ec2InstanceId; AErr err]), w1)
  | None =>
    (Ok tt, emit (EvInfof "Instance %s is stopping..." [AStr ec2InstanceId]) w1)
  end.

(** ** ec2.go: IsSSMAgentRegistered *)

(** The inner [range] over the described entries, with its [return true]. *)
Definition online (ec2InstanceId : string)
    (resp : DescribeInstanceInformationOutput) : bool :=
  existsb (fun instanceInfo =>
             (Info_InstanceId instanceInfo =? ec2InstanceId)%string
             && (PingStatus instanceInfo =? PingStatusOnline)%string)
          (InstanceInformationList resp).

Fixpoint IsSSMAgentRegistered_loop (fuel : nat) (env : Env)
    (ec2InstanceId : string) (endTime interval : Z) (w : World)
    : outcome bool * World :=
  if now w <? endTime then
    match fuel with
    | O => (Running, w)
    | S fuel' =>
      let r := ssm_DescribeInstanceInformation env
                 (calls isDescribeInstanceInformation (trace w)) [ec2InstanceId] in
      let w1 := called env (EvDescribeInstanceInformation [ec2InstanceId] r) w in
      match r with
      | inr err => (Fail err, w1)
      | inl resp =>
        if online ec2InstanceId resp then
          (Ok true,
           emit (EvInfof "SSM agent is registered and online for instance %s"
                   [AStr ec2InstanceId]) w1)
        else
          let w2 :=
            emit (EvInfof
                    "SSM agent is not registered or not online for instance %s. Waiting..."
                    [AStr ec2InstanceId]) w1 in
          let w3 := time_Sleep env (Seconds interval) w2 in
          IsSSMAgentRegistered_loop fuel' env ec2InstanceId endTime interval w3
      end
    end
  else
    (Ok false,
     emit (EvInfof "Timeout reached. SSM agent is not registered for instance %s"
             [AStr ec2InstanceId]) w).

Definition IsSSMAgentRegistered (fuel : nat) (env : Env)
    (ec2InstanceId : string) (timeout interval : Z) : M bool :=
  fun w =>
  let endTime := now w + Seconds timeout in
  IsSSMAgentRegistered_loop fuel env ec2InstanceId endTime interval w.

(** ** ec2.go: GetCommandInvocationDetails *)

Definition GetCommandInvocationDetails (env : Env)
    (ec2InstanceId commandId : string) (maxWaitTime : Z)
    : M GetCommandInvocationOutput :=
  fun w =>
  let r := ssm_WaitForOutput env (calls isWaitForOutput (trace w))
             commandId ec2InstanceId (Seconds maxWaitTime) in
  let w1 := called env
              (EvWaitForOutput commandId ec2InstanceId (Seconds maxWaitTime) r) w in
  match r with
  | inr err => (Fail err, w1)
  | inl out => (Ok out, w1)
  end.

(** ** ec2.go: ExecuteCommandOnEC2Instance *)

(** Lines 157-166: what is logged of a resolved invocation. *)
Definition logInvocation (d : GetCommandInvocationOutput) (w : World) : World :=
  let w1 := emit (EvGroup "Command invocation details") w in
  let w2 := emit (EvInfof "ResponseCode: %d" [AInt (ResponseCode d)]) w1 in
  let w3 := emit (EvInfof "Status: %s" [AStr (Status d)]) w2 in
  let w4 := emit (EvInfof "StdError: %s" [AStr (StandardErrorContent d)]) w3 in
  let w5 :=
    if (String.length (StandardOutputContent d) <? 1000)%nat
    then emit (EvInfof "StdOutput: %s" [AStr (StandardOutputContent d)]) w4
    else emit (EvInfof "(enable debug to see full output)" []) w4 in
  emit EvEndGroup w5.

Definition sendCommandInput (ec2InstanceId command : string) : SendCommandInput :=
  {| InstanceIds := [ec2InstanceId];
     DocumentName := "AWS-RunShellScript";
     Parameters := [("commands", [command])] |}.

Definition ExecuteCommandOnEC2Instance (fuel : nat) (env : Env)
    (ec2InstanceId command : string) (commandMaxWaitTime : Z) : M string :=
  fun w =>
  call (IsSSMAgentRegistered fuel env ec2InstanceId 60 5 w)
    (fun reg w1 =>
       if negb reg then
         (Fail (Errorf "SSM agent is not registered or online for instance %s"
                  [AStr ec2InstanceId]), w1)
       else
         let input := sendCommandInput ec2InstanceId command in
         let r := ssm_SendCommand env (calls isSendCommand (trace w1)) input in
         let w2 := called env (EvSendCommand input r) w1 in
         match r with
         | inr err =>
           (Fail (Errorf "error sending command '%s' to EC2 instance %s: %v"
                    [AStr command; AStr ec2InstanceId; AErr err]), w2)
         | inl sendCommandResp =>
           let commandId := CommandId sendCommandResp in
           call (GetCommandInvocationDetails env ec2InstanceId commandId
                   commandMaxWaitTime w2)
             (fun commandInvocationDetails w3 =>
                (Ok commandId, logInvocation commandInvocationDetails w3))
             (fun err w3 =>
                (Fail (Errorf "error getting command invocation details: %v"
                         [AErr err]), w3))
         end)
    (fun err w1 => (Fail err, w1)).

(** ** strconv.Atoi

    The Go standard library's parser on a 64-bit platform: an optional sign,
    then one or more decimal digits and nothing else, the value within
    int64; anything else is a [*strconv.NumError] naming the function and
    the input. *)

Definition isDigit (c : ascii) : bool :=
  ((48 <=? nat_of_ascii c) && (nat_of_ascii c <=? 57))%nat.

Fixpoint digits (s : string) (acc : Z) : option Z :=
  match s with
  | EmptyString => Some acc
  | String c rest =>
    if isDigit c
    then digits rest (10 * acc + Z.of_nat (nat_of_ascii c - 48))
    else None
  end.

Definition minInt : Z := - 2 ^ 63.
Definition maxInt : Z := 2 ^ 63 - 1.

Definition Atoi (s : string) : Z + error :=
  match s with
  | EmptyString => inr (NumError "Atoi" s)
  | String c rest =>
    let neg := (c =? "-")%char in
    let body := if neg || (c =? "+")%char then rest else s in
    match body with
    | EmptyString => inr (NumError "Atoi" s)
    | _ =>
      match digits body 0 with
      | None => inr (NumError "Atoi" s)
      | Some n =>
        let v := if neg then - n else n in
        if (minInt <=? v) && (v <=? maxInt) then inl v
        else inr (NumError "Atoi" s)
      end
    end
  end.

(** ** main.go: getInputs, main *)

Definition getInputs (fuel : nat) (env : Env) : M unit :=
  fun w =>
  let mode := GetInput env "mode" in
  if (mode =? "")%string then
    (Fail (Errorf "Required input 'mode' is missing." []), w)
  else
  let ec2AmiId := GetInput env "ec2-image-id" in
  let subnetId := GetInput env "subnet-id" in
  let securityGroupId := GetInput env "security-group-id" in
  let iamRoleName := GetInput env "iam-role-name" in
  let instanceType := GetInput env "ec2-instance-type" in
  let instanceType :=
    if (instanceType =? "")%string then "t2.micro" else instanceType in
  let userData := GetInput env "user-data" in
  let tagSpecifications := GetInput env "tag-specifications" in
  let ec2InstanceId := GetInput env "ec2-instance-id" in
  let command := GetInput env "command" in
  match Atoi (GetInput env "command-max-wait-secs") with
  | inr err => (Fail err, w)
  | inl commandMaxWaitTime =>
    let '(commandMaxWaitTime, w0) :=
      if commandMaxWaitTime <=? 5
      then (6, emit (EvWarningf
                       "command-max-wait-secs raised to minimum 6 seconds" []) w)
      else (commandMaxWaitTime, w) in
    let rc := config_LoadDefaultConfig env in
    let w1 := called env (EvLoadDefaultConfig rc) w0 in
    match rc with
    | Some err => (Fail err, w1)
    | None =>
      if (mode =? "start")%string then
        if (ec2AmiId =? "")%string || (subnetId =? "")%string
           || (securityGroupId =? "")%string
        then
          (Fail (Errorf
                   "Required parameters (ec2AmiId, subnetId, securityGroupId) are missing."
                   []), w1)
        else
          call (CreateAndStartEC2Instance fuel env ec2AmiId subnetId
                  securityGroupId iamRoleName instanceType userData
                  tagSpecifications w1)
            (fun instanceId w2 =>
               let w3 := emit (EvInfof "Started EC2 instance with ID: %s"
                                 [AStr instanceId]) w2 in
               (Ok tt, emit (EvSetOutput "ec2-instance-id" instanceId) w3))
            (fun err w2 => action_Fatalf "Error occurred: %v" [AErr err] w2)
      else if (mode =? "command")%string then
        if (ec2InstanceId =? "")%string || (command =? "")%string then
          (Fail (Errorf
                   "Required parameters (ec2InstanceId, command) are missing." []),
           w1)
        else
          call (ExecuteCommandOnEC2Instance fuel env ec2InstanceId command
                  commandMaxWaitTime w1)
            (fun commandId w2 =>
               let w3 :=
                 emit (EvInfof
                         "Command '%s' sent to instance %s. Command ID: %s. Command wait time: %d secs"
                         [AStr command; AStr ec2InstanceId; AStr commandId;
                          AInt commandMaxWaitTime]) w2 in
               (Ok tt, emit (EvSetOutput "command-id" commandId) w3))
            (fun err w2 => (Fail err, w2))
      else if (mode =? "stop")%string then
        if (ec2InstanceId =? "")%string then
          (Fail (Errorf "Required parameter (ec2InstanceId) is missing." []), w1)
        else
          call (TerminateEC2Instance env ec2InstanceId w1)
            (fun _ w2 => (Ok tt, w2))
            (fun err w2 => (Fail err, w2))
      else
        (Fail (Errorf
                 "Unsupported mode: %s. Supported modes are 'start', 'command', and 'stop'."
                 [AStr mode]), w1)
    end
  end.

Definition main (fuel : nat) (env : Env) : M unit :=
  fun w =>
  call (getInputs fuel env w)
    (fun _ w1 => (Ok tt, w1))
    (fun err w1 => action_Fatalf "%s" [AErr err] w1).

(** ** The words of the statements *)

(** The state name the loop reads: [resp.Reservations[0].Instances[0].State.Name]. *)
Definition describedState (resp : DescribeInstancesOutput) : option string :=
  match Reservations resp with
  | [] => None
  | reservation :: _ =>
    match Instances reservation with
    | [] => None
    | inst :: _ => Some (StateName inst)
    end
  end.

(** What a poll that saw a state other than [running] leaves behind. *)
Definition pollNotRunning (instanceId : string) (resp : DescribeInstancesOutput)
    : list event :=
  [EvDescribeInstances [instanceId] (inl resp);
   EvInfof "Instance state: %s"
     [AStr (match describedState resp with Some st => st | None => "" end)];
   EvSleep (5 * Second)].

(** What the poll that saw [running] leaves behind, to the return. *)
Definition pollRunning (instanceId : string) (resp : DescribeInstancesOutput)
    : list event :=
  [EvDescribeInstances [instanceId] (inl resp);
   EvInfof "Instance state: %s" [AStr "running"];
   EvInfof "Instance %s is now running." [AStr instanceId]].

(** What a poll that did not find the instance online leaves behind. *)
Definition pollOffline (ec2InstanceId : string) (interval : Z)
    (resp : DescribeInstanceInformationOutput) : list event :=
  [EvDescribeInstanceInformation [ec2InstanceId] (inl resp);
   EvInfof "SSM agent is not registered or not online for instance %s. Waiting..."
     [AStr ec2InstanceId];
   EvSleep (Seconds interval)].

(** The runs of the registration loop from [w]: some polls that did not find
    the instance online, then the way the loop was left. *)
Definition registrationRun (ec2InstanceId : string) (interval endTime : Z)
    (w : World) (o : outcome bool) (w' : World) : Prop :=
  exists resps : list DescribeInstanceInformationOutput,
    Forall (fun resp => online ec2InstanceId resp = false) resps
    /\ now w <= now w'
    /\ let polled := trace w ++ flat_map (pollOffline ec2InstanceId interval) resps in
       match o with
       | Ok false =>
         trace w' = polled
           ++ [EvInfof "Timeout reached. SSM agent is not registered for instance %s"
                 [AStr ec2InstanceId]]
         /\ endTime <= now w'
       | Ok true =>
         exists resp,
           online ec2InstanceId resp = true
           /\ trace w' = polled
                ++ [EvDescribeInstanceInformation [ec2InstanceId] (inl resp);
                    EvInfof "SSM agent is registered and online for instance %s"
                      [AStr ec2InstanceId]]
       | Fail e =>
         trace w' = polled ++ [EvDescribeInstanceInformation [ec2InstanceId] (inr e)]
       | Running => trace w' = polled
       | Exit | Panic => False
       end.

(** The error of line 135. *)
Definition AgentNotRegistered (ec2InstanceId : string) : error :=
  Errorf "SSM agent is not registered or online for instance %s"
    [AStr ec2InstanceId].

(** The log lines of a resolved invocation. *)
Definition invocationLog (d : GetCommandInvocationOutput) : list event :=
  [EvGroup "Command invocation details";
   EvInfof "ResponseCode: %d" [AInt (ResponseCode d)];
   EvInfof "Status: %s" [AStr (Status d)];
   EvInfof "StdError: %s" [AStr (StandardErrorContent d)];
   (if (String.length (StandardOutputContent d) <? 1000)%nat
    then EvInfof "StdOutput: %s" [AStr (StandardOutputContent d)]
    else EvInfof "(enable debug to see full output)" []);
   EvEndGroup].

(** Line 98, for some role of the profile. *)
Definition hasRole (iamRoleName : string) (profile : InstanceProfile) : Prop :=
  exists role, In role (Roles profile) /\ RoleName role = iamRoleName.

(** The log line of line 99. *)
Definition profileExists (iamRoleName : string) : event :=
  EvInfof "Instance profile for IAM role %s already exists." [AStr iamRoleName].

(** What creating the profile and attaching the role leaves behind. *)
Definition createAndAttach (iamRoleName : string) : list event :=
  [EvCreateInstanceProfile iamRoleName None;
   EvInfof "Created instance profile %s" [AStr iamRoleName];
   EvAddRoleToInstanceProfile iamRoleName iamRoleName None;
   EvInfof "Attached role %s to instance profile %s"
     [AStr iamRoleName; AStr iamRoleName]].

(** The warning of line 51. *)
Definition raisedToMinimum : event :=
  EvWarningf "command-max-wait-secs raised to minimum 6 seconds" [].

(** The [command] branch of the mode switch, entered with the wait time
    [commandMaxWaitTime] in the world [w1]. *)
Definition commandFlow (fuel : nat) (env : Env) (commandMaxWaitTime : Z)
    (w1 : World) : outcome unit * World :=
  let ec2InstanceId := GetInput env "ec2-instance-id" in
  let command := GetInput env "command" in
  call (ExecuteCommandOnEC2Instance fuel env ec2InstanceId command
          commandMaxWaitTime w1)
    (fun commandId w2 =>
       let w3 :=
         emit (EvInfof
                 "Command '%s' sent to instance %s. Command ID: %s. Command wait time: %d secs"
                 [AStr command; AStr ec2InstanceId; AStr commandId;
                  AInt commandMaxWaitTime]) w2 in
       (Ok tt, emit (EvSetOutput "command-id" commandId) w3))
    (fun err w2 => (Fail err, w2)).

(** ** ec2_test.go: the mock clients *)

Definition testEC2ClientId : string := "i-1234567890abcdef0".

(** The answer of the mock [GetCommandInvocation]. *)
Definition mockInvocation : GetCommandInvocationOutput :=
  {| Inv_CommandId := "command-id-123";
     Inv_InstanceId := testEC2ClientId;
     Status := "Success";
     ResponseCode := 200;
     StandardOutputContent := "Hello World!";
     StandardErrorContent := "" |}.

(** [MockEC2Client], [MockSSMClient] and [MockIAMClient] over the given
    inputs; the waiter over the mock's [GetCommandInvocation], whose status
    is [Success], delivers that output. *)
Definition mockEnv (inputs : string -> string) : Env :=
  {| GetInput := inputs;
     json_Unmarshal := fun _ => inr (ApiError "invalid character");
     config_LoadDefaultConfig := None;
     latency := fun _ => 0%N;
     ec2_RunInstances := fun _ _ =>
       inl {| RunInstances_Instances :=
                [{| InstanceId := testEC2ClientId; StateName := "" |}] |};
     ec2_DescribeInstances := fun _ _ =>
       inl {| Reservations :=
                [{| Instances :=
                      [{| InstanceId := testEC2ClientId;
                          StateName := InstanceStateNameRunning |}] |}] |};
     ec2_TerminateInstances := fun _ _ => None;
     iam_ListInstanceProfiles := fun _ =>
       inl {| InstanceProfiles :=
                [{| InstanceProfileName := "test-role";
                    Roles := [{| RoleName := "test-role" |}] |}] |};
     iam_CreateInstanceProfile := fun _ _ => None;
     iam_AddRoleToInstanceProfile := fun _ _ _ => None;
     ssm_DescribeInstanceInformation := fun _ _ =>
       inl {| InstanceInformationList :=
                [{| Info_InstanceId := testEC2ClientId;
                    PingStatus := PingStatusOnline |}] |};
     ssm_SendCommand := fun _ _ => inl {| CommandId := "command-id-123" |};
     ssm_WaitForOutput := fun _ _ _ _ => inl mockInvocation |}.

(** No input set. *)
Definition noInputs : string -> string := fun _ => "".

(** [key = value] pairs as action inputs. *)
Fixpoint inputsOf (kvs : list (string * string)) (name : string) : string :=
  match kvs with
  | [] => ""
  | (k, v) :: rest => if (k =? name)%string then v else inputsOf rest name
  end.

(** The world at the start of the process. *)
Definition w0 : World := {| now := 0; trace := [] |}.

(** ** Other collaborators *)

(** A describe answer showing the instance [i-1] in the state [st]. *)
Definition stateResp (st : string) : DescribeInstancesOutput :=
  {| Reservations :=
       [{| Instances := [{| InstanceId := "i-1"; StateName := st |}] |}] |}.

(** An instance that is pending twice and then running. *)
Definition startingEnv : Env :=
  {| GetInput := noInputs;
     json_Unmarshal := fun _ => inr (ApiError "invalid character");
     config_LoadDefaultConfig := None;
     latency := fun _ => 0%N;
     ec2_RunInstances := fun _ _ =>
       inl {| RunInstances_Instances :=
                [{| InstanceId := "i-1"; StateName := "pending" |}] |};
     ec2_DescribeInstances := fun k _ =>
       inl (stateResp (if (k <? 2)%nat then "pending" else "running"));
     ec2_TerminateInstances := fun _ _ => None;
     iam_ListInstanceProfiles := fun _ => inl {| InstanceProfiles := [] |};
     iam_CreateInstanceProfile := fun _ _ => None;
     iam_AddRoleToInstanceProfile := fun _ _ _ => None;
     ssm_DescribeInstanceInformation := fun _ _ =>
       inl {| InstanceInformationList := [] |};
     ssm_SendCommand := fun _ _ => inl {| CommandId := "command-id-123" |};
     ssm_WaitForOutput := fun _ _ _ _ => inl mockInvocation |}.

(** An instance that stays pending for ever. *)
Definition pendingEnv : Env :=
  {| GetInput := noInputs;
     json_Unmarshal := fun _ => inr (ApiError "invalid character");
     config_LoadDefaultConfig := None;
     latency := fun _ => 0%N;
     ec2_RunInstances := fun _ _ =>
       inl {| RunInstances_Instances :=
                [{| InstanceId := "i-1"; StateName := "pending" |}] |};
     ec2_DescribeInstances := fun _ _ => inl (stateResp "pending");
     ec2_TerminateInstances := fun _ _ => None;
     iam_ListInstanceProfiles := fun _ => inl {| InstanceProfiles := [] |};
     iam_CreateInstanceProfile := fun _ _ => None;
     iam_AddRoleToInstanceProfile := fun _ _ _ => None;
     ssm_DescribeInstanceInformation := fun _ _ =>
       inl {| InstanceInformationList := [] |};
     ssm_SendCommand := fun _ _ => inl {| CommandId := "command-id-123" |};
     ssm_WaitForOutput := fun _ _ _ _ => inl mockInvocation |}.

(** An agent that never comes online. *)
Definition offlineEnv : Env :=
  {| GetInput := noInputs;
     json_Unmarshal := fun _ => inr (ApiError "invalid character");
     config_LoadDefaultConfig := None;
     latency := fun _ => 0%N;
     ec2_RunInstances := fun _ _ => inr (ApiError "unused");
     ec2_DescribeInstances := fun _ _ => inr (ApiError "unused");
     ec2_TerminateInstances := fun _ _ => None;
     iam_ListInstanceProfiles := fun _ => inl {| InstanceProfiles := [] |};
     iam_CreateInstanceProfile := fun _ _ => None;
     iam_AddRoleToInstanceProfile := fun _ _ _ => None;
     ssm_DescribeInstanceInformation := fun _ _ =>
       inl {| InstanceInformationList :=
                [{| Info_InstanceId := "i-1"; PingStatus := "ConnectionLost" |}] |};
     ssm_SendCommand := fun _ _ => inl {| CommandId := "command-id-123" |};
     ssm_WaitForOutput := fun _ _ _ _ => inl mockInvocation |}.




(** An account with one unrelated profile, which lists the profile
    [runner-role] from the second listing on. *)
Definition otherProfile : InstanceProfile :=
  {| InstanceProfileName := "db-profile"; Roles := [{| RoleName := "db-role" |}] |}.
Definition runnerProfile : InstanceProfile :=
  {| InstanceProfileName := "runner-role";
     Roles := [{| RoleName := "runner-role" |}] |}.

Definition freshIamEnv : Env :=
  {| GetInput := noInputs;
     json_Unmarshal := fun _ => inr (ApiError "invalid character");
     config_LoadDefaultConfig := None;
     latency := fun _ => 0%N;
     ec2_RunInstances := fun _ _ => inr (ApiError "unused");
     ec2_DescribeInstances := fun _ _ => inr (ApiError "unused");
     ec2_TerminateInstances := fun _ _ => None;
     iam_ListInstanceProfiles := fun k =>
       inl {| InstanceProfiles :=
                match k with
                | O => [otherProfile]
                | S _ => [otherProfile; runnerProfile]
                end |};
     iam_CreateInstanceProfile := fun _ _ => None;
     iam_AddRoleToInstanceProfile := fun _ _ _ => None;
     ssm_DescribeInstanceInformation := fun _ _ =>
       inl {| InstanceInformationList := [] |};
     ssm_SendCommand := fun _ _ => inr (ApiError "unused");
     ssm_WaitForOutput := fun _ _ _ _ => inr (ApiError "unused") |}.


(** A [command] invocation with the given wait-time input. *)
Definition commandInputs (maxWait : string) : string -> string :=
  inputsOf [("mode", "command"); ("ec2-instance-id", testEC2ClientId);
            ("command", "echo hi"); ("command-max-wait-secs", maxWait)].

(** A [stop] invocation that leaves the wait-time input out. *)
Definition stopInputs : string -> string :=
  inputsOf [("mode", "stop"); ("ec2-instance-id", "i-1")].

(** ** Kinds of events, runs that only add events of a kind *)

Definition isEC2 (e : event) : bool :=
  isRunInstances e || isDescribeInstances e || isTerminateInstances e.
Definition isIAM (e : event) : bool :=
  isListInstanceProfiles e || isCreateInstanceProfile e
  || isAddRoleToInstanceProfile e.
Definition isSSM (e : event) : bool :=
  isDescribeInstanceInformation e || isSendCommand e || isWaitForOutput e.
(** A call to one of the three services. *)
Definition isServiceCall (e : event) : bool := isEC2 e || isIAM e || isSSM e.
Definition isSetOutput (e : event) : bool :=
  match e with EvSetOutput _ _ => true | _ => false end.
Definition isFatalf (e : event) : bool :=
  match e with EvFatalf _ _ => true | _ => false end.

(** [w'] is [w] after some more events, all of them in [P]; the clock has
    not gone back. *)
Definition grows (P : event -> Prop) (w w' : World) : Prop :=
  exists new, trace w' = trace w ++ new /\ Forall P new /\ now w <= now w'.

(** The events [WaitForInstanceRunning] can add. *)
Definition waitEvent (instanceId : string) (ev : event) : Prop :=
  (exists r, ev = EvDescribeInstances [instanceId] r)
  \/ (exists st, ev = EvInfof "Instance state: %s" [AStr st])
  \/ ev = EvInfof "Instance %s is now running." [AStr instanceId]
  \/ ev = EvSleep (5 * Second).

(** An instance whose second describe call fails. *)
Definition flakyEnv : Env :=
  {| GetInput := noInputs;
     json_Unmarshal := fun _ => inr (ApiError "invalid character");
     config_LoadDefaultConfig := None;
     latency := fun _ => 0%N;
     ec2_RunInstances := fun _ _ =>
       inl {| RunInstances_Instances :=
                [{| InstanceId := "i-1"; StateName := "pending" |}] |};
     ec2_DescribeInstances := fun k _ =>
       match k with
       | O => inl (stateResp "pending")
       | S _ => inr (ApiError "RequestLimitExceeded")
       end;
     ec2_TerminateInstances := fun _ _ => None;
     iam_ListInstanceProfiles := fun _ => inl {| InstanceProfiles := [] |};
     iam_CreateInstanceProfile := fun _ _ => None;
     iam_AddRoleToInstanceProfile := fun _ _ _ => None;
     ssm_DescribeInstanceInformation := fun _ _ =>
       inl {| InstanceInformationList := [] |};
     ssm_SendCommand := fun _ _ => inl {| CommandId := "command-id-123" |};
     ssm_WaitForOutput := fun _ _ _ _ => inl mockInvocation |}.

(** An instance whose second describe answer holds no reservation. *)
Definition vanishingEnv : Env :=
  {| GetInput := noInputs;
     json_Unmarshal := fun _ => inr (ApiError "invalid character");
     config_LoadDefaultConfig := None;
     latency := fun _ => 0%N;
     ec2_RunInstances := fun _ _ =>
       inl {| RunInstances_Instances :=
                [{| InstanceId := "i-1"; StateName := "pending" |}] |};
     ec2_DescribeInstances := fun k _ =>
       match k with
       | O => inl (stateResp "pending")
       | S _ => inl {| Reservations := [] |}
       end;
     ec2_TerminateInstances := fun _ _ => None;
     iam_ListInstanceProfiles := fun _ => inl {| InstanceProfiles := [] |};
     iam_CreateInstanceProfile := fun _ _ => None;
     iam_AddRoleToInstanceProfile := fun _ _ _ => None;
     ssm_DescribeInstanceInformation := fun _ _ =>
       inl {| InstanceInformationList := [] |};
     ssm_SendCommand := fun _ _ => inl {| CommandId := "command-id-123" |};
     ssm_WaitForOutput := fun _ _ _ _ => inl mockInvocation |}.

Definition isLog (e : event) : bool :=
  match e with
  | EvInfof _ _ | EvWarningf _ _ | EvGroup _ | EvEndGroup => true
  | _ => false
  end.

(** What each function can add to the history, by kind. *)
Definition waitKind (e : event) : bool :=
  isDescribeInstances e || isLog e || isSleep e.
Definition regKind (e : event) : bool :=
  isDescribeInstanceInformation e || isLog e || isSleep e.
Definition execKind (e : event) : bool := isSSM e || isLog e || isSleep e.
Definition profileKind (e : event) : bool := isIAM e || isLog e.
Definition startKind (e : event) : bool :=
  isRunInstances e || isDescribeInstances e || isIAM e || isLog e || isSleep e
  || isFatalf e.
Definition stopKind (e : event) : bool := isTerminateInstances e || isLog e.

(** An agent that is reported online from the third describe call on, each
    call taking two seconds. *)
Definition slowAgentEnv : Env :=
  {| GetInput := noInputs;
     json_Unmarshal := fun _ => inr (ApiError "invalid character");
     config_LoadDefaultConfig := None;
     latency := fun _ => 2000000000%N;
     ec2_RunInstances := fun _ _ => inr (ApiError "unused");
     ec2_DescribeInstances := fun _ _ => inr (ApiError "unused");
     ec2_TerminateInstances := fun _ _ => None;
     iam_ListInstanceProfiles := fun _ => inl {| InstanceProfiles := [] |};
     iam_CreateInstanceProfile := fun _ _ => None;
     iam_AddRoleToInstanceProfile := fun _ _ _ => None;
     ssm_DescribeInstanceInformation := fun k _ =>
       inl {| InstanceInformationList :=
                if (k <? 2)%nat then []
                else [{| Info_InstanceId := "i-1";
                         PingStatus := PingStatusOnline |}] |};
     ssm_SendCommand := fun _ _ => inl {| CommandId := "command-id-123" |};
     ssm_WaitForOutput := fun _ _ _ _ => inl mockInvocation |}.

(** The request [CreateAndStartEC2Instance] has built when it calls
    RunInstances, from its arguments, the parsed tags and the profile. *)
Definition startRequest (ec2AmiId subnetId securityGroupId instanceType
    userData : string) (tags : list TagSpecification)
    (instanceProfileName : option string) : RunInstancesInput :=
  {| ImageId := ec2AmiId;
     InstanceType := instanceType;
     MaxCount := 1;
     MinCount := 1;
     MonitoringEnabled := false;
     SubnetId := subnetId;
     SecurityGroupIds := [securityGroupId];
     UserData := StdEncoding userData;
     TagSpecifications := tags;
     IamInstanceProfile := instanceProfileName |}.

(** Lines 50-60 of [CreateAndStartEC2Instance]: RunInstances, then the wait. *)
Definition launch (fuel : nat) (env : Env) (startParams : RunInstancesInput)
    : M string :=
  fun w1 =>
  let r := ec2_RunInstances env (calls isRunInstances (trace w1)) startParams in
  let w2 := called env (EvRunInstances startParams r) w1 in
  match r with
  | inr err => (Fail (Errorf "error starting EC2 instance: %v" [AErr err]), w2)
  | inl runResult =>
    match RunInstances_Instances runResult with
    | [] => (Panic, w2)
    | inst :: _ =>
      let instanceId := InstanceId inst in
      call (WaitForInstanceRunning fuel env instanceId w2)
        (fun _ w3 => (Ok instanceId, w3))
        (fun err w3 =>
           (Fail (Errorf "error waiting for instance to be running: %v"
                    [AErr err]), w3))
    end
  end.

(** The world in which [getInputs] enters the mode switch when the wait
    time parsed to [n] and the configuration loaded. *)
Definition afterConfig (env : Env) (n : Z) (w : World) : World :=
  called env (EvLoadDefaultConfig None)
    (if n <=? 5 then emit raisedToMinimum w else w).

(** The instance type [getInputs] passes on: lines 35-38. *)
Definition instanceTypeOf (env : Env) : string :=
  if (GetInput env "ec2-instance-type" =? "")%string then "t2.micro"
  else GetInput env "ec2-instance-type".

(** The mock clients behind a [start] invocation that names a role. *)
Definition startInputs : string -> string :=
  inputsOf [("mode", "start"); ("ec2-image-id", "ami-1");
            ("subnet-id", "subnet-1"); ("security-group-id", "sg-1");
            ("iam-role-name", "test-role");
            ("command-max-wait-secs", "300")].

(** A plain [start] invocation: no role, no tags, no instance type. *)
Definition plainStartInputs : string -> string :=
  inputsOf [("mode", "start"); ("ec2-image-id", "ami-1");
            ("subnet-id", "subnet-1"); ("security-group-id", "sg-1");
            ("user-data", "#!/bin/sh");
            ("command-max-wait-secs", "300")].

(** [startingEnv], [flakyEnv] with other inputs. *)
Definition withInputs (inputs : string -> string) (env : Env) : Env :=
  {| GetInput := inputs;
     json_Unmarshal := json_Unmarshal env;
     config_LoadDefaultConfig := config_LoadDefaultConfig env;
     latency := latency env;
     ec2_RunInstances := ec2_RunInstances env;
     ec2_DescribeInstances := ec2_DescribeInstances env;
     ec2_TerminateInstances := ec2_TerminateInstances env;
     iam_ListInstanceProfiles := iam_ListInstanceProfiles env;
     iam_CreateInstanceProfile := iam_CreateInstanceProfile env;
     iam_AddRoleToInstanceProfile := iam_AddRoleToInstanceProfile env;
     ssm_DescribeInstanceInformation := ssm_DescribeInstanceInformation env;
     ssm_SendCommand := ssm_SendCommand env;
     ssm_WaitForOutput := ssm_WaitForOutput env |}.

Definition isLoadDefaultConfig (e : event) : bool :=
  match e with EvLoadDefaultConfig _ => true | _ => false end.

(** What [getInputs] adds before the mode switch. *)
Definition preKind (e : event) : bool := isLog e || isLoadDefaultConfig e.

(** What the flow of a mode can add, by kind; nothing for other modes. *)
Definition innerKind (mode : string) (e : event) : bool :=
  if (mode =? "start")%string then startKind e
  else if (mode =? "command")%string then execKind e
  else if (mode =? "stop")%string then stopKind e
  else false.

(** The inputs name a supported mode and what that mode requires: the
    tests of lines 28, 66, 78 and 89 and the [default] case. *)
Definition requiredPresent (env : Env) : bool :=
  let present name := negb (GetInput env name =? "")%string in
  if (GetInput env "mode" =? "start")%string then
    present "ec2-image-id" && present "subnet-id" && present "security-group-id"
  else if (GetInput env "mode" =? "command")%string then
    present "ec2-instance-id" && present "command"
  else if (GetInput env "mode" =? "stop")%string then
    present "ec2-instance-id"
  else false.

(** The ways a run of [getInputs] can end after the flow of its mode. *)
Definition flowEnd (env : Env) (o : outcome unit) (tail : list event) : Prop :=
  tail = []
  \/ (exists instanceId,
        GetInput env "mode" = "start" /\ o = Ok tt
        /\ tail = [EvInfof "Started EC2 instance with ID: %s" [AStr instanceId];
                   EvSetOutput "ec2-instance-id" instanceId])
  \/ (exists err,
        GetInput env "mode" = "start" /\ o = Exit
        /\ tail = [EvFatalf "Error occurred: %v" [AErr err]])
  \/ (exists commandId n,
        GetInput env "mode" = "command" /\ o = Ok tt
        /\ tail = [EvInfof
                     "Command '%s' sent to instance %s. Command ID: %s. Command wait time: %d secs"
                     [AStr (GetInput env "command");
                      AStr (GetInput env "ec2-instance-id");
                      AStr commandId; AInt n];
                   EvSetOutput "command-id" commandId]).

(** A [stop] invocation against a service that refuses. *)
Definition refusingEnv : Env :=
  {| GetInput := inputsOf [("mode", "stop"); ("ec2-instance-id", "i-1");
                           ("command-max-wait-secs", "300")];
     json_Unmarshal := fun _ => inr (ApiError "invalid character");
     config_LoadDefaultConfig := None;
     latency := fun _ => 0%N;
     ec2_RunInstances := fun _ _ => inr (ApiError "unused");
     ec2_DescribeInstances := fun _ _ => inr (ApiError "unused");
     ec2_TerminateInstances := fun _ _ => Some (ApiError "UnauthorizedOperation");
     iam_ListInstanceProfiles := fun _ => inl {| InstanceProfiles := [] |};
     iam_CreateInstanceProfile := fun _ _ => None;
     iam_AddRoleToInstanceProfile := fun _ _ _ => None;
     ssm_DescribeInstanceInformation := fun _ _ =>
       inl {| InstanceInformationList := [] |};
     ssm_SendCommand := fun _ _ => inr (ApiError "unused");
     ssm_WaitForOutput := fun _ _ _ _ => inr (ApiError "unused") |}.

(** An invocation with a mode the program does not know. *)
Definition bogusInputs : string -> string :=
  inputsOf [("mode", "bogus"); ("command-max-wait-secs", "300")].

(** A [start] invocation without subnet. *)
Definition noSubnetInputs : string -> string :=
  inputsOf [("mode", "start"); ("ec2-image-id", "ami-1");
            ("security-group-id", "sg-1"); ("command-max-wait-secs", "300")].

(** An agent that is reported online from the third describe call on, the
    calls taking no time. *)
Definition lateAgentEnv : Env :=
  {| GetInput := noInputs;
     json_Unmarshal := fun _ => inr (ApiError "invalid character");
     config_LoadDefaultConfig := None;
     latency := fun _ => 0%N;
     ec2_RunInstances := fun _ _ => inr (ApiError "unused");
     ec2_DescribeInstances := fun _ _ => inr (ApiError "unused");
     ec2_TerminateInstances := fun _ _ => None;
     iam_ListInstanceProfiles := fun _ => inl {| InstanceProfiles := [] |};
     iam_CreateInstanceProfile := fun _ _ => None;
     iam_AddRoleToInstanceProfile := fun _ _ _ => None;
     ssm_DescribeInstanceInformation := fun k _ =>
       inl {| InstanceInformationList :=
                if (k <? 2)%nat then []
                else [{| Info_InstanceId := "i-1";
                         PingStatus := PingStatusOnline |}] |};
     ssm_SendCommand := fun _ _ => inl {| CommandId := "command-id-123" |};
     ssm_WaitForOutput := fun _ _ _ _ => inl mockInvocation |}.

(** ** The unit tests, run on the model *)

Example TestWaitForInstanceRunning :
  fst (WaitForInstanceRunning 1 (mockEnv noInputs) testEC2ClientId w0) = Ok tt.
Proof. reflexivity. Qed.

Example TestGetOrCreateInstanceProfile :
  fst (GetOrCreateInstanceProfile (mockEnv noInputs) "test-role" w0)
  = Ok "test-role".
Proof. reflexivity. Qed.

Example TestIsSSMAgentRegistered :
  fst (IsSSMAgentRegistered 0 (mockEnv noInputs) (testEC2ClientId ++ "xx")%string 0 0 w0)
  = Ok false.
Proof. reflexivity. Qed.

Example TestExecuteCommandOnEC2Instance :
  fst (ExecuteCommandOnEC2Instance 1 (mockEnv noInputs) testEC2ClientId
         "echo 'Hello, World!'" 60 w0)
  = Ok "command-id-123".
Proof. reflexivity. Qed.

Example TestTerminateEC2Instance :
  fst (TerminateEC2Instance (mockEnv noInputs) testEC2ClientId w0) = Ok tt.
Proof. reflexivity. Qed.

Example Atoi_300 : Atoi "300" = inl 300.
Proof. reflexivity. Qed.

Example Atoi_minus7 : Atoi "-7" = inl (-7).
Proof. reflexivity. Qed.

Example Atoi_junk : Atoi "5s" = inr (NumError "Atoi" "5s").
Proof. reflexivity. Qed.

Example Atoi_range : Atoi "9223372036854775808" = inr (NumError "Atoi" "9223372036854775808").
Proof. reflexivity. Qed.

Example getInputs_stop :
  getInputs 0
    (mockEnv (inputsOf [("mode", "stop"); ("ec2-instance-id", "i-1");
                        ("command-max-wait-secs", "300")])) w0
  = (Ok tt,
     {| now := 0;
        trace := [EvLoadDefaultConfig None;
                  EvTerminateInstances ["i-1"] None;
                  EvInfof "Instance %s is stopping..." [AStr "i-1"]] |}).
Proof. reflexivity. Qed.

(** * Properties *)

(** ** The history only grows *)

Lemma calls_app (kind : event -> bool) (a b : list event) :
  calls kind (a ++ b) = (calls kind a + calls kind b)%nat.
Proof. unfold calls. now rewrite filter_app, length_app. Qed.

Lemma calls_snoc (kind : event -> bool) (tr : list event) (ev : event) :
  calls kind (tr ++ [ev]) = if kind ev then S (calls kind tr) else calls kind tr.
Proof. rewrite calls_app. unfold calls. simpl. destruct (kind ev); simpl; lia. Qed.

Lemma trace_emit ev w : trace (emit ev w) = trace w ++ [ev].
Proof. reflexivity. Qed.

Lemma trace_called env ev w : trace (called env ev w) = trace w ++ [ev].
Proof. reflexivity. Qed.

Lemma trace_time_Sleep env d w : trace (time_Sleep env d w) = trace w ++ [EvSleep d].
Proof. reflexivity. Qed.

Lemma now_emit ev w : now (emit ev w) = now w.
Proof. reflexivity. Qed.

Lemma now_called_eq env ev w :
  now (called env ev w) = now w + Z.of_N (latency env (List.length (trace w))).
Proof. reflexivity. Qed.

Lemma now_time_Sleep_eq env d w :
  now (time_Sleep env d w)
  = now w + Z.max 0 d + Z.of_N (latency env (List.length (trace w))).
Proof. reflexivity. Qed.

Lemma now_called env ev w : now w <= now (called env ev w).
Proof. unfold called; simpl; lia. Qed.

Lemma now_time_Sleep env d w : now w + Z.max 0 d <= now (time_Sleep env d w).
Proof. unfold time_Sleep; simpl; lia. Qed.

(** ** WaitForInstanceRunning *)

Lemma WaitForInstanceRunning_loop_running fuel env instanceId w :
  WaitForInstanceRunning_loop fuel env instanceId "running" w
  = (Ok tt, emit (EvInfof "Instance %s is now running." [AStr instanceId]) w).
Proof. destruct fuel; reflexivity. Qed.

(** One turn of the loop on a well-formed answer. *)
Lemma WaitForInstanceRunning_loop_step fuel env instanceId st0 w resp st :
  st0 <> "running" ->
  ec2_DescribeInstances env (calls isDescribeInstances (trace w)) [instanceId]
    = inl resp ->
  describedState resp = Some st ->
  WaitForInstanceRunning_loop (S fuel) env instanceId st0 w
  = WaitForInstanceRunning_loop fuel env instanceId st
      (let w2 := emit (EvInfof "Instance state: %s" [AStr st])
                   (called env (EvDescribeInstances [instanceId] (inl resp)) w) in
       if negb (st =? "running")%string
       then time_Sleep env (5 * Second) w2 else w2).
Proof.
  intros Hst Hans Hds. apply String.eqb_neq in Hst.
  simpl. rewrite Hst. simpl. rewrite Hans.
  unfold describedState in Hds.
  destruct (Reservations resp) as [|reservation ?]; [discriminate|].
  destruct (Instances reservation) as [|inst ?]; [discriminate|].
  injection Hds as Hds. rewrite Hds. reflexivity.
Qed.

Lemma WaitForInstanceRunning_loop_polls env instanceId :
  forall (resps : list DescribeInstancesOutput) (last : DescribeInstancesOutput)
         (fuel : nat) (st0 : string) (w : World),
    st0 <> "running" ->
    (forall i resp, nth_error resps i = Some resp ->
       ec2_DescribeInstances env (calls isDescribeInstances (trace w) + i)
         [instanceId] = inl resp
       /\ exists st, describedState resp = Some st /\ st <> "running") ->
    ec2_DescribeInstances env
      (calls isDescribeInstances (trace w) + List.length resps) [instanceId]
      = inl last ->
    describedState last = Some "running" ->
    (List.length resps < fuel)%nat ->
    exists w',
      WaitForInstanceRunning_loop fuel env instanceId st0 w = (Ok tt, w')
      /\ trace w' = trace w ++ flat_map (pollNotRunning instanceId) resps
                            ++ pollRunning instanceId last.
Proof.
  induction resps as [|resp resps IH];
    intros last fuel st0 w Hst Hresps Hlast Hrun Hfuel.
  - destruct fuel as [|fuel]; [simpl in Hfuel; lia|].
    simpl in Hlast. rewrite Nat.add_0_r in Hlast.
    rewrite (WaitForInstanceRunning_loop_step _ _ _ _ _ _ _ Hst Hlast Hrun).
    rewrite WaitForInstanceRunning_loop_running.
    eexists. split; [reflexivity|].
    simpl. rewrite <- !app_assoc. reflexivity.
  - destruct fuel as [|fuel]; [simpl in Hfuel; lia|].
    simpl in Hfuel.
    destruct (Hresps 0%nat resp eq_refl) as [Hans [st [Hds Hne]]].
    rewrite Nat.add_0_r in Hans.
    rewrite (WaitForInstanceRunning_loop_step _ _ _ _ _ _ _ Hst Hans Hds).
    pose proof Hne as Hne'. apply String.eqb_neq in Hne'. rewrite Hne'.
    cbv zeta. simpl negb. cbv iota.
    match goal with
    | |- context [WaitForInstanceRunning_loop _ _ _ _ ?w1] => set (w3 := w1)
    end.
    assert (Hc : calls isDescribeInstances (trace w3)
                 = S (calls isDescribeInstances (trace w))).
    { unfold w3. rewrite trace_time_Sleep, trace_emit, trace_called.
      rewrite !calls_snoc. reflexivity. }
    destruct (IH last fuel st w3 Hne) as [w' [Hw' Htr]].
    + intros i r Hi. rewrite Hc.
      replace (S (calls isDescribeInstances (trace w)) + i)%nat
        with (calls isDescribeInstances (trace w) + S i)%nat by lia.
      apply Hresps. exact Hi.
    + rewrite Hc.
      replace (S (calls isDescribeInstances (trace w)) + List.length resps)%nat
        with (calls isDescribeInstances (trace w) + List.length (resp :: resps))%nat
        by (simpl; lia).
      exact Hlast.
    + exact Hrun.
    + lia.
    + exists w'. split; [exact Hw'|].
      rewrite Htr. unfold w3.
      rewrite trace_time_Sleep, trace_emit, trace_called.
      simpl flat_map. unfold pollNotRunning at 2. rewrite Hds.
      rewrite <- !app_assoc. reflexivity.
Qed.

Example starting_three_polls :
  WaitForInstanceRunning 3 startingEnv "i-1" w0
  = (Ok tt,
     {| now := 10 * Second;
        trace :=
          [EvDescribeInstances ["i-1"] (inl (stateResp "pending"));
           EvInfof "Instance state: %s" [AStr "pending"];
           EvSleep 5000000000;
           EvDescribeInstances ["i-1"] (inl (stateResp "pending"));
           EvInfof "Instance state: %s" [AStr "pending"];
           EvSleep 5000000000;
           EvDescribeInstances ["i-1"] (inl (stateResp "running"));
           EvInfof "Instance state: %s" [AStr "running"];
           EvInfof "Instance %s is now running." [AStr "i-1"]] |}).
Proof. reflexivity. Qed.

(** The only error the function returns wraps the describe call's. *)
Lemma WaitForInstanceRunning_loop_errors fuel env instanceId :
  forall st0 w e w',
    WaitForInstanceRunning_loop fuel env instanceId st0 w = (Fail e, w') ->
    exists err,
      e = Errorf "error describing instance %s: %v" [AStr instanceId; AErr err]
      /\ exists tr, trace w' = tr ++ [EvDescribeInstances [instanceId] (inr err)].
Proof.
  induction fuel as [|fuel IH]; intros st0 w e w' H; simpl in H.
  - destruct (negb (st0 =? "running")%string); discriminate.
  - destruct (negb (st0 =? "running")%string); [|discriminate].
    destruct (ec2_DescribeInstances env _ [instanceId]) as [resp|err] eqn:Hr.
    + destruct (Reservations resp) as [|reservation ?]; [discriminate|].
      destruct (Instances reservation) as [|inst ?]; [discriminate|].
      eapply IH. exact H.
    + injection H as <- <-. exists err. split; [reflexivity|].
      eexists. apply trace_called.
Qed.

Lemma pendingEnv_never_returns :
  forall fuel st0 w,
    st0 <> "running" ->
    exists w',
      WaitForInstanceRunning_loop fuel pendingEnv "i-1" st0 w = (Running, w')
      /\ now w' = now w + 5 * Second * Z.of_nat fuel
      /\ calls isDescribeInstances (trace w')
         = (calls isDescribeInstances (trace w) + fuel)%nat
      /\ calls isSleep (trace w') = (calls isSleep (trace w) + fuel)%nat.
Proof.
  induction fuel as [|fuel IH]; intros st0 w Hst.
  - exists w. simpl. apply String.eqb_neq in Hst. rewrite Hst. simpl.
    repeat split; lia.
  - rewrite (WaitForInstanceRunning_loop_step fuel pendingEnv "i-1" st0 w
               (stateResp "pending") "pending" Hst eq_refl eq_refl).
    cbv zeta. simpl negb. cbv iota.
    match goal with
    | |- context [WaitForInstanceRunning_loop _ _ _ _ ?w1] => set (w3 := w1)
    end.
    destruct (IH "pending" w3) as [w' [Hw' [Hnow [Hd Hs]]]]; [discriminate|].
    exists w'. split; [exact Hw'|].
    rewrite Hnow, Hd, Hs. unfold w3.
    rewrite now_time_Sleep_eq, now_emit, now_called_eq.
    rewrite trace_time_Sleep, trace_emit, trace_called, !calls_snoc.
    cbn [latency pendingEnv isDescribeInstances isSleep]. unfold Second.
    repeat split; lia.
Qed.

(** C1. An instance that never leaves [pending]: whatever the number of
    polls allowed, the wait has not returned, neither with success nor with
    a timeout error; after [fuel] polls it has described the instance [fuel]
    times, slept [fuel] times and the clock stands at [5 s * fuel].  The
    function has no deadline, although its comment promises an error when
    the instance fails to reach the running state within a certain time. *)
Theorem WaitForInstanceRunning_has_no_deadline :
  forall fuel : nat,
    exists w',
      WaitForInstanceRunning fuel pendingEnv "i-1" w0 = (Running, w')
      /\ now w' = 5 * Second * Z.of_nat fuel
      /\ calls isDescribeInstances (trace w') = fuel
      /\ calls isSleep (trace w') = fuel.
Proof.
  intro fuel.
  destruct (pendingEnv_never_returns fuel "" w0) as [w' [H [Hn [Hd Hs]]]];
    [discriminate|].
  exists w'. split; [exact H|]. simpl in Hn, Hd, Hs. repeat split; assumption.
Qed.

(** C7. For every sequence of answers showing states other than [running]
    followed by one showing [running], the wait succeeds, and what it did is
    exactly: for each of the former one describe call, its log line and one
    sleep of 5 seconds; then the describe call that saw [running], its log
    line and the closing log line, with no describe call and no sleep after
    it. *)
Theorem WaitForInstanceRunning_polls_then_returns :
  forall (env : Env) (instanceId : string) (w : World)
         (resps : list DescribeInstancesOutput) (last : DescribeInstancesOutput)
         (fuel : nat),
    (forall i resp, nth_error resps i = Some resp ->
       ec2_DescribeInstances env (calls isDescribeInstances (trace w) + i)
         [instanceId] = inl resp
       /\ exists st, describedState resp = Some st /\ st <> "running") ->
    ec2_DescribeInstances env
      (calls isDescribeInstances (trace w) + List.length resps) [instanceId]
      = inl last ->
    describedState last = Some "running" ->
    (List.length resps < fuel)%nat ->
    exists w',
      WaitForInstanceRunning fuel env instanceId w = (Ok tt, w')
      /\ trace w' = trace w ++ flat_map (pollNotRunning instanceId) resps
                            ++ pollRunning instanceId last.
Proof.
  intros env instanceId w resps last fuel Hresps Hlast Hrun Hfuel.
  unfold WaitForInstanceRunning.
  apply WaitForInstanceRunning_loop_polls; try assumption. discriminate.
Qed.

Lemma WaitForInstanceRunning_polls_then_returns_witness :
  exists w',
    WaitForInstanceRunning 3 startingEnv "i-1" w0 = (Ok tt, w')
    /\ trace w'
       = trace w0
         ++ flat_map (pollNotRunning "i-1")
              [stateResp "pending"; stateResp "pending"]
         ++ pollRunning "i-1" (stateResp "running").
Proof.
  apply (WaitForInstanceRunning_polls_then_returns startingEnv "i-1" w0
           [stateResp "pending"; stateResp "pending"] (stateResp "running") 3).
  - intros i resp Hi.
    destruct i as [|[|[|i]]]; simpl in Hi; try discriminate;
      injection Hi as <-; (split; [reflexivity|]);
      exists "pending"; (split; [reflexivity|discriminate]).
  - reflexivity.
  - reflexivity.
  - simpl. lia.
Defined.

(** ** IsSSMAgentRegistered *)

Lemma IsSSMAgentRegistered_loop_run env ec2InstanceId endTime interval :
  forall fuel w o w',
    IsSSMAgentRegistered_loop fuel env ec2InstanceId endTime interval w = (o, w') ->
    registrationRun ec2InstanceId interval endTime w o w'.
Proof.
  assert (Hdone : forall w, (now w <? endTime) = false ->
            registrationRun ec2InstanceId interval endTime w (Ok false)
              (emit (EvInfof
                       "Timeout reached. SSM agent is not registered for instance %s"
                       [AStr ec2InstanceId]) w)).
  { intros w Hlt. exists []. split; [constructor|].
    split; [rewrite now_emit; lia|].
    cbv zeta. cbn [flat_map]. rewrite app_nil_r.
    split; [reflexivity|]. rewrite now_emit. apply Z.ltb_ge. exact Hlt. }
  induction fuel as [|fuel IH]; intros w o w' H; simpl in H.
  - destruct (now w <? endTime) eqn:Hlt; injection H as <- <-.
    + exists []. split; [constructor|]. split; [lia|].
      cbv zeta. cbn [flat_map]. now rewrite app_nil_r.
    + apply Hdone. exact Hlt.
  - destruct (now w <? endTime) eqn:Hlt.
    + destruct (ssm_DescribeInstanceInformation env _ [ec2InstanceId])
        as [resp|err] eqn:Hr.
      * destruct (online ec2InstanceId resp) eqn:Hon.
        -- injection H as <- <-.
           exists []. split; [constructor|].
           split; [rewrite now_emit; apply now_called|].
           cbv zeta. cbn [flat_map]. rewrite app_nil_r.
           exists resp. split; [exact Hon|].
           rewrite trace_emit, trace_called, <- app_assoc. reflexivity.
        -- apply IH in H. destruct H as [resps [Hoff [Hnow Hsh]]].
           exists (resp :: resps). split; [constructor; assumption|].
           split.
           { etransitivity; [|exact Hnow].
             etransitivity; [|apply now_time_Sleep].
             rewrite now_emit.
             pose proof (now_called env
               (EvDescribeInstanceInformation [ec2InstanceId] (inl resp)) w).
             lia. }
           rewrite trace_time_Sleep, trace_emit, trace_called in Hsh.
           cbv zeta in Hsh |- *. cbn [flat_map].
           unfold pollOffline at 1.
           rewrite <- !app_assoc in Hsh. cbn [app] in Hsh.
           rewrite <- !app_assoc. cbn [app].
           exact Hsh.
      * injection H as <- <-.
        exists []. split; [constructor|]. split; [apply now_called|].
        cbv zeta. cbn [flat_map]. rewrite app_nil_r. apply trace_called.
    + injection H as <- <-. apply Hdone. exact Hlt.
Qed.

(** With a positive sleep the loop is left after finitely many turns. *)
Lemma IsSSMAgentRegistered_loop_terminates env ec2InstanceId endTime interval :
  0 < Seconds interval ->
  forall fuel w,
    (Z.to_nat (endTime - now w) < fuel)%nat ->
    fst (IsSSMAgentRegistered_loop fuel env ec2InstanceId endTime interval w)
    <> Running.
Proof.
  intros Hpos. induction fuel as [|fuel IH]; intros w Hfuel; [lia|].
  simpl. destruct (now w <? endTime) eqn:Hlt; [|discriminate].
  apply Z.ltb_lt in Hlt.
  destruct (ssm_DescribeInstanceInformation env _ [ec2InstanceId]) as [resp|err];
    [|discriminate].
  destruct (online ec2InstanceId resp); [discriminate|].
  apply IH.
  match goal with
  | |- context [now (time_Sleep ?e ?d ?w1)] =>
    pose proof (now_time_Sleep e d w1) as Hs
  end.
  rewrite now_emit in Hs.
  pose proof (now_called env
    (EvDescribeInstanceInformation [ec2InstanceId] (inl resp)) w) as Hc.
  lia.
Qed.

(** Against answers that never show the instance online, the loop is only
    left through its deadline. *)
Lemma IsSSMAgentRegistered_loop_offline env ec2InstanceId endTime interval :
  (forall k, exists resp,
      ssm_DescribeInstanceInformation env k [ec2InstanceId] = inl resp
      /\ online ec2InstanceId resp = false) ->
  forall fuel w,
    fst (IsSSMAgentRegistered_loop fuel env ec2InstanceId endTime interval w)
      = Ok false
    \/ fst (IsSSMAgentRegistered_loop fuel env ec2InstanceId endTime interval w)
      = Running.
Proof.
  intros Hoff. induction fuel as [|fuel IH]; intros w; simpl.
  - destruct (now w <? endTime); [right|left]; reflexivity.
  - destruct (now w <? endTime); [|left; reflexivity].
    destruct (Hoff (calls isDescribeInstanceInformation (trace w)))
      as [resp [Hr Hon]].
    rewrite Hr, Hon. apply IH.
Qed.

Lemma IsSSMAgentRegistered_terminates env ec2InstanceId timeout interval w :
  0 < Seconds interval ->
  forall fuel, (S (Z.to_nat (Seconds timeout)) <= fuel)%nat ->
    fst (IsSSMAgentRegistered fuel env ec2InstanceId timeout interval w)
    <> Running.
Proof.
  intros Hpos fuel Hfuel. unfold IsSSMAgentRegistered.
  apply IsSSMAgentRegistered_loop_terminates; [exact Hpos|].
  replace (now w + Seconds timeout - now w) with (Seconds timeout) by lia.
  lia.
Qed.



(** ** ExecuteCommandOnEC2Instance *)

Lemma Execute_not_registered fuel env ec2InstanceId command commandMaxWaitTime w w1 :
  IsSSMAgentRegistered fuel env ec2InstanceId 60 5 w = (Ok false, w1) ->
  ExecuteCommandOnEC2Instance fuel env ec2InstanceId command commandMaxWaitTime w
  = (Fail (AgentNotRegistered ec2InstanceId), w1).
Proof. intro H. unfold ExecuteCommandOnEC2Instance. rewrite H. reflexivity. Qed.

(** The part of the function after the agent was seen online. *)
Lemma Execute_registered fuel env ec2InstanceId command commandMaxWaitTime w w1 :
  IsSSMAgentRegistered fuel env ec2InstanceId 60 5 w = (Ok true, w1) ->
  ExecuteCommandOnEC2Instance fuel env ec2InstanceId command commandMaxWaitTime w
  = let input := sendCommandInput ec2InstanceId command in
    let r := ssm_SendCommand env (calls isSendCommand (trace w1)) input in
    let w2 := called env (EvSendCommand input r) w1 in
    match r with
    | inr err =>
      (Fail (Errorf "error sending command '%s' to EC2 instance %s: %v"
               [AStr command; AStr ec2InstanceId; AErr err]), w2)
    | inl sendCommandResp =>
      let commandId := CommandId sendCommandResp in
      let rw := ssm_WaitForOutput env (calls isWaitForOutput (trace w1))
                  commandId ec2InstanceId (Seconds commandMaxWaitTime) in
      let w3 := called env
                  (EvWaitForOutput commandId ec2InstanceId
                     (Seconds commandMaxWaitTime) rw) w2 in
      match rw with
      | inr err =>
        (Fail (Errorf "error getting command invocation details: %v" [AErr err]),
         w3)
      | inl d => (Ok commandId, logInvocation d w3)
      end
    end.
Proof.
  intro H. unfold ExecuteCommandOnEC2Instance. rewrite H.
  cbv zeta. cbn [call negb].
  destruct (ssm_SendCommand env _ _) as [resp|err]; [|reflexivity].
  unfold GetCommandInvocationDetails.
  rewrite trace_called, calls_snoc. cbn [isWaitForOutput].
  destruct (ssm_WaitForOutput env _ _ _ _); reflexivity.
Qed.

Lemma trace_logInvocation d w :
  trace (logInvocation d w) = trace w ++ invocationLog d.
Proof.
  unfold logInvocation, invocationLog.
  destruct (String.length (StandardOutputContent d) <? 1000)%nat;
    rewrite !trace_emit, <- !app_assoc; reflexivity.
Qed.

Lemma Forall_not_kind_pollOffline (kind : event -> bool) ec2InstanceId interval :
  (forall ids r, kind (EvDescribeInstanceInformation ids r) = false) ->
  (forall f a, kind (EvInfof f a) = false) ->
  (forall d, kind (EvSleep d) = false) ->
  forall resps,
    Forall (fun ev => kind ev = false)
      (flat_map (pollOffline ec2InstanceId interval) resps).
Proof.
  intros Hd Hi Hs. induction resps as [|resp resps IH]; [constructor|].
  cbn [flat_map]. apply Forall_app. split; [|exact IH].
  unfold pollOffline. repeat constructor; auto.
Qed.

Lemma calls_none (kind : event -> bool) (l : list event) :
  Forall (fun ev => kind ev = false) l -> calls kind l = 0%nat.
Proof.
  induction 1 as [|ev l Hev _ IH]; [reflexivity|].
  unfold calls in *. cbn [filter]. rewrite Hev. exact IH.
Qed.

(** If a list holds events of some kind in one place only, a cut before
    such an event is a cut at that place. *)
Lemma cut_at_only (kind : event -> bool) :
  forall (l1 l2 pre post : list event) (e ev : event),
    Forall (fun x => kind x = false) l1 ->
    Forall (fun x => kind x = false) l2 ->
    kind ev = true ->
    l1 ++ e :: l2 = pre ++ ev :: post ->
    pre = l1.
Proof.
  induction l1 as [|a l1 IH]; intros l2 pre post e ev H1 H2 Hev Heq.
  - destruct pre as [|p pre]; [reflexivity|].
    cbn [app] in Heq. injection Heq as _ Heq. subst l2.
    apply Forall_app in H2. destruct H2 as [_ H2].
    inversion H2; subst. congruence.
  - inversion H1; subst.
    destruct pre as [|p pre]; cbn [app] in Heq; injection Heq as Ha Heq.
    + subst. congruence.
    + subst p. f_equal. apply (IH l2 pre post e ev); assumption.
Qed.

Lemma no_kind_in (kind : event -> bool) (l pre post : list event) (ev : event) :
  Forall (fun x => kind x = false) l ->
  kind ev = true ->
  l = pre ++ ev :: post -> False.
Proof.
  intros Hl Hev ->. apply Forall_app in Hl. destruct Hl as [_ Hl].
  inversion Hl; subst. congruence.
Qed.

Lemma Execute_after_registration fuel env ec2InstanceId command
    commandMaxWaitTime w w1 o w' :
  IsSSMAgentRegistered fuel env ec2InstanceId 60 5 w = (Ok true, w1) ->
  ExecuteCommandOnEC2Instance fuel env ec2InstanceId command commandMaxWaitTime w
    = (o, w') ->
  exists r rest,
    trace w' = trace w1
                 ++ EvSendCommand (sendCommandInput ec2InstanceId command) r :: rest
    /\ Forall (fun ev => isSendCommand ev = false) rest.
Proof.
  intros Hreg H. rewrite (Execute_registered _ _ _ _ _ _ _ Hreg) in H.
  cbv zeta in H.
  destruct (ssm_SendCommand env _ _) as [resp|err].
  - destruct (ssm_WaitForOutput env _ _ _ _) as [d|err]; injection H as <- <-.
    + eexists. exists (EvWaitForOutput (CommandId resp) ec2InstanceId
                         (Seconds commandMaxWaitTime) (inl d) :: invocationLog d).
      split.
      * rewrite trace_logInvocation, !trace_called, <- !app_assoc. reflexivity.
      * unfold invocationLog.
        destruct (String.length (StandardOutputContent d) <? 1000)%nat;
          repeat constructor.
    + eexists. exists [EvWaitForOutput (CommandId resp) ec2InstanceId
                         (Seconds commandMaxWaitTime) (inr err)].
      split.
      * rewrite !trace_called, <- !app_assoc. reflexivity.
      * repeat constructor.
  - injection H as <- <-. eexists. exists []. split.
    + rewrite trace_called. reflexivity.
    + constructor.
Qed.

Example offline_twelve_polls :
  let r := ExecuteCommandOnEC2Instance 12 offlineEnv "i-1" "echo hi" 60 w0 in
  fst r = Fail (AgentNotRegistered "i-1")
  /\ now (snd r) = 60 * Second
  /\ calls isDescribeInstanceInformation (trace (snd r)) = 12%nat
  /\ calls isSendCommand (trace (snd r)) = 0%nat.
Proof. vm_compute. repeat split. Qed.

(** C3. If no answer of the describe call ever shows the instance online,
    [ExecuteCommandOnEC2Instance] returns the "SSM agent is not registered
    or online" error, at least 60 seconds after it was called and without
    any SendCommand call.  And in every run whatever, a SendCommand call
    comes after a describe answer that showed the instance online. *)
Theorem Execute_sends_only_after_online :
  forall (env : Env) (ec2InstanceId command : string) (commandMaxWaitTime : Z)
         (w : World),
    ((forall k, exists resp,
         ssm_DescribeInstanceInformation env k [ec2InstanceId] = inl resp
         /\ online ec2InstanceId resp = false) ->
     exists fuel0, forall fuel, (fuel0 <= fuel)%nat ->
       exists w',
         ExecuteCommandOnEC2Instance fuel env ec2InstanceId command
           commandMaxWaitTime w
         = (Fail (AgentNotRegistered ec2InstanceId), w')
         /\ calls isSendCommand (trace w') = calls isSendCommand (trace w)
         /\ now w + 60 * Second <= now w')
    /\ (forall fuel o w' pre ev post,
          ExecuteCommandOnEC2Instance fuel env ec2InstanceId command
            commandMaxWaitTime w = (o, w') ->
          trace w' = trace w ++ pre ++ ev :: post ->
          isSendCommand ev = true ->
          exists resp,
            online ec2InstanceId resp = true
            /\ In (EvDescribeInstanceInformation [ec2InstanceId] (inl resp)) pre).
Proof.
  intros env ec2InstanceId command commandMaxWaitTime w.
  assert (Hquiet : forall resps,
            Forall (fun ev => isSendCommand ev = false)
              (flat_map (pollOffline ec2InstanceId 5) resps)).
  { apply Forall_not_kind_pollOffline; reflexivity. }
  split.
  - intros Hoff.
    exists (S (Z.to_nat (Seconds 60))). intros fuel Hfuel.
    pose proof (IsSSMAgentRegistered_terminates env ec2InstanceId 60 5 w
                  eq_refl fuel Hfuel) as Hfuel0.
    destruct (IsSSMAgentRegistered fuel env ec2InstanceId 60 5 w)
      as [o w1] eqn:Hreg.
    pose proof (IsSSMAgentRegistered_loop_offline env ec2InstanceId
                  (now w + Seconds 60) 5 Hoff fuel w) as Hcases.
    unfold IsSSMAgentRegistered in Hreg. rewrite Hreg in Hcases.
    cbn [fst] in Hcases, Hfuel0.
    destruct Hcases as [-> | ->]; [|congruence].
    exists w1. split; [apply Execute_not_registered; exact Hreg|].
    destruct (IsSSMAgentRegistered_loop_run _ _ _ _ _ _ _ _ Hreg)
      as [resps [_ [_ [Htr Hend]]]].
    split.
    + rewrite Htr, !calls_app.
      rewrite (calls_none _ _ (Hquiet resps)). cbn. lia.
    + exact Hend.
  - intros fuel o w' pre ev post Hexec Htr Hev.
    destruct (IsSSMAgentRegistered fuel env ec2InstanceId 60 5 w)
      as [oreg w1] eqn:Hreg.
    pose proof (IsSSMAgentRegistered_loop_run _ _ _ _ _ _ _ _ Hreg)
      as [resps [_ [_ Hshape]]].
    cbv zeta in Hshape.
    destruct oreg as [[|]|e| | |].
    + (* registered *)
      destruct Hshape as [resp [Hon Htr1]].
      destruct (Execute_after_registration _ _ _ _ _ _ _ _ _ Hreg Hexec)
        as [r [rest [Htr' Hrest]]].
      rewrite Htr1, <- !app_assoc in Htr'. rewrite Htr' in Htr.
      apply app_inv_head in Htr.
      rewrite app_assoc in Htr.
      assert (Hpre : pre = flat_map (pollOffline ec2InstanceId 5) resps
                           ++ [EvDescribeInstanceInformation [ec2InstanceId] (inl resp);
                               EvInfof "SSM agent is registered and online for instance %s"
                                 [AStr ec2InstanceId]]).
      { eapply (cut_at_only isSendCommand); [| exact Hrest | exact Hev | exact Htr].
        apply Forall_app. split; [apply Hquiet|]. repeat constructor. }
      exists resp. split; [exact Hon|].
      rewrite Hpre. apply in_or_app. right. left. reflexivity.
    + (* deadline *)
      exfalso. destruct Hshape as [Htr1 _].
      unfold ExecuteCommandOnEC2Instance in Hexec. rewrite Hreg in Hexec.
      cbn [call negb] in Hexec. injection Hexec as <- <-.
      rewrite Htr1, <- app_assoc in Htr. apply app_inv_head in Htr.
      eapply (no_kind_in isSendCommand); [| exact Hev | exact Htr].
      apply Forall_app. split; [apply Hquiet|]. repeat constructor.
    + exfalso.
      unfold ExecuteCommandOnEC2Instance in Hexec. rewrite Hreg in Hexec.
      cbn [call] in Hexec. injection Hexec as <- <-.
      rewrite Hshape, <- app_assoc in Htr. apply app_inv_head in Htr.
      eapply (no_kind_in isSendCommand); [| exact Hev | exact Htr].
      apply Forall_app. split; [apply Hquiet|]. repeat constructor.
    + destruct Hshape.
    + destruct Hshape.
    + exfalso.
      unfold ExecuteCommandOnEC2Instance in Hexec. rewrite Hreg in Hexec.
      cbn [call] in Hexec. injection Hexec as <- <-.
      rewrite Hshape in Htr. apply app_inv_head in Htr.
      eapply (no_kind_in isSendCommand); [| exact Hev | exact Htr].
      apply Hquiet.
Qed.

Lemma Execute_sends_only_after_online_witness :
  (exists fuel0, forall fuel, (fuel0 <= fuel)%nat ->
     exists w',
       ExecuteCommandOnEC2Instance fuel offlineEnv "i-1" "echo hi" 60 w0
       = (Fail (AgentNotRegistered "i-1"), w')
       /\ calls isSendCommand (trace w') = calls isSendCommand (trace w0)
       /\ now w0 + 60 * Second <= now w')
  /\ exists resp,
       online testEC2ClientId resp = true
       /\ In (EvDescribeInstanceInformation [testEC2ClientId] (inl resp))
            [EvDescribeInstanceInformation [testEC2ClientId]
               (ssm_DescribeInstanceInformation (mockEnv noInputs) 0
                  [testEC2ClientId]);
             EvInfof "SSM agent is registered and online for instance %s"
               [AStr testEC2ClientId]].
Proof.
  split.
  - apply (proj1 (Execute_sends_only_after_online offlineEnv "i-1" "echo hi" 60 w0)).
    intro k. eexists. split; reflexivity.
  - apply (proj2 (Execute_sends_only_after_online (mockEnv noInputs)
                    testEC2ClientId "echo hi" 60 w0)
             1%nat (Ok "command-id-123")
             (snd (ExecuteCommandOnEC2Instance 1 (mockEnv noInputs)
                     testEC2ClientId "echo hi" 60 w0))
             [EvDescribeInstanceInformation [testEC2ClientId]
                (ssm_DescribeInstanceInformation (mockEnv noInputs) 0
                   [testEC2ClientId]);
              EvInfof "SSM agent is registered and online for instance %s"
                [AStr testEC2ClientId]]
             (EvSendCommand (sendCommandInput testEC2ClientId "echo hi")
                (inl {| CommandId := "command-id-123" |}))
             (EvWaitForOutput "command-id-123" testEC2ClientId (Seconds 60)
                (inl mockInvocation) :: invocationLog mockInvocation)).
    + reflexivity.
    + reflexivity.
    + reflexivity.
Defined.



(** ** What is logged of the outputs *)




(** ** GetOrCreateInstanceProfile *)

Lemma hasRole_existsb iamRoleName profile :
  existsb (fun role => (RoleName role =? iamRoleName)%string) (Roles profile) = true
  <-> hasRole iamRoleName profile.
Proof.
  unfold hasRole. rewrite existsb_exists.
  split; intros [role [Hin H]]; exists role; (split; [exact Hin|]);
    apply String.eqb_eq; exact H.
Qed.

Lemma findProfile_None iamRoleName profiles :
  (forall p, In p profiles -> ~ hasRole iamRoleName p) ->
  findProfile iamRoleName profiles = None.
Proof.
  induction profiles as [|p ps IH]; intros H; [reflexivity|].
  cbn [findProfile].
  destruct (existsb _ (Roles p)) eqn:He.
  - exfalso. apply (H p); [left; reflexivity|]. apply hasRole_existsb. exact He.
  - apply IH. intros q Hq. apply H. right. exact Hq.
Qed.

(** The profile found is the first in the listing that holds the role. *)
Lemma findProfile_Some iamRoleName profiles :
  (exists p, In p profiles /\ hasRole iamRoleName p) ->
  exists before p after,
    profiles = before ++ p :: after
    /\ (forall q, In q before -> ~ hasRole iamRoleName q)
    /\ hasRole iamRoleName p
    /\ findProfile iamRoleName profiles = Some (InstanceProfileName p).
Proof.
  induction profiles as [|p ps IH]; intros [q [Hq Hrole]]; [destruct Hq|].
  cbn [findProfile].
  destruct (existsb _ (Roles p)) eqn:He.
  - exists [], p, ps. split; [reflexivity|]. split; [intros ? []|].
    split; [apply hasRole_existsb; exact He|reflexivity].
  - assert (Hp : ~ hasRole iamRoleName p).
    { intro Hp. apply hasRole_existsb in Hp. congruence. }
    destruct Hq as [-> | Hq]; [contradiction|].
    destruct IH as [before [p' [after [Heq [Hb [Hr Hf]]]]]];
      [exists q; split; assumption|].
    exists (p :: before), p', after.
    split; [rewrite Heq; reflexivity|].
    split; [|split; assumption].
    intros x [<- | Hx]; [exact Hp|apply Hb; exact Hx].
Qed.

Lemma GetOrCreateInstanceProfile_found env iamRoleName w profiles :
  iam_ListInstanceProfiles env (calls isListInstanceProfiles (trace w))
    = inl profiles ->
  (exists p, In p (InstanceProfiles profiles) /\ hasRole iamRoleName p) ->
  exists before p after w',
    InstanceProfiles profiles = before ++ p :: after
    /\ (forall q, In q before -> ~ hasRole iamRoleName q)
    /\ hasRole iamRoleName p
    /\ GetOrCreateInstanceProfile env iamRoleName w
       = (Ok (InstanceProfileName p), w')
    /\ trace w' = trace w ++ [EvListInstanceProfiles (inl profiles);
                              profileExists iamRoleName].
Proof.
  intros Hlist Hex.
  destruct (findProfile_Some _ _ Hex) as [before [p [after [Heq [Hb [Hr Hf]]]]]].
  exists before, p, after. eexists.
  split; [exact Heq|]. split; [exact Hb|]. split; [exact Hr|].
  unfold GetOrCreateInstanceProfile. rewrite Hlist, Hf.
  split; [reflexivity|].
  rewrite trace_emit, trace_called, <- app_assoc. reflexivity.
Qed.

Lemma GetOrCreateInstanceProfile_created env iamRoleName w profiles :
  iam_ListInstanceProfiles env (calls isListInstanceProfiles (trace w))
    = inl profiles ->
  (forall p, In p (InstanceProfiles profiles) -> ~ hasRole iamRoleName p) ->
  iam_CreateInstanceProfile env (calls isCreateInstanceProfile (trace w))
    iamRoleName = None ->
  iam_AddRoleToInstanceProfile env (calls isAddRoleToInstanceProfile (trace w))
    iamRoleName iamRoleName = None ->
  exists w',
    GetOrCreateInstanceProfile env iamRoleName w = (Ok iamRoleName, w')
    /\ trace w' = trace w ++ EvListInstanceProfiles (inl profiles)
                          :: createAndAttach iamRoleName.
Proof.
  intros Hlist Hnone Hcreate Hattach.
  unfold GetOrCreateInstanceProfile.
  rewrite Hlist, (findProfile_None _ _ Hnone).
  cbv zeta.
  rewrite !trace_emit, !trace_called, !calls_snoc.
  cbn [isCreateInstanceProfile isAddRoleToInstanceProfile].
  rewrite Hcreate, Hattach.
  eexists. split; [reflexivity|].
  repeat (rewrite trace_emit || rewrite trace_called).
  rewrite <- !app_assoc. reflexivity.
Qed.

(** C6. The function lists the profiles.  If a listed profile holds a role
    named [iamRoleName], it returns the name of the first such profile and
    does nothing more than one log line: no create and no attach call.  If
    none does and the two calls succeed, it creates the profile
    [iamRoleName], attaches the role [iamRoleName] to it and returns
    [iamRoleName].  Called a second time, against a listing that now holds
    the created profile besides the profiles of the first listing, it
    returns [iamRoleName] again without a create or attach call. *)
Theorem GetOrCreateInstanceProfile_get_or_create :
  forall (env : Env) (iamRoleName : string) (w : World)
         (profiles : ListInstanceProfilesOutput),
    iam_ListInstanceProfiles env (calls isListInstanceProfiles (trace w))
      = inl profiles ->
    ((exists p, In p (InstanceProfiles profiles) /\ hasRole iamRoleName p) ->
     exists before p after w',
       InstanceProfiles profiles = before ++ p :: after
       /\ (forall q, In q before -> ~ hasRole iamRoleName q)
       /\ hasRole iamRoleName p
       /\ GetOrCreateInstanceProfile env iamRoleName w
          = (Ok (InstanceProfileName p), w')
       /\ trace w' = trace w ++ [EvListInstanceProfiles (inl profiles);
                                 profileExists iamRoleName])
    /\ ((forall p, In p (InstanceProfiles profiles) -> ~ hasRole iamRoleName p) ->
        iam_CreateInstanceProfile env (calls isCreateInstanceProfile (trace w))
          iamRoleName = None ->
        iam_AddRoleToInstanceProfile env
          (calls isAddRoleToInstanceProfile (trace w)) iamRoleName iamRoleName
          = None ->
        exists w1,
          GetOrCreateInstanceProfile env iamRoleName w = (Ok iamRoleName, w1)
          /\ trace w1 = trace w ++ EvListInstanceProfiles (inl profiles)
                                :: createAndAttach iamRoleName
          /\ forall profiles2,
               iam_ListInstanceProfiles env
                 (S (calls isListInstanceProfiles (trace w))) = inl profiles2 ->
               (exists p, In p (InstanceProfiles profiles2)
                          /\ InstanceProfileName p = iamRoleName
                          /\ hasRole iamRoleName p) ->
               (forall p, In p (InstanceProfiles profiles2) ->
                          In p (InstanceProfiles profiles)
                          \/ InstanceProfileName p = iamRoleName) ->
               exists w2,
                 GetOrCreateInstanceProfile env iamRoleName w1
                 = (Ok iamRoleName, w2)
                 /\ trace w2 = trace w1 ++ [EvListInstanceProfiles (inl profiles2);
                                            profileExists iamRoleName]).
Proof.
  intros env iamRoleName w profiles Hlist. split.
  - apply GetOrCreateInstanceProfile_found. exact Hlist.
  - intros Hnone Hcreate Hattach.
    destruct (GetOrCreateInstanceProfile_created _ _ _ _ Hlist Hnone Hcreate Hattach)
      as [w1 [Hrun Htr]].
    exists w1. split; [exact Hrun|]. split; [exact Htr|].
    intros profiles2 Hlist2 [p [Hin [Hname Hrole]]] Hfrom.
    assert (Hk : calls isListInstanceProfiles (trace w1)
                 = S (calls isListInstanceProfiles (trace w))).
    { rewrite Htr, calls_app. unfold createAndAttach, calls. cbn. lia. }
    rewrite <- Hk in Hlist2.
    destruct (GetOrCreateInstanceProfile_found env iamRoleName w1 profiles2 Hlist2)
      as [before [p' [after [w2 [Heq [_ [Hrole' [Hrun2 Htr2]]]]]]]].
    { exists p. split; assumption. }
    exists w2. split; [|exact Htr2].
    rewrite Hrun2. f_equal. f_equal.
    destruct (Hfrom p') as [Hold | Hnew].
    + rewrite Heq. apply in_or_app. right. left. reflexivity.
    + exfalso. exact (Hnone p' Hold Hrole').
    + exact Hnew.
Qed.

Example fresh_then_existing :
  let r1 := GetOrCreateInstanceProfile freshIamEnv "runner-role" w0 in
  let r2 := GetOrCreateInstanceProfile freshIamEnv "runner-role" (snd r1) in
  fst r1 = Ok "runner-role" /\ fst r2 = Ok "runner-role"
  /\ calls isCreateInstanceProfile (trace (snd r2)) = 1%nat
  /\ calls isAddRoleToInstanceProfile (trace (snd r2)) = 1%nat
  /\ calls isListInstanceProfiles (trace (snd r2)) = 2%nat.
Proof. vm_compute. repeat split. Qed.

Lemma not_hasRole_other : ~ hasRole "runner-role" otherProfile.
Proof.
  intros [role [[<- | []] H]]. discriminate H.
Qed.

Lemma GetOrCreateInstanceProfile_get_or_create_witness :
  (exists before p after w',
     InstanceProfiles {| InstanceProfiles := [otherProfile; runnerProfile] |}
     = before ++ p :: after
     /\ (forall q, In q before -> ~ hasRole "runner-role" q)
     /\ hasRole "runner-role" p
     /\ GetOrCreateInstanceProfile freshIamEnv "runner-role"
          (snd (GetOrCreateInstanceProfile freshIamEnv "runner-role" w0))
        = (Ok (InstanceProfileName p), w')
     /\ trace w'
        = trace (snd (GetOrCreateInstanceProfile freshIamEnv "runner-role" w0))
          ++ [EvListInstanceProfiles
                (inl {| InstanceProfiles := [otherProfile; runnerProfile] |});
              profileExists "runner-role"])
  /\ exists w1,
       GetOrCreateInstanceProfile freshIamEnv "runner-role" w0
       = (Ok "runner-role", w1)
       /\ trace w1 = trace w0
            ++ EvListInstanceProfiles (inl {| InstanceProfiles := [otherProfile] |})
               :: createAndAttach "runner-role"
       /\ exists w2,
            GetOrCreateInstanceProfile freshIamEnv "runner-role" w1
            = (Ok "runner-role", w2)
            /\ trace w2 = trace w1
                 ++ [EvListInstanceProfiles
                       (inl {| InstanceProfiles := [otherProfile; runnerProfile] |});
                     profileExists "runner-role"].
Proof.
  assert (Hrunner : hasRole "runner-role" runnerProfile).
  { exists {| RoleName := "runner-role" |}. split; [left|]; reflexivity. }
  split.
  - apply (proj1 (GetOrCreateInstanceProfile_get_or_create freshIamEnv
                    "runner-role"
                    (snd (GetOrCreateInstanceProfile freshIamEnv "runner-role" w0))
                    {| InstanceProfiles := [otherProfile; runnerProfile] |}
                    eq_refl)).
    exists runnerProfile. split; [right; left; reflexivity|exact Hrunner].
  - destruct (proj2 (GetOrCreateInstanceProfile_get_or_create freshIamEnv
                       "runner-role" w0
                       {| InstanceProfiles := [otherProfile] |} eq_refl))
      as [w1 [Hrun [Htr Hagain]]].
    + intros p [<- | []]. exact not_hasRole_other.
    + reflexivity.
    + reflexivity.
    + exists w1. split; [exact Hrun|]. split; [exact Htr|].
      apply (Hagain {| InstanceProfiles := [otherProfile; runnerProfile] |}).
      * reflexivity.
      * exists runnerProfile.
        split; [right; left; reflexivity|]. split; [reflexivity|exact Hrunner].
      * intros p [<- | [<- | []]]; [left; left; reflexivity|right; reflexivity].
Defined.

(** ** CreateAndStartEC2Instance: the tag specifications *)



(** ** getInputs: the command wait time *)

(** C5. In a [command] invocation whose wait-time input parses to [n]:
    when [n <= 5] the program logs the warning, goes on (it loads the
    configuration and enters the command flow) and the command flow runs
    with the wait time 6; when [6 <= n] no warning is logged and the command
    flow runs with [n]. *)
Theorem getInputs_wait_time_floor :
  forall (fuel : nat) (env : Env) (w : World) (n : Z),
    GetInput env "mode" = "command" ->
    GetInput env "ec2-instance-id" <> "" ->
    GetInput env "command" <> "" ->
    Atoi (GetInput env "command-max-wait-secs") = inl n ->
    config_LoadDefaultConfig env = None ->
    (n <= 5 ->
     getInputs fuel env w
     = commandFlow fuel env 6
         (called env (EvLoadDefaultConfig None) (emit raisedToMinimum w)))
    /\ (6 <= n ->
        getInputs fuel env w
        = commandFlow fuel env n (called env (EvLoadDefaultConfig None) w)).
Proof.
  intros fuel env w n Hmode Hid Hcmd Hatoi Hcfg.
  apply String.eqb_neq in Hid, Hcmd.
  split; intro Hn; unfold getInputs, commandFlow;
    rewrite Hmode, Hatoi, Hcfg, Hid, Hcmd;
    cbn [String.eqb Ascii.eqb Bool.eqb orb].
  - apply Z.leb_le in Hn. rewrite Hn. reflexivity.
  - assert (Hn' : (n <=? 5) = false) by (apply Z.leb_gt; lia).
    rewrite Hn'. reflexivity.
Qed.

Example wait_of_3_runs_with_6 :
  let r := getInputs 1 (mockEnv (commandInputs "3")) w0 in
  fst r = Ok tt
  /\ nth_error (trace (snd r)) 0 = Some raisedToMinimum
  /\ In (EvWaitForOutput "command-id-123" testEC2ClientId (6 * Second)
           (inl mockInvocation)) (trace (snd r)).
Proof.
  vm_compute. split; [reflexivity|]. split; [reflexivity|].
  do 5 right. left. reflexivity.
Qed.

Lemma getInputs_wait_time_floor_witness :
  getInputs 1 (mockEnv (commandInputs "3")) w0
  = commandFlow 1 (mockEnv (commandInputs "3")) 6
      (called (mockEnv (commandInputs "3")) (EvLoadDefaultConfig None)
         (emit raisedToMinimum w0))
  /\ getInputs 1 (mockEnv (commandInputs "300")) w0
     = commandFlow 1 (mockEnv (commandInputs "300")) 300
         (called (mockEnv (commandInputs "300")) (EvLoadDefaultConfig None) w0).
Proof.
  split.
  - apply (proj1 (getInputs_wait_time_floor 1 (mockEnv (commandInputs "3")) w0 3
                    eq_refl ltac:(discriminate) ltac:(discriminate)
                    eq_refl eq_refl)).
    lia.
  - apply (proj2 (getInputs_wait_time_floor 1 (mockEnv (commandInputs "300")) w0
                    300 eq_refl ltac:(discriminate) ltac:(discriminate)
                    eq_refl eq_refl)).
    lia.
Defined.

(** C10. In every mode, if [strconv.Atoi] rejects the wait-time input,
    [getInputs] returns that error having done nothing: no log line, no
    configuration load, no call.  The empty input is rejected: no default
    stands in for it. *)
Theorem getInputs_parses_wait_time_first :
  forall (fuel : nat) (env : Env) (w : World),
    GetInput env "mode" <> "" ->
    (forall err,
        Atoi (GetInput env "command-max-wait-secs") = inr err ->
        getInputs fuel env w = (Fail err, w))
    /\ (GetInput env "command-max-wait-secs" = "" ->
        getInputs fuel env w = (Fail (NumError "Atoi" ""), w)).
Proof.
  intros fuel env w Hmode. apply String.eqb_neq in Hmode.
  assert (H : forall err,
             Atoi (GetInput env "command-max-wait-secs") = inr err ->
             getInputs fuel env w = (Fail err, w)).
  { intros err Hatoi. unfold getInputs. rewrite Hmode, Hatoi. reflexivity. }
  split; [exact H|].
  intro Hempty. apply H. rewrite Hempty. reflexivity.
Qed.

Lemma getInputs_parses_wait_time_first_witness :
  getInputs 1 (mockEnv (inputsOf [("mode", "start");
                                  ("command-max-wait-secs", "5m")])) w0
  = (Fail (NumError "Atoi" "5m"), w0)
  /\ getInputs 1 (mockEnv stopInputs) w0 = (Fail (NumError "Atoi" ""), w0).
Proof.
  split.
  - apply (proj1 (getInputs_parses_wait_time_first 1
                    (mockEnv (inputsOf [("mode", "start");
                                        ("command-max-wait-secs", "5m")])) w0
                    ltac:(discriminate))).
    reflexivity.
  - apply (proj2 (getInputs_parses_wait_time_first 1 (mockEnv stopInputs) w0
                    ltac:(discriminate))).
    reflexivity.
Defined.

(** * More of the code *)

(** ** Runs that only add events of a kind *)

Lemma grows_refl P w : grows P w w.
Proof. exists []. rewrite app_nil_r. repeat split; [constructor|lia]. Qed.

Lemma grows_trans P w1 w2 w3 : grows P w1 w2 -> grows P w2 w3 -> grows P w1 w3.
Proof.
  intros [n1 [H1 [F1 T1]]] [n2 [H2 [F2 T2]]]. exists (n1 ++ n2).
  rewrite H2, H1, app_assoc. repeat split; [apply Forall_app; split; assumption|lia].
Qed.

Lemma grows_weaken (P Q : event -> Prop) w w' :
  (forall ev, P ev -> Q ev) -> grows P w w' -> grows Q w w'.
Proof.
  intros HPQ [new [H [F T]]]. exists new. repeat split; try assumption.
  eapply Forall_impl; eassumption.
Qed.

Lemma grows_emit (P : event -> Prop) ev w : P ev -> grows P w (emit ev w).
Proof.
  intro H. exists [ev]. repeat split; [repeat constructor; exact H|].
  rewrite now_emit. lia.
Qed.

Lemma grows_called (P : event -> Prop) env ev w : P ev -> grows P w (called env ev w).
Proof.
  intro H. exists [ev]. repeat split; [repeat constructor; exact H|].
  apply now_called.
Qed.

Lemma grows_time_Sleep (P : event -> Prop) env d w :
  P (EvSleep d) -> grows P w (time_Sleep env d w).
Proof.
  intro H. exists [EvSleep d]. repeat split; [repeat constructor; exact H|].
  pose proof (now_time_Sleep env d w). lia.
Qed.

(** ** WaitForInstanceRunning, continued *)

(** The loop after some polls that saw states other than [running]. *)
Lemma WaitForInstanceRunning_loop_prefix env instanceId :
  forall (resps : list DescribeInstancesOutput) (fuel : nat) (st0 : string)
         (w : World),
    st0 <> "running" ->
    (forall i resp, nth_error resps i = Some resp ->
       ec2_DescribeInstances env (calls isDescribeInstances (trace w) + i)
         [instanceId] = inl resp
       /\ exists st, describedState resp = Some st /\ st <> "running") ->
    exists st1 w1,
      st1 <> "running"
      /\ WaitForInstanceRunning_loop (List.length resps + fuel) env instanceId st0 w
         = WaitForInstanceRunning_loop fuel env instanceId st1 w1
      /\ trace w1 = trace w ++ flat_map (pollNotRunning instanceId) resps
      /\ calls isDescribeInstances (trace w1)
         = (calls isDescribeInstances (trace w) + List.length resps)%nat.
Proof.
  induction resps as [|resp resps IH]; intros fuel st0 w Hst Hresps.
  - exists st0, w. cbn [List.length flat_map Nat.add].
    rewrite app_nil_r, Nat.add_0_r. repeat split; auto.
  - destruct (Hresps 0%nat resp eq_refl) as [Hans [st [Hds Hne]]].
    rewrite Nat.add_0_r in Hans.
    cbn [List.length Nat.add].
    rewrite (WaitForInstanceRunning_loop_step _ _ _ _ _ _ _ Hst Hans Hds).
    pose proof Hne as Hne'. apply String.eqb_neq in Hne'. rewrite Hne'.
    cbv zeta. simpl negb. cbv iota.
    match goal with
    | |- context [WaitForInstanceRunning_loop _ _ _ _ ?w1] => set (w3 := w1)
    end.
    assert (Hw3 : trace w3 = trace w ++ pollNotRunning instanceId resp).
    { unfold w3. rewrite trace_time_Sleep, trace_emit, trace_called.
      unfold pollNotRunning. rewrite Hds, <- !app_assoc. reflexivity. }
    assert (Hc : calls isDescribeInstances (trace w3)
                 = S (calls isDescribeInstances (trace w))).
    { unfold w3. rewrite trace_time_Sleep, trace_emit, trace_called.
      rewrite !calls_snoc. reflexivity. }
    destruct (IH fuel st w3 Hne) as [st1 [w1 [Hst1 [Hrun [Htr Hcalls]]]]].
    + intros i r Hi. rewrite Hc.
      replace (S (calls isDescribeInstances (trace w)) + i)%nat
        with (calls isDescribeInstances (trace w) + S i)%nat by lia.
      apply Hresps. exact Hi.
    + exists st1, w1. split; [exact Hst1|]. split; [exact Hrun|]. split.
      * rewrite Htr, Hw3. cbn [flat_map]. rewrite <- app_assoc. reflexivity.
      * rewrite Hcalls, Hc. lia.
Qed.

Lemma calls_cons (kind : event -> bool) (ev : event) (l : list event) :
  calls kind (ev :: l) = if kind ev then S (calls kind l) else calls kind l.
Proof. unfold calls. cbn [filter]. destruct (kind ev); reflexivity. Qed.

Lemma calls_nil (kind : event -> bool) : calls kind [] = 0%nat.
Proof. reflexivity. Qed.

(** A failed describe call after some polls. *)
Lemma WaitForInstanceRunning_fails_after :
  forall (env : Env) (instanceId : string) (w : World)
         (resps : list DescribeInstancesOutput) (err : error) (fuel : nat),
    (forall i resp, nth_error resps i = Some resp ->
       ec2_DescribeInstances env (calls isDescribeInstances (trace w) + i)
         [instanceId] = inl resp
       /\ exists st, describedState resp = Some st /\ st <> "running") ->
    ec2_DescribeInstances env
      (calls isDescribeInstances (trace w) + List.length resps) [instanceId]
      = inr err ->
    (List.length resps < fuel)%nat ->
    exists w',
      WaitForInstanceRunning fuel env instanceId w
      = (Fail (Errorf "error describing instance %s: %v"
                 [AStr instanceId; AErr err]), w')
      /\ trace w' = trace w ++ flat_map (pollNotRunning instanceId) resps
                            ++ [EvDescribeInstances [instanceId] (inr err)].
Proof.
  intros env instanceId w resps err fuel Hresps Herr Hfuel.
  assert (Hempty : "" <> "running") by discriminate.
  destruct (WaitForInstanceRunning_loop_prefix env instanceId resps
              (fuel - List.length resps) "" w Hempty Hresps)
    as [st1 [w1 [Hst1 [Hrun [Htr Hcalls]]]]].
  replace (List.length resps + (fuel - List.length resps))%nat with fuel
    in Hrun by lia.
  unfold WaitForInstanceRunning. rewrite Hrun.
  destruct (fuel - List.length resps)%nat as [|f] eqn:Hf; [lia|].
  simpl. apply String.eqb_neq in Hst1. rewrite Hst1. simpl.
  rewrite Hcalls, Herr.
  eexists. split; [reflexivity|].
  rewrite trace_called, Htr, <- app_assoc. reflexivity.
Qed.

(** X1. After any number of polls that saw states other than [running], a
    describe call that fails makes the wait return at once the error
    "error describing instance <id>: <cause>": nothing is retried and
    nothing is slept after the failure. *)
Theorem WaitForInstanceRunning_describe_error :
  forall (env : Env) (instanceId : string) (w : World)
         (resps : list DescribeInstancesOutput) (err : error) (fuel : nat),
    (forall i resp, nth_error resps i = Some resp ->
       ec2_DescribeInstances env (calls isDescribeInstances (trace w) + i)
         [instanceId] = inl resp
       /\ exists st, describedState resp = Some st /\ st <> "running") ->
    ec2_DescribeInstances env
      (calls isDescribeInstances (trace w) + List.length resps) [instanceId]
      = inr err ->
    (List.length resps < fuel)%nat ->
    exists w',
      WaitForInstanceRunning fuel env instanceId w
      = (Fail (Errorf "error describing instance %s: %v"
                 [AStr instanceId; AErr err]), w')
      /\ trace w' = trace w ++ flat_map (pollNotRunning instanceId) resps
                            ++ [EvDescribeInstances [instanceId] (inr err)].
Proof. exact WaitForInstanceRunning_fails_after. Qed.

Lemma WaitForInstanceRunning_describe_error_witness :
  exists w',
    WaitForInstanceRunning 2 flakyEnv "i-1" w0
    = (Fail (Errorf "error describing instance %s: %v"
               [AStr "i-1"; AErr (ApiError "RequestLimitExceeded")]), w')
    /\ trace w' = trace w0 ++ flat_map (pollNotRunning "i-1") [stateResp "pending"]
                           ++ [EvDescribeInstances ["i-1"]
                                 (inr (ApiError "RequestLimitExceeded"))].
Proof.
  apply (WaitForInstanceRunning_describe_error flakyEnv "i-1" w0
           [stateResp "pending"] (ApiError "RequestLimitExceeded") 2).
  - intros i resp Hi.
    destruct i as [|[|i]]; simpl in Hi; try discriminate.
    injection Hi as <-. split; [reflexivity|].
    exists "pending". split; [reflexivity|discriminate].
  - reflexivity.
  - simpl. lia.
Defined.

(** X2. After any number of polls that saw states other than [running], a
    describe answer without a reservation, or whose first reservation holds
    no instance, makes the wait panic at [Reservations[0].Instances[0]]:
    it neither returns an error nor polls again. *)
Theorem WaitForInstanceRunning_empty_answer_panics :
  forall (env : Env) (instanceId : string) (w : World)
         (resps : list DescribeInstancesOutput) (last : DescribeInstancesOutput)
         (fuel : nat),
    (forall i resp, nth_error resps i = Some resp ->
       ec2_DescribeInstances env (calls isDescribeInstances (trace w) + i)
         [instanceId] = inl resp
       /\ exists st, describedState resp = Some st /\ st <> "running") ->
    ec2_DescribeInstances env
      (calls isDescribeInstances (trace w) + List.length resps) [instanceId]
      = inl last ->
    describedState last = None ->
    (List.length resps < fuel)%nat ->
    exists w',
      WaitForInstanceRunning fuel env instanceId w = (Panic, w')
      /\ trace w' = trace w ++ flat_map (pollNotRunning instanceId) resps
                            ++ [EvDescribeInstances [instanceId] (inl last)].
Proof.
  intros env instanceId w resps last fuel Hresps Hlast Hnone Hfuel.
  assert (Hempty : "" <> "running") by discriminate.
  destruct (WaitForInstanceRunning_loop_prefix env instanceId resps
              (fuel - List.length resps) "" w Hempty Hresps)
    as [st1 [w1 [Hst1 [Hrun [Htr Hcalls]]]]].
  replace (List.length resps + (fuel - List.length resps))%nat with fuel
    in Hrun by lia.
  unfold WaitForInstanceRunning. rewrite Hrun.
  destruct (fuel - List.length resps)%nat as [|f] eqn:Hf; [lia|].
  simpl. apply String.eqb_neq in Hst1. rewrite Hst1. simpl.
  rewrite Hcalls, Hlast.
  unfold describedState in Hnone.
  destruct (Reservations last) as [|reservation ?].
  - eexists. split; [reflexivity|].
    rewrite trace_called, Htr, <- app_assoc. reflexivity.
  - destruct (Instances reservation) as [|inst ?]; [|discriminate].
    eexists. split; [reflexivity|].
    rewrite trace_called, Htr, <- app_assoc. reflexivity.
Qed.

Lemma WaitForInstanceRunning_empty_answer_panics_witness :
  exists w',
    WaitForInstanceRunning 2 vanishingEnv "i-1" w0 = (Panic, w')
    /\ trace w' = trace w0 ++ flat_map (pollNotRunning "i-1") [stateResp "pending"]
                           ++ [EvDescribeInstances ["i-1"]
                                 (inl {| Reservations := [] |})].
Proof.
  apply (WaitForInstanceRunning_empty_answer_panics vanishingEnv "i-1" w0
           [stateResp "pending"] {| Reservations := [] |} 2).
  - intros i resp Hi.
    destruct i as [|[|i]]; simpl in Hi; try discriminate.
    injection Hi as <-. split; [reflexivity|].
    exists "pending". split; [reflexivity|discriminate].
  - reflexivity.
  - reflexivity.
  - simpl. lia.
Defined.

Ltac wait_event :=
  first [ left; eexists; reflexivity
        | right; left; eexists; reflexivity
        | right; right; left; reflexivity
        | right; right; right; reflexivity ].

Ltac all_wait_events :=
  repeat (apply Forall_cons; [wait_event|]); apply Forall_nil.

(** What any run of the loop adds to the history. *)
Lemma WaitForInstanceRunning_loop_adds env instanceId :
  forall fuel st0 w o w',
    WaitForInstanceRunning_loop fuel env instanceId st0 w = (o, w') ->
    exists new,
      trace w' = trace w ++ new
      /\ Forall (waitEvent instanceId) new
      /\ (calls isSleep new <= calls isDescribeInstances new)%nat
      /\ (calls isDescribeInstances new <= S (calls isSleep new))%nat
      /\ now w + 5 * Second * Z.of_nat (calls isSleep new) <= now w'
      /\ o <> Exit.
Proof.
  assert (Hdone : forall fuel w o w',
            WaitForInstanceRunning_loop fuel env instanceId "running" w = (o, w') ->
            o = Ok tt
            /\ w' = emit (EvInfof "Instance %s is now running." [AStr instanceId]) w).
  { intros fuel w o w' H. rewrite WaitForInstanceRunning_loop_running in H.
    injection H as <- <-. split; reflexivity. }
  induction fuel as [|fuel IH]; intros st0 w o w' H.
  - simpl in H. destruct (st0 =? "running")%string; simpl in H;
      injection H as <- <-.
    + exists [EvInfof "Instance %s is now running." [AStr instanceId]].
      rewrite trace_emit, now_emit, !calls_cons, !calls_nil. cbn.
      repeat split; try lia; try discriminate.
      all_wait_events.
    + exists []. rewrite app_nil_r, !calls_nil.
      repeat split; try lia; try discriminate. constructor.
  - destruct (String.eqb_spec st0 "running") as [-> | Hst].
    + apply Hdone in H. destruct H as [-> ->].
      exists [EvInfof "Instance %s is now running." [AStr instanceId]].
      rewrite trace_emit, now_emit, !calls_cons, !calls_nil. cbn.
      repeat split; try lia; try discriminate.
      all_wait_events.
    + pose proof Hst as Hst'. apply String.eqb_neq in Hst'.
      simpl in H. rewrite Hst' in H. simpl in H.
      destruct (ec2_DescribeInstances env _ [instanceId]) as [resp|err] eqn:Hr.
      * assert (Hpanic :
                  forall o0 : outcome unit, o0 <> Exit ->
                  exists new,
                    trace (called env (EvDescribeInstances [instanceId] (inl resp)) w)
                    = trace w ++ new
                    /\ Forall (waitEvent instanceId) new
                    /\ (calls isSleep new <= calls isDescribeInstances new)%nat
                    /\ (calls isDescribeInstances new <= S (calls isSleep new))%nat
                    /\ now w + 5 * Second * Z.of_nat (calls isSleep new)
                       <= now (called env (EvDescribeInstances [instanceId]
                                             (inl resp)) w)
                    /\ o0 <> Exit).
        { intros o0 Ho0. exists [EvDescribeInstances [instanceId] (inl resp)].
          rewrite trace_called, !calls_cons, !calls_nil. cbn.
          pose proof (now_called env
                        (EvDescribeInstances [instanceId] (inl resp)) w).
          repeat split; try lia; try assumption.
          all_wait_events. }
        destruct (Reservations resp) as [|reservation ?];
          [injection H as <- <-; apply Hpanic; discriminate|].
        destruct (Instances reservation) as [|inst ?];
          [injection H as <- <-; apply Hpanic; discriminate|].
        clear Hpanic.
        destruct (String.eqb_spec (StateName inst) "running") as [Hrun | Hnot].
        -- rewrite Hrun in H. simpl in H. apply Hdone in H. destruct H as [-> ->].
           exists [EvDescribeInstances [instanceId] (inl resp);
                   EvInfof "Instance state: %s" [AStr "running"];
                   EvInfof "Instance %s is now running." [AStr instanceId]].
           rewrite !trace_emit, trace_called, !now_emit, <- !app_assoc.
           rewrite !calls_cons, !calls_nil. cbn.
           pose proof (now_called env
                         (EvDescribeInstances [instanceId] (inl resp)) w).
           repeat split; try lia; try discriminate.
           all_wait_events.
        -- simpl in H. apply IH in H.
           destruct H as [new [Htr [Hall [Hle1 [Hle2 [Hnow Hexit]]]]]].
           exists ([EvDescribeInstances [instanceId] (inl resp);
                    EvInfof "Instance state: %s" [AStr (StateName inst)];
                    EvSleep (5 * Second)] ++ new).
           rewrite trace_time_Sleep, trace_emit, trace_called in Htr.
           rewrite now_time_Sleep_eq, now_emit, now_called_eq in Hnow.
           split; [rewrite Htr, <- !app_assoc; reflexivity|].
           split.
           { apply Forall_app. split; [|exact Hall].
             all_wait_events. }
           cbn [app]. rewrite !calls_cons.
           cbn [isSleep isDescribeInstances].
           repeat split; try lia; try assumption.
           unfold Second in *. lia.
      * injection H as <- <-.
        exists [EvDescribeInstances [instanceId] (inr err)].
        rewrite trace_called, !calls_cons, !calls_nil. cbn.
        pose proof (now_called env (EvDescribeInstances [instanceId] (inr err)) w).
        repeat split; try lia; try discriminate.
        all_wait_events.
Qed.

(** X3. Whatever the answers and however the wait ends, all it does is
    describe the one instance, log and sleep exactly 5 seconds: no other
    call; the sleeps are as many as the describe calls or one fewer; the
    clock has advanced by at least 5 seconds per sleep; and the process is
    never ended from inside. *)
Theorem WaitForInstanceRunning_only_describes_and_sleeps :
  forall (fuel : nat) (env : Env) (instanceId : string) (w : World),
    let r := WaitForInstanceRunning fuel env instanceId w in
    exists new,
      trace (snd r) = trace w ++ new
      /\ Forall (waitEvent instanceId) new
      /\ (calls isSleep new <= calls isDescribeInstances new)%nat
      /\ (calls isDescribeInstances new <= S (calls isSleep new))%nat
      /\ now w + 5 * Second * Z.of_nat (calls isSleep new) <= now (snd r)
      /\ fst r <> Exit.
Proof.
  intros fuel env instanceId w r.
  apply (WaitForInstanceRunning_loop_adds env instanceId fuel "" w).
  unfold r, WaitForInstanceRunning. apply surjective_pairing.
Qed.

(** ** IsSSMAgentRegistered, continued *)

Lemma IsSSMAgentRegistered_loop_bound env ec2InstanceId endTime interval :
  0 < Seconds interval ->
  forall fuel w o w',
    IsSSMAgentRegistered_loop fuel env ec2InstanceId endTime interval w = (o, w') ->
    exists k : nat,
      calls isDescribeInstanceInformation (trace w')
      = (calls isDescribeInstanceInformation (trace w) + k)%nat
      /\ Z.of_nat k * Seconds interval
         < Z.max 0 (endTime - now w) + Seconds interval.
Proof.
  intros Hpos.
  induction fuel as [|fuel IH]; intros w o w' H; simpl in H;
    set (d := Seconds interval) in *.
  - destruct (now w <? endTime); injection H as <- <-; exists 0%nat;
      rewrite ?trace_emit, ?calls_snoc; cbn [isDescribeInstanceInformation];
      split; lia.
  - destruct (now w <? endTime) eqn:Hlt.
    + apply Z.ltb_lt in Hlt.
      destruct (ssm_DescribeInstanceInformation env _ [ec2InstanceId])
        as [resp|err] eqn:Hr.
      * destruct (online ec2InstanceId resp) eqn:Hon.
        -- injection H as <- <-. exists 1%nat.
           rewrite trace_emit, trace_called, !calls_snoc.
           cbn [isDescribeInstanceInformation]. split; lia.
        -- apply IH in H. destruct H as [k [Hk Hb]].
           exists (S k).
           rewrite trace_time_Sleep, trace_emit, trace_called, !calls_snoc in Hk.
           cbn [isDescribeInstanceInformation] in Hk.
           split; [rewrite Hk; lia|].
           rewrite now_time_Sleep_eq, now_emit, now_called_eq in Hb.
           fold d in Hb.
           match type of Hb with
           | context [now w + Z.of_N ?l1 + Z.max 0 d + Z.of_N ?l2] =>
             pose proof (N2Z.is_nonneg l1); pose proof (N2Z.is_nonneg l2);
             generalize dependent (Z.of_N l1); generalize dependent (Z.of_N l2)
           end.
           intros z2 Hz2 z1 Hb Hz1.
           rewrite Nat2Z.inj_succ. unfold Z.succ.
           pose proof (Nat2Z.is_nonneg k) as HK.
           rewrite Z.mul_add_distr_r, Z.mul_1_l.
           destruct (Z.le_gt_cases (endTime - (now w + z1 + Z.max 0 d + z2)) 0).
           { rewrite Z.max_l in Hb by lia.
             assert (HK1 : Z.of_nat k < 1).
             { apply Z.nle_gt. intro Hge.
               assert (1 * d <= Z.of_nat k * d)
                 by (apply Z.mul_le_mono_nonneg_r; lia).
               lia. }
             assert (HK0 : Z.of_nat k = 0) by lia.
             rewrite HK0. lia. }
           { rewrite Z.max_r in Hb by lia. lia. }
      * injection H as <- <-. exists 1%nat.
        rewrite trace_called, !calls_snoc.
        cbn [isDescribeInstanceInformation]. split; lia.
    + injection H as <- <-. exists 0%nat.
      rewrite trace_emit, calls_snoc. cbn [isDescribeInstanceInformation].
      split; lia.
Qed.

(** X4. With a positive interval, the number [k] of describe calls a
    registration check makes satisfies [k * interval < timeout + interval]
    (in nanoseconds, a timeout that is not positive counting as zero):
    at most one poll per started interval of the window, whatever the
    answers and the time the calls take. *)
Theorem IsSSMAgentRegistered_poll_bound :
  forall (fuel : nat) (env : Env) (ec2InstanceId : string)
         (timeout interval : Z) (w : World),
    0 < Seconds interval ->
    exists k : nat,
      calls isDescribeInstanceInformation
        (trace (snd (IsSSMAgentRegistered fuel env ec2InstanceId timeout
                       interval w)))
      = (calls isDescribeInstanceInformation (trace w) + k)%nat
      /\ Z.of_nat k * Seconds interval
         < Z.max 0 (Seconds timeout) + Seconds interval.
Proof.
  intros fuel env ec2InstanceId timeout interval w Hpos.
  unfold IsSSMAgentRegistered.
  destruct (IsSSMAgentRegistered_loop fuel env ec2InstanceId
              (now w + Seconds timeout) interval w) as [o w'] eqn:H.
  destruct (IsSSMAgentRegistered_loop_bound env ec2InstanceId
              (now w + Seconds timeout) interval Hpos fuel w o w' H)
    as [k [Hk Hb]].
  exists k. split; [exact Hk|].
  replace (now w + Seconds timeout - now w) with (Seconds timeout) in Hb by lia.
  exact Hb.
Qed.

Lemma IsSSMAgentRegistered_poll_bound_witness :
  exists k : nat,
    calls isDescribeInstanceInformation
      (trace (snd (IsSSMAgentRegistered 20 offlineEnv "i-1" 60 5 w0)))
    = (calls isDescribeInstanceInformation (trace w0) + k)%nat
    /\ Z.of_nat k * Seconds 5 < Z.max 0 (Seconds 60) + Seconds 5.
Proof.
  apply (IsSSMAgentRegistered_poll_bound 20 offlineEnv "i-1" 60 5 w0).
  reflexivity.
Defined.



Example slow_agent_two_waits :
  let r := IsSSMAgentRegistered 5 slowAgentEnv "i-1" 60 5 w0 in
  fst r = Ok true
  /\ calls isDescribeInstanceInformation (trace (snd r)) = 3%nat
  /\ calls isSleep (trace (snd r)) = 2%nat
  /\ now (snd r) = 20 * Second.
Proof. vm_compute. repeat split. Qed.

(** ** What each function can add to the history *)

Lemma WaitForInstanceRunning_grows fuel env instanceId w o w' :
  WaitForInstanceRunning fuel env instanceId w = (o, w') ->
  grows (fun ev => waitKind ev = true) w w' /\ o <> Exit.
Proof.
  intro H. unfold WaitForInstanceRunning in H.
  destruct (WaitForInstanceRunning_loop_adds _ _ _ _ _ _ _ H)
    as [new [Htr [Hall [_ [_ [Hnow Hexit]]]]]].
  split; [|exact Hexit].
  exists new. split; [exact Htr|]. split.
  - eapply Forall_impl; [|exact Hall].
    intros ev [[r ->] | [[st ->] | [-> | ->]]]; reflexivity.
  - unfold Second in Hnow. lia.
Qed.

Lemma Forall_pollOffline_regKind ec2InstanceId interval resps :
  Forall (fun ev => regKind ev = true)
    (flat_map (pollOffline ec2InstanceId interval) resps).
Proof.
  apply Forall_flat_map. apply Forall_forall. intros resp _.
  unfold pollOffline. repeat (apply Forall_cons; [reflexivity|]). apply Forall_nil.
Qed.

Lemma IsSSMAgentRegistered_grows fuel env ec2InstanceId timeout interval w o w' :
  IsSSMAgentRegistered fuel env ec2InstanceId timeout interval w = (o, w') ->
  grows (fun ev => regKind ev = true) w w' /\ o <> Exit /\ o <> Panic.
Proof.
  intro H. unfold IsSSMAgentRegistered in H.
  destruct (IsSSMAgentRegistered_loop_run _ _ _ _ _ _ _ _ H)
    as [resps [_ [Hnow Hshape]]].
  cbv zeta in Hshape.
  pose proof (Forall_pollOffline_regKind ec2InstanceId interval resps) as Hpolls.
  destruct o as [[|]|e| | |].
  - destruct Hshape as [resp [_ Htr]].
    split; [|split; discriminate].
    eexists. split; [rewrite Htr, <- app_assoc; reflexivity|].
    split; [|exact Hnow].
    apply Forall_app. split; [exact Hpolls|].
    repeat (apply Forall_cons; [reflexivity|]). apply Forall_nil.
  - destruct Hshape as [Htr _].
    split; [|split; discriminate].
    eexists. split; [rewrite Htr, <- app_assoc; reflexivity|].
    split; [|exact Hnow].
    apply Forall_app. split; [exact Hpolls|].
    repeat (apply Forall_cons; [reflexivity|]). apply Forall_nil.
  - split; [|split; discriminate].
    eexists. split; [rewrite Hshape, <- app_assoc; reflexivity|].
    split; [|exact Hnow].
    apply Forall_app. split; [exact Hpolls|].
    repeat (apply Forall_cons; [reflexivity|]). apply Forall_nil.
  - destruct Hshape.
  - destruct Hshape.
  - split; [|split; discriminate].
    eexists. split; [exact Hshape|]. split; [exact Hpolls|exact Hnow].
Qed.

Lemma now_logInvocation d w : now (logInvocation d w) = now w.
Proof.
  unfold logInvocation.
  destruct (String.length (StandardOutputContent d) <? 1000)%nat; reflexivity.
Qed.

(** The history of a run of [ExecuteCommandOnEC2Instance]: the registration
    check, then one of four endings. *)
Lemma Execute_adds fuel env ec2InstanceId command commandMaxWaitTime w o w' :
  ExecuteCommandOnEC2Instance fuel env ec2InstanceId command commandMaxWaitTime w
    = (o, w') ->
  exists reg rest,
    trace w' = trace w ++ reg ++ rest
    /\ Forall (fun ev => regKind ev = true) reg
    /\ (exists k : nat,
          calls isDescribeInstanceInformation reg = k
          /\ Z.of_nat k * Seconds 5 < Z.max 0 (Seconds 60) + Seconds 5)
    /\ now w <= now w'
    /\ o <> Exit /\ o <> Panic
    /\ let input := sendCommandInput ec2InstanceId command in
       rest = []
       \/ (exists err, rest = [EvSendCommand input (inr err)])
       \/ (exists resp err,
             rest = [EvSendCommand input (inl resp);
                     EvWaitForOutput (CommandId resp) ec2InstanceId
                       (Seconds commandMaxWaitTime) (inr err)])
       \/ (exists resp d,
             o = Ok (CommandId resp)
             /\ rest = EvSendCommand input (inl resp)
                       :: EvWaitForOutput (CommandId resp) ec2InstanceId
                            (Seconds commandMaxWaitTime) (inl d)
                       :: invocationLog d).
Proof.
  intro Hexec.
  destruct (IsSSMAgentRegistered fuel env ec2InstanceId 60 5 w)
    as [oreg w1] eqn:Hreg.
  destruct (IsSSMAgentRegistered_grows _ _ _ _ _ _ _ _ Hreg)
    as [[reg [Htr1 [Hall Hnow1]]] [Hexit Hpanic]].
  assert (Hbound : exists k : nat,
             calls isDescribeInstanceInformation reg = k
             /\ Z.of_nat k * Seconds 5 < Z.max 0 (Seconds 60) + Seconds 5).
  { unfold IsSSMAgentRegistered in Hreg.
    destruct (IsSSMAgentRegistered_loop_bound env ec2InstanceId
                (now w + Seconds 60) 5 eq_refl fuel w oreg w1 Hreg)
      as [k [Hk Hb]].
    exists k. split.
    - rewrite Htr1, calls_app in Hk. lia.
    - replace (now w + Seconds 60 - now w) with (Seconds 60) in Hb by lia.
      exact Hb. }
  exists reg.
  destruct oreg as [[|]|e| | |]; try congruence.
  - rewrite (Execute_registered _ _ _ _ _ _ _ Hreg) in Hexec.
    cbv zeta in Hexec.
    destruct (ssm_SendCommand env _ _) as [resp|err].
    + destruct (ssm_WaitForOutput env _ _ _ _) as [d|err];
        injection Hexec as <- <-.
      * eexists. split.
        { rewrite trace_logInvocation, !trace_called, Htr1, <- !app_assoc.
          reflexivity. }
        split; [exact Hall|]. split; [exact Hbound|].
        split.
        { rewrite now_logInvocation.
          etransitivity; [|apply now_called].
          etransitivity; [|apply now_called]. exact Hnow1. }
        split; [discriminate|]. split; [discriminate|].
        right. right. right. exists resp, d. split; reflexivity.
      * eexists. split.
        { rewrite !trace_called, Htr1, <- !app_assoc. reflexivity. }
        split; [exact Hall|]. split; [exact Hbound|].
        split.
        { etransitivity; [|apply now_called].
          etransitivity; [|apply now_called]. exact Hnow1. }
        split; [discriminate|]. split; [discriminate|].
        right. right. left. exists resp, err. reflexivity.
    + injection Hexec as <- <-.
      eexists. split.
      { rewrite !trace_called, Htr1, <- !app_assoc. reflexivity. }
      split; [exact Hall|]. split; [exact Hbound|].
      split.
      { etransitivity; [|apply now_called]. exact Hnow1. }
      split; [discriminate|]. split; [discriminate|].
      right. left. exists err. reflexivity.
  - rewrite (Execute_not_registered _ _ _ _ _ _ _ Hreg) in Hexec.
    injection Hexec as <- <-.
    exists []. rewrite app_nil_r.
    repeat split; try assumption; try discriminate. left. reflexivity.
  - unfold ExecuteCommandOnEC2Instance in Hexec. rewrite Hreg in Hexec.
    cbn [call] in Hexec. injection Hexec as <- <-.
    exists []. rewrite app_nil_r.
    repeat split; try assumption; try discriminate. left. reflexivity.
  - unfold ExecuteCommandOnEC2Instance in Hexec. rewrite Hreg in Hexec.
    cbn [call] in Hexec. injection Hexec as <- <-.
    exists []. rewrite app_nil_r.
    repeat split; try assumption; try discriminate. left. reflexivity.
Qed.

Lemma regKind_calls (kind : event -> bool) (reg : list event) :
  (forall ev, regKind ev = true -> kind ev = false) ->
  Forall (fun ev => regKind ev = true) reg -> calls kind reg = 0%nat.
Proof.
  intros Hk Hall. apply calls_none. eapply Forall_impl; [|exact Hall].
  exact Hk.
Qed.

Lemma Forall_invocationLog_isLog d :
  Forall (fun ev => isLog ev = true) (invocationLog d).
Proof.
  unfold invocationLog.
  destruct (String.length (StandardOutputContent d) <? 1000)%nat;
    repeat (apply Forall_cons; [reflexivity|]); apply Forall_nil.
Qed.

(** X6. Whatever the answers, a run of [ExecuteCommandOnEC2Instance] makes
    at most 12 describe calls, at most one SendCommand call and at most one
    waiter call, and nothing but SSM calls, log lines and sleeps.  Every
    SendCommand carries the document AWS-RunShellScript with the command
    text as its only command, for the one instance; the waiter is asked
    about the command id a successful SendCommand of this run returned, on
    the same instance, for [commandMaxWaitTime] seconds. *)
Theorem Execute_call_discipline :
  forall (fuel : nat) (env : Env) (ec2InstanceId command : string)
         (commandMaxWaitTime : Z) (w : World),
    exists new,
      trace (snd (ExecuteCommandOnEC2Instance fuel env ec2InstanceId command
                    commandMaxWaitTime w)) = trace w ++ new
      /\ Forall (fun ev => execKind ev = true) new
      /\ (calls isDescribeInstanceInformation new <= 12)%nat
      /\ (calls isSendCommand new <= 1)%nat
      /\ (calls isWaitForOutput new <= 1)%nat
      /\ (forall input r, In (EvSendCommand input r) new ->
            input = {| InstanceIds := [ec2InstanceId];
                       DocumentName := "AWS-RunShellScript";
                       Parameters := [("commands", [command])] |})
      /\ (forall commandId instanceId dur r,
            In (EvWaitForOutput commandId instanceId dur r) new ->
            instanceId = ec2InstanceId
            /\ dur = Seconds commandMaxWaitTime
            /\ exists resp,
                 CommandId resp = commandId
                 /\ In (EvSendCommand (sendCommandInput ec2InstanceId command)
                          (inl resp)) new).
Proof.
  intros fuel env ec2InstanceId command commandMaxWaitTime w.
  destruct (ExecuteCommandOnEC2Instance fuel env ec2InstanceId command
              commandMaxWaitTime w) as [o w'] eqn:Hexec.
  destruct (Execute_adds _ _ _ _ _ _ _ _ Hexec)
    as [reg [rest [Htr [Hall [[k [Hk Hb]] [_ [_ [_ Hrest]]]]]]]].
  cbv zeta in Hrest.
  assert (Hk12 : (k <= 12)%nat).
  { change (Seconds 5) with 5000000000 in Hb.
    change (Seconds 60) with 60000000000 in Hb. lia. }
  assert (Hreg_send : calls isSendCommand reg = 0%nat).
  { apply regKind_calls; [|exact Hall]. intros [] H; try reflexivity; discriminate H. }
  assert (Hreg_wait : calls isWaitForOutput reg = 0%nat).
  { apply regKind_calls; [|exact Hall]. intros [] H; try reflexivity; discriminate H. }
  assert (Hreg_exec : Forall (fun ev => execKind ev = true) reg).
  { eapply Forall_impl; [|exact Hall].
    intros [] H; try reflexivity; discriminate H. }
  assert (Hnot_reg_send : forall input r, ~ In (EvSendCommand input r) reg).
  { intros input r Hin. rewrite Forall_forall in Hall.
    specialize (Hall _ Hin). discriminate Hall. }
  assert (Hnot_reg_wait : forall a b c d, ~ In (EvWaitForOutput a b c d) reg).
  { intros a b c d Hin. rewrite Forall_forall in Hall.
    specialize (Hall _ Hin). discriminate Hall. }
  exists (reg ++ rest). cbn [snd].
  split; [exact Htr|].
  rewrite !calls_app, Hk, Hreg_send, Hreg_wait.
  destruct Hrest as [-> | [[err ->] | [[resp [err ->]] | [resp [d [_ ->]]]]]].
  - rewrite app_nil_r. repeat split; try (cbn; lia); try assumption.
    + intros input r Hin. exfalso. exact (Hnot_reg_send _ _ Hin).
    + exfalso. eapply Hnot_reg_wait. eassumption.
    + exfalso. eapply Hnot_reg_wait. eassumption.
    + exfalso. eapply Hnot_reg_wait. eassumption.
  - split; [apply Forall_app; split;
            [exact Hreg_exec|repeat (apply Forall_cons; [reflexivity|]); apply Forall_nil]|].
    rewrite !calls_cons, !calls_nil. cbn [isDescribeInstanceInformation isSendCommand isWaitForOutput].
    split; [lia|]. split; [lia|]. split; [lia|]. split.
    + intros input r Hin. apply in_app_or in Hin.
      destruct Hin as [Hin | [Hin | []]]; [exfalso; exact (Hnot_reg_send _ _ Hin)|].
      injection Hin as <- _. reflexivity.
    + intros a b c r Hin. apply in_app_or in Hin.
      destruct Hin as [Hin | [Hin | []]]; [exfalso; exact (Hnot_reg_wait _ _ _ _ Hin)|].
      discriminate Hin.
  - split; [apply Forall_app; split;
            [exact Hreg_exec|repeat (apply Forall_cons; [reflexivity|]); apply Forall_nil]|].
    rewrite !calls_cons, !calls_nil. cbn [isDescribeInstanceInformation isSendCommand isWaitForOutput].
    split; [lia|]. split; [lia|]. split; [lia|]. split.
    + intros input r Hin. apply in_app_or in Hin.
      destruct Hin as [Hin | [Hin | [Hin | []]]];
        [exfalso; exact (Hnot_reg_send _ _ Hin)| |discriminate Hin].
      injection Hin as <- _. reflexivity.
    + intros a b c r Hin. apply in_app_or in Hin.
      destruct Hin as [Hin | [Hin | [Hin | []]]];
        [exfalso; exact (Hnot_reg_wait _ _ _ _ Hin)|discriminate Hin|].
      injection Hin as <- <- <- _.
      split; [reflexivity|]. split; [reflexivity|].
      exists resp. split; [reflexivity|].
      apply in_or_app. right. left. reflexivity.
  - pose proof (Forall_invocationLog_isLog d) as Hlog.
    assert (Hlog_exec : Forall (fun ev => execKind ev = true) (invocationLog d)).
    { eapply Forall_impl; [|exact Hlog].
      intros [] H; try reflexivity; discriminate H. }
    assert (Hlog0 : forall kind, (forall ev, isLog ev = true -> kind ev = false) ->
                                 calls kind (invocationLog d) = 0%nat).
    { intros kind Hkind. apply calls_none.
      eapply Forall_impl; [|exact Hlog]. exact Hkind. }
    assert (Hlog_in : forall ev, In ev (invocationLog d) -> isLog ev = true).
    { apply Forall_forall. exact Hlog. }
    split; [apply Forall_app; split; [exact Hreg_exec|];
            do 2 (apply Forall_cons; [reflexivity|]); exact Hlog_exec|].
    rewrite !calls_cons.
    cbn [isDescribeInstanceInformation isSendCommand isWaitForOutput].
    rewrite !Hlog0 by (intros [] H; try reflexivity; discriminate H).
    split; [lia|]. split; [lia|]. split; [lia|]. split.
    + intros input r Hin. apply in_app_or in Hin.
      destruct Hin as [Hin | [Hin | [Hin | Hin]]];
        [exfalso; exact (Hnot_reg_send _ _ Hin)| |discriminate Hin|].
      * injection Hin as <- _. reflexivity.
      * apply Hlog_in in Hin. discriminate Hin.
    + intros a b c r Hin. apply in_app_or in Hin.
      destruct Hin as [Hin | [Hin | [Hin | Hin]]];
        [exfalso; exact (Hnot_reg_wait _ _ _ _ Hin)|discriminate Hin| |].
      * injection Hin as <- <- <- _.
        split; [reflexivity|]. split; [reflexivity|].
        exists resp. split; [reflexivity|].
        apply in_or_app. right. left. reflexivity.
      * apply Hlog_in in Hin. discriminate Hin.
Qed.

(** ** GetOrCreateInstanceProfile, continued *)

Lemma findProfile_Some_or_None iamRoleName profiles :
  (exists name, findProfile iamRoleName profiles = Some name)
  \/ findProfile iamRoleName profiles = None.
Proof. destruct (findProfile iamRoleName profiles); eauto. Qed.

(** The five ways through the function. *)
Lemma GetOrCreateInstanceProfile_adds env iamRoleName w o w' :
  GetOrCreateInstanceProfile env iamRoleName w = (o, w') ->
  exists new,
    trace w' = trace w ++ new
    /\ now w <= now w'
    /\ ((exists err,
           new = [EvListInstanceProfiles (inr err)]
           /\ o = Fail (Errorf "error listing instance profiles: %v" [AErr err]))
        \/ (exists ps name,
              new = [EvListInstanceProfiles (inl ps); profileExists iamRoleName]
              /\ o = Ok name
              /\ findProfile iamRoleName (InstanceProfiles ps) = Some name)
        \/ (exists ps err,
              new = [EvListInstanceProfiles (inl ps);
                     EvCreateInstanceProfile iamRoleName (Some err)]
              /\ o = Fail (Errorf "error creating instance profile: %v"
                             [AErr err]))
        \/ (exists ps err,
              new = [EvListInstanceProfiles (inl ps);
                     EvCreateInstanceProfile iamRoleName None;
                     EvInfof "Created instance profile %s" [AStr iamRoleName];
                     EvAddRoleToInstanceProfile iamRoleName iamRoleName
                       (Some err)]
              /\ o = Fail (Errorf "error attaching role to instance profile: %v"
                             [AErr err]))
        \/ (exists ps,
              new = EvListInstanceProfiles (inl ps) :: createAndAttach iamRoleName
              /\ o = Ok iamRoleName)).
Proof.
  unfold GetOrCreateInstanceProfile. intro H.
  assert (Hnow : forall e ev x y, now w <= now x -> y = called e ev x ->
                                  now w <= now y).
  { intros e ev x y Hx ->. pose proof (now_called e ev x). lia. }
  destruct (iam_ListInstanceProfiles env _) as [ps|err].
  - destruct (findProfile iamRoleName (InstanceProfiles ps)) as [name|] eqn:Hf.
    + injection H as <- <-. eexists. split.
      { rewrite trace_emit, trace_called, <- app_assoc. reflexivity. }
      split; [rewrite now_emit; apply now_called|].
      right. left. exists ps, name. repeat split. exact Hf.
    + cbv zeta in H.
      destruct (iam_CreateInstanceProfile env _ iamRoleName) as [err|].
      * injection H as <- <-. eexists. split.
        { rewrite !trace_called, <- app_assoc. reflexivity. }
        split.
        { etransitivity; [|apply now_called]. apply now_called. }
        right. right. left. exists ps, err. split; reflexivity.
      * destruct (iam_AddRoleToInstanceProfile env _ iamRoleName iamRoleName)
          as [err|].
        -- injection H as <- <-. eexists. split.
           { repeat (rewrite trace_emit || rewrite trace_called).
             rewrite <- !app_assoc. reflexivity. }
           split.
           { etransitivity; [|apply now_called]. rewrite now_emit.
             etransitivity; [|apply now_called]. apply now_called. }
           right. right. right. left. exists ps, err. split; reflexivity.
        -- injection H as <- <-. eexists. split.
           { repeat (rewrite trace_emit || rewrite trace_called).
             rewrite <- !app_assoc. reflexivity. }
           split.
           { rewrite now_emit.
             etransitivity; [|apply now_called]. rewrite now_emit.
             etransitivity; [|apply now_called]. apply now_called. }
           right. right. right. right. exists ps. split; reflexivity.
  - injection H as <- <-. eexists. split; [apply trace_called|].
    split; [apply now_called|].
    left. exists err. split; reflexivity.
Qed.


(** ** CreateAndStartEC2Instance, continued *)

(** The function by its three stages. *)
Lemma CreateAndStartEC2Instance_stages fuel env ec2AmiId subnetId
    securityGroupId iamRoleName instanceType userData tagSpecifications w :
  CreateAndStartEC2Instance fuel env ec2AmiId subnetId securityGroupId
    iamRoleName instanceType userData tagSpecifications w
  = match (if negb (tagSpecifications =? "")%string
           then json_Unmarshal env tagSpecifications else inl []) with
    | inr err =>
      (Exit, emit (EvFatalf "Error parsing tag specifications: %v" [AErr err]) w)
    | inl tags =>
      if negb (iamRoleName =? "")%string then
        call (GetOrCreateInstanceProfile env iamRoleName w)
          (fun name w1 =>
             launch fuel env
               (startRequest ec2AmiId subnetId securityGroupId instanceType
                  userData tags (Some name)) w1)
          (fun err w1 =>
             (Fail (Errorf
                      "error creating or retrieving instance profile for IAM role name %s: %v"
                      [AStr iamRoleName; AErr err]), w1))
      else
        launch fuel env
          (startRequest ec2AmiId subnetId securityGroupId instanceType
             userData tags None) w
    end.
Proof.
  unfold CreateAndStartEC2Instance, launch.
  destruct (negb (tagSpecifications =? "")%string).
  - destruct (json_Unmarshal env tagSpecifications) as [tags|err];
      [|reflexivity].
    destruct (negb (iamRoleName =? "")%string); [|reflexivity].
    destruct (GetOrCreateInstanceProfile env iamRoleName w) as [[name|e| | |] w1];
      reflexivity.
  - destruct (negb (iamRoleName =? "")%string); [|reflexivity].
    destruct (GetOrCreateInstanceProfile env iamRoleName w) as [[name|e| | |] w1];
      reflexivity.
Qed.

(** What the launch stage adds: the RunInstances call, then the wait. *)
Lemma launch_adds fuel env startParams w1 o w' :
  launch fuel env startParams w1 = (o, w') ->
  exists res rest,
    trace w' = trace w1 ++ EvRunInstances startParams res :: rest
    /\ Forall (fun ev => waitKind ev = true) rest
    /\ now w1 <= now w'
    /\ o <> Exit
    /\ (calls isDescribeInstances rest = 0%nat
        \/ exists runResult, res = inl runResult)
    /\ (forall instanceId, o = Ok instanceId ->
          exists runResult inst more,
            res = inl runResult
            /\ RunInstances_Instances runResult = inst :: more
            /\ instanceId = InstanceId inst
            /\ WaitForInstanceRunning fuel env instanceId
                 (called env (EvRunInstances startParams res) w1) = (Ok tt, w')).
Proof.
  unfold launch. intro H.
  destruct (ec2_RunInstances env _ startParams) as [runResult|err].
  - destruct (RunInstances_Instances runResult) as [|inst more] eqn:Hinst.
    + injection H as <- <-. exists (inl runResult), [].
      split; [apply trace_called|]. split; [constructor|].
      split; [apply now_called|]. split; [discriminate|].
      split; [left; reflexivity|]. intros ? Ho. discriminate Ho.
    + destruct (WaitForInstanceRunning fuel env (InstanceId inst) _)
        as [ow w3] eqn:Hwait.
      destruct (WaitForInstanceRunning_grows _ _ _ _ _ _ Hwait)
        as [[rest [Htr [Hall Hnow]]] Hexit].
      exists (inl runResult), rest.
      assert (Hw' : w' = w3) by (destruct ow; cbn [call] in H; congruence).
      subst w3.
      split; [rewrite Htr, trace_called, <- app_assoc; reflexivity|].
      split; [exact Hall|].
      split; [etransitivity; [apply now_called|exact Hnow]|].
      split; [destruct ow; cbn [call] in H; congruence|].
      split; [right; eexists; reflexivity|].
      intros instanceId Ho.
      exists runResult, inst, more. split; [reflexivity|]. split; [exact Hinst|].
      destruct ow as [[]|e| | |]; cbn [call] in H; try congruence.
      assert (instanceId = InstanceId inst) by congruence. subst instanceId.
      split; [reflexivity|exact Hwait].
  - injection H as <- <-. exists (inr err), [].
    split; [apply trace_called|]. split; [constructor|].
    split; [apply now_called|]. split; [discriminate|].
    split; [left; reflexivity|]. intros ? Ho. discriminate Ho.
Qed.

Lemma GetOrCreateInstanceProfile_grows env iamRoleName w o w' :
  GetOrCreateInstanceProfile env iamRoleName w = (o, w') ->
  grows (fun ev => profileKind ev = true) w w'
  /\ ((exists name, o = Ok name) \/ (exists e, o = Fail e)).
Proof.
  intro H.
  destruct (GetOrCreateInstanceProfile_adds _ _ _ _ _ H) as [new [Htr [Hnow Hc]]].
  assert (Hkinds : Forall (fun ev => profileKind ev = true) new
                   /\ ((exists name, o = Ok name) \/ (exists e, o = Fail e))).
  { destruct Hc as [[err [-> ->]] | [[ps [name [-> [-> _]]]]
                   | [[ps [err [-> ->]]] | [[ps [err [-> ->]]] | [ps [-> ->]]]]]];
      unfold createAndAttach, profileExists;
      (split; [repeat (apply Forall_cons; [reflexivity|]); apply Forall_nil|]);
      eauto. }
  destruct Hkinds as [Hall Ho].
  split; [|exact Ho]. exists new. repeat split; assumption.
Qed.

(** The history of a run of [CreateAndStartEC2Instance]: either the fatal
    line alone, or the profile stage followed by nothing or by the launch. *)
Lemma CreateAndStartEC2Instance_adds fuel env ec2AmiId subnetId securityGroupId
    iamRoleName instanceType userData tagSpecifications w o w' :
  CreateAndStartEC2Instance fuel env ec2AmiId subnetId securityGroupId
    iamRoleName instanceType userData tagSpecifications w = (o, w') ->
  exists new,
    trace w' = trace w ++ new
    /\ now w <= now w'
    /\ ((exists err,
           new = [EvFatalf "Error parsing tag specifications: %v" [AErr err]]
           /\ o = Exit)
        \/ (exists prof tail tags,
              new = prof ++ tail
              /\ Forall (fun ev => profileKind ev = true) prof
              /\ (iamRoleName = "" -> prof = [])
              /\ (tagSpecifications = "" -> tags = [])
              /\ o <> Exit
              /\ (tail = []
                  \/ exists name res rest,
                       tail = EvRunInstances
                                (startRequest ec2AmiId subnetId securityGroupId
                                   instanceType userData tags name) res :: rest
                       /\ Forall (fun ev => waitKind ev = true) rest
                       /\ (iamRoleName = "" -> name = None)
                       /\ (calls isDescribeInstances rest = 0%nat
                           \/ exists runResult, res = inl runResult)))).
Proof.
  rewrite CreateAndStartEC2Instance_stages. intro H.
  destruct (if negb (tagSpecifications =? "")%string
            then json_Unmarshal env tagSpecifications else inl [])
    as [tags|err] eqn:Htags.
  - assert (Hnotags : tagSpecifications = "" -> tags = []).
    { intros ->. cbn in Htags. congruence. }
    destruct (String.eqb_spec iamRoleName "") as [Hrole | Hrole]; cbn [negb] in H.
    + destruct (launch_adds _ _ _ _ _ _ H)
        as [res [rest [Htr [Hall [Hnow [Hexit [Hdesc _]]]]]]].
      eexists. split; [exact Htr|]. split; [exact Hnow|].
      right. exists [], (EvRunInstances
                           (startRequest ec2AmiId subnetId securityGroupId
                              instanceType userData tags None) res :: rest), tags.
      split; [reflexivity|]. split; [constructor|]. split; [reflexivity|].
      split; [exact Hnotags|]. split; [exact Hexit|].
      right. exists None, res, rest. repeat split; auto.
    + destruct (GetOrCreateInstanceProfile env iamRoleName w)
        as [ogoc w1] eqn:Hgoc.
      destruct (GetOrCreateInstanceProfile_grows _ _ _ _ _ Hgoc)
        as [[prof [Htr1 [Hprof Hnow1]]] [[name ->] | [e ->]]]; cbn [call] in H.
      * destruct (launch_adds _ _ _ _ _ _ H)
          as [res [rest [Htr [Hall [Hnow [Hexit [Hdesc _]]]]]]].
        eexists. split; [rewrite Htr, Htr1, <- app_assoc; reflexivity|].
        split; [lia|].
        right. exists prof, (EvRunInstances
                               (startRequest ec2AmiId subnetId securityGroupId
                                  instanceType userData tags (Some name)) res
                             :: rest), tags.
        split; [reflexivity|]. split; [exact Hprof|].
        split; [intro; contradiction|].
        split; [exact Hnotags|]. split; [exact Hexit|].
        right. exists (Some name), res, rest.
        repeat split; auto. intro; contradiction.
      * injection H as <- <-.
        exists prof. split; [exact Htr1|]. split; [exact Hnow1|].
        right. exists prof, [], tags. rewrite app_nil_r.
        split; [reflexivity|]. split; [exact Hprof|].
        split; [intro; contradiction|].
        split; [exact Hnotags|]. split; [discriminate|]. left. reflexivity.
  - injection H as <- <-. eexists. split; [apply trace_emit|].
    split; [rewrite now_emit; lia|].
    left. exists err. split; reflexivity.
Qed.

Lemma kind_excludes (P Q : event -> bool) (l : list event) (ev : event) :
  Forall (fun e => P e = true) l ->
  (forall e, P e = true -> Q e = false) ->
  In ev l -> Q ev = false.
Proof.
  intros Hall HPQ Hin. apply HPQ. rewrite Forall_forall in Hall. auto.
Qed.

(** X8. Whatever the answers, one call of [CreateAndStartEC2Instance] makes
    at most one RunInstances call, and that call asks for exactly one
    instance (MinCount = MaxCount = 1) of the given image, type and subnet,
    in the one given security group, without detailed monitoring, with the
    user data base64-encoded, without tags when no tag text was given and
    without profile when no role was named.  Without a role it makes no IAM
    call.  It describes the instance only after RunInstances succeeded, and
    it never terminates an instance nor calls SSM. *)
Theorem CreateAndStartEC2Instance_launch_discipline :
  forall (fuel : nat) (env : Env)
         (ec2AmiId subnetId securityGroupId iamRoleName instanceType userData
          tagSpecifications : string) (w : World),
    exists new,
      trace (snd (CreateAndStartEC2Instance fuel env ec2AmiId subnetId
                    securityGroupId iamRoleName instanceType userData
                    tagSpecifications w)) = trace w ++ new
      /\ Forall (fun ev => startKind ev = true) new
      /\ (calls isRunInstances new <= 1)%nat
      /\ (forall p res, In (EvRunInstances p res) new ->
            ImageId p = ec2AmiId /\ InstanceType p = instanceType
            /\ MinCount p = 1 /\ MaxCount p = 1
            /\ MonitoringEnabled p = false
            /\ SubnetId p = subnetId
            /\ SecurityGroupIds p = [securityGroupId]
            /\ UserData p = StdEncoding userData
            /\ (tagSpecifications = "" -> TagSpecifications p = [])
            /\ (iamRoleName = "" -> IamInstanceProfile p = None))
      /\ (iamRoleName = "" -> calls isIAM new = 0%nat)
      /\ ((0 < calls isDescribeInstances new)%nat ->
          exists p runResult, In (EvRunInstances p (inl runResult)) new).
Proof.
  intros fuel env ec2AmiId subnetId securityGroupId iamRoleName instanceType
         userData tagSpecifications w.
  destruct (CreateAndStartEC2Instance fuel env ec2AmiId subnetId securityGroupId
              iamRoleName instanceType userData tagSpecifications w)
    as [o w'] eqn:Hrun.
  destruct (CreateAndStartEC2Instance_adds _ _ _ _ _ _ _ _ _ _ _ _ Hrun)
    as [new [Htr [_ Hcases]]].
  exists new. cbn [snd]. split; [exact Htr|].
  destruct Hcases as [[err [-> _]]
                     | [prof [tail [tags [-> [Hprof [Hnorole [Hnotags [_ Htail]]]]]]]]].
  - split; [repeat (apply Forall_cons; [reflexivity|]); apply Forall_nil|].
    rewrite !calls_cons, !calls_nil. cbn.
    split; [lia|]. split.
    { intros p res [Hin | []]. discriminate Hin. }
    split; [reflexivity|]. intro H. lia.
  - assert (Hprof_start : Forall (fun ev => startKind ev = true) prof).
    { eapply Forall_impl; [|exact Hprof].
      intros [] H; try reflexivity; discriminate H. }
    assert (Hprof0 : forall kind,
               (forall e, profileKind e = true -> kind e = false) ->
               calls kind prof = 0%nat).
    { intros kind Hk. apply calls_none.
      eapply Forall_impl; [|exact Hprof]. exact Hk. }
    assert (Hprof_run : calls isRunInstances prof = 0%nat).
    { apply Hprof0. intros [] H; try reflexivity; discriminate H. }
    assert (Hprof_desc : calls isDescribeInstances prof = 0%nat).
    { apply Hprof0. intros [] H; try reflexivity; discriminate H. }
    assert (Hprof_in : forall p res, ~ In (EvRunInstances p res) prof).
    { intros p res Hin.
      assert (Hex : forall e, profileKind e = true -> isRunInstances e = false)
        by (intros [] H; try reflexivity; discriminate H).
      pose proof (kind_excludes profileKind isRunInstances prof
                    (EvRunInstances p res) Hprof Hex Hin) as Hk.
      discriminate Hk. }
    destruct Htail as [-> | [name [res [rest [-> [Hrest [Hname Hdesc]]]]]]].
    + rewrite app_nil_r.
      split; [exact Hprof_start|].
      split; [rewrite Hprof_run; lia|].
      split; [intros p res Hin; exfalso; exact (Hprof_in _ _ Hin)|].
      split; [intros Hrole; rewrite (Hnorole Hrole); reflexivity|].
      rewrite Hprof_desc. intro H. lia.
    + assert (Hrest0 : forall kind,
                 (forall e, waitKind e = true -> kind e = false) ->
                 calls kind rest = 0%nat).
      { intros kind Hk. apply calls_none.
        eapply Forall_impl; [|exact Hrest]. exact Hk. }
      assert (Hrest_in : forall p r, ~ In (EvRunInstances p r) rest).
      { intros p r Hin.
        assert (Hex : forall e, waitKind e = true -> isRunInstances e = false)
          by (intros [] H; try reflexivity; discriminate H).
        pose proof (kind_excludes waitKind isRunInstances rest
                      (EvRunInstances p r) Hrest Hex Hin) as Hk.
        discriminate Hk. }
      split.
      { apply Forall_app. split; [exact Hprof_start|].
        apply Forall_cons; [reflexivity|].
        eapply Forall_impl; [|exact Hrest].
        intros [] H; try reflexivity; discriminate H. }
      rewrite !calls_app, !calls_cons.
      cbn [isRunInstances isDescribeInstances].
      rewrite Hprof_run, Hprof_desc.
      rewrite (Hrest0 isRunInstances)
        by (intros [] H; try reflexivity; discriminate H).
      split; [lia|]. split.
      { intros p r Hin. apply in_app_or in Hin.
        destruct Hin as [Hin | [Hin | Hin]];
          [exfalso; exact (Hprof_in _ _ Hin)| |exfalso; exact (Hrest_in _ _ Hin)].
        injection Hin as <- _. cbn.
        repeat split; try reflexivity.
        - exact Hnotags.
        - intro Hrole. exact (Hname Hrole). }
      split.
      { intro Hrole. rewrite (Hnorole Hrole), calls_nil. cbn.
        apply Hrest0. intros [] H; try reflexivity; discriminate H. }
      intro Hpos.
      destruct Hdesc as [Hzero | [runResult ->]];
        [rewrite Hzero in Hpos; cbn in Hpos; lia|].
      eexists. exists runResult. apply in_or_app. right. left. reflexivity.
Qed.

(** X9. When a role is named (and the tag text, if any, parses), the
    profile stage decides what follows: if [GetOrCreateInstanceProfile]
    fails, the function returns that error wrapped with the role name and
    makes no RunInstances call; if it returns a name, the next call is
    RunInstances with exactly that name as instance profile, be it the role
    name or the name of an existing profile that holds the role. *)
Theorem CreateAndStartEC2Instance_passes_profile :
  forall (fuel : nat) (env : Env)
         (ec2AmiId subnetId securityGroupId iamRoleName instanceType userData
          tagSpecifications : string) (tags : list TagSpecification)
         (w : World),
    iamRoleName <> "" ->
    (tagSpecifications = "" /\ tags = []
     \/ tagSpecifications <> ""
        /\ json_Unmarshal env tagSpecifications = inl tags) ->
    let r := CreateAndStartEC2Instance fuel env ec2AmiId subnetId
               securityGroupId iamRoleName instanceType userData
               tagSpecifications w in
    (forall err w1,
        GetOrCreateInstanceProfile env iamRoleName w = (Fail err, w1) ->
        r = (Fail (Errorf
                     "error creating or retrieving instance profile for IAM role name %s: %v"
                     [AStr iamRoleName; AErr err]), w1)
        /\ calls isRunInstances (trace w1) = calls isRunInstances (trace w))
    /\ (forall name w1,
          GetOrCreateInstanceProfile env iamRoleName w = (Ok name, w1) ->
          exists res rest,
            trace (snd r)
            = trace w1
                ++ EvRunInstances
                     (startRequest ec2AmiId subnetId securityGroupId
                        instanceType userData tags (Some name)) res :: rest).
Proof.
  intros fuel env ec2AmiId subnetId securityGroupId iamRoleName instanceType
         userData tagSpecifications tags w Hrole Htags r.
  assert (Htags' : (if negb (tagSpecifications =? "")%string
                    then json_Unmarshal env tagSpecifications else inl [])
                   = inl tags).
  { destruct Htags as [[-> ->] | [Hne Hjson]]; [reflexivity|].
    apply String.eqb_neq in Hne. rewrite Hne. exact Hjson. }
  apply String.eqb_neq in Hrole.
  unfold r. rewrite CreateAndStartEC2Instance_stages, Htags', Hrole.
  cbn [negb]. split.
  - intros err w1 Hgoc. rewrite Hgoc. cbn [call]. split; [reflexivity|].
    destruct (GetOrCreateInstanceProfile_grows _ _ _ _ _ Hgoc)
      as [[prof [Htr [Hprof _]]] _].
    rewrite Htr, calls_app.
    rewrite (calls_none isRunInstances prof); [lia|].
    eapply Forall_impl; [|exact Hprof].
    intros [] H; try reflexivity; discriminate H.
  - intros name w1 Hgoc. rewrite Hgoc. cbn [call].
    destruct (launch fuel env _ w1) as [o w'] eqn:Hlaunch.
    destruct (launch_adds _ _ _ _ _ _ Hlaunch) as [res [rest [Htr _]]].
    exists res, rest. exact Htr.
Qed.

Lemma CreateAndStartEC2Instance_passes_profile_witness :
  exists res rest,
    trace (snd (CreateAndStartEC2Instance 1 freshIamEnv "ami-1" "subnet-1"
                  "sg-1" "db-role" "t2.micro" "" "" w0))
    = trace (snd (GetOrCreateInstanceProfile freshIamEnv "db-role" w0))
        ++ EvRunInstances
             (startRequest "ami-1" "subnet-1" "sg-1" "t2.micro" "" []
                (Some "db-profile")) res :: rest.
Proof.
  assert (Hrole : "db-role" <> "") by discriminate.
  apply (proj2 (CreateAndStartEC2Instance_passes_profile 1 freshIamEnv "ami-1"
                  "subnet-1" "sg-1" "db-role" "t2.micro" "" "" [] w0 Hrole
                  (or_introl (conj eq_refl eq_refl)))
           "db-profile").
  reflexivity.
Defined.

(** ** getInputs: the three flows *)

Lemma getInputs_start fuel env w n :
  GetInput env "mode" = "start" ->
  GetInput env "ec2-image-id" <> "" ->
  GetInput env "subnet-id" <> "" ->
  GetInput env "security-group-id" <> "" ->
  Atoi (GetInput env "command-max-wait-secs") = inl n ->
  config_LoadDefaultConfig env = None ->
  getInputs fuel env w
  = call (CreateAndStartEC2Instance fuel env (GetInput env "ec2-image-id")
            (GetInput env "subnet-id") (GetInput env "security-group-id")
            (GetInput env "iam-role-name") (instanceTypeOf env)
            (GetInput env "user-data") (GetInput env "tag-specifications")
            (afterConfig env n w))
      (fun instanceId w2 =>
         (Ok tt,
          emit (EvSetOutput "ec2-instance-id" instanceId)
            (emit (EvInfof "Started EC2 instance with ID: %s" [AStr instanceId])
               w2)))
      (fun err w2 => (Exit, emit (EvFatalf "Error occurred: %v" [AErr err]) w2)).
Proof.
  intros Hmode Hami Hsub Hsg Hatoi Hcfg.
  apply String.eqb_neq in Hami, Hsub, Hsg.
  unfold getInputs, afterConfig, instanceTypeOf.
  rewrite Hmode, Hatoi, Hcfg, Hami, Hsub, Hsg.
  cbn [String.eqb Ascii.eqb Bool.eqb orb].
  destruct (n <=? 5); reflexivity.
Qed.

Lemma calls_afterConfig (kind : event -> bool) env n w :
  kind (EvLoadDefaultConfig None) = false ->
  kind raisedToMinimum = false ->
  calls kind (trace (afterConfig env n w)) = calls kind (trace w).
Proof.
  intros H1 H2. unfold afterConfig.
  rewrite trace_called, calls_snoc, H1.
  destruct (n <=? 5); [|reflexivity].
  rewrite trace_emit, calls_snoc, H2. reflexivity.
Qed.

(** X10. A [start] invocation without role and tags whose instance was
    launched but whose describe call then fails (after any number of polls
    that saw the instance not yet running) ends the process through
    [action.Fatalf]: the history ends with the failed describe call and the
    fatal line, so the launched instance is not terminated and the output
    [ec2-instance-id] is never set. *)
Theorem getInputs_start_describe_failure :
  forall (fuel : nat) (env : Env) (w : World) (n : Z)
         (runResult : RunInstancesOutput) (inst : Instance)
         (more : list Instance) (resps : list DescribeInstancesOutput)
         (err : error),
    GetInput env "mode" = "start" ->
    GetInput env "ec2-image-id" <> "" ->
    GetInput env "subnet-id" <> "" ->
    GetInput env "security-group-id" <> "" ->
    GetInput env "iam-role-name" = "" ->
    GetInput env "tag-specifications" = "" ->
    Atoi (GetInput env "command-max-wait-secs") = inl n ->
    config_LoadDefaultConfig env = None ->
    let request :=
      startRequest (GetInput env "ec2-image-id") (GetInput env "subnet-id")
        (GetInput env "security-group-id") (instanceTypeOf env)
        (GetInput env "user-data") [] None in
    ec2_RunInstances env (calls isRunInstances (trace w)) request
      = inl runResult ->
    RunInstances_Instances runResult = inst :: more ->
    (forall i resp, nth_error resps i = Some resp ->
       ec2_DescribeInstances env (calls isDescribeInstances (trace w) + i)
         [InstanceId inst] = inl resp
       /\ exists st, describedState resp = Some st /\ st <> "running") ->
    ec2_DescribeInstances env
      (calls isDescribeInstances (trace w) + List.length resps)
      [InstanceId inst] = inr err ->
    (List.length resps < fuel)%nat ->
    exists w',
      getInputs fuel env w = (Exit, w')
      /\ trace w'
         = trace (afterConfig env n w)
             ++ EvRunInstances request (inl runResult)
                :: flat_map (pollNotRunning (InstanceId inst)) resps
             ++ [EvDescribeInstances [InstanceId inst] (inr err);
                 EvFatalf "Error occurred: %v"
                   [AErr (Errorf "error waiting for instance to be running: %v"
                            [AErr (Errorf "error describing instance %s: %v"
                                     [AStr (InstanceId inst); AErr err])])]]
      /\ calls isTerminateInstances (trace w')
         = calls isTerminateInstances (trace w)
      /\ calls isSetOutput (trace w') = calls isSetOutput (trace w).
Proof.
  intros fuel env w n runResult inst more resps err Hmode Hami Hsub Hsg Hrole
         Htags Hatoi Hcfg request Hrun Hinst Hresps Herr Hfuel.
  rewrite (getInputs_start fuel env w n Hmode Hami Hsub Hsg Hatoi Hcfg).
  rewrite CreateAndStartEC2Instance_stages, Hrole, Htags.
  cbn [String.eqb negb]. unfold launch. fold request.
  rewrite (calls_afterConfig isRunInstances) by reflexivity.
  rewrite Hrun, Hinst.
  set (w2 := called env (EvRunInstances request (inl runResult))
               (afterConfig env n w)).
  assert (Hd : calls isDescribeInstances (trace w2)
               = calls isDescribeInstances (trace w)).
  { unfold w2. rewrite trace_called, calls_snoc. cbn [isDescribeInstances].
    apply calls_afterConfig; reflexivity. }
  destruct (WaitForInstanceRunning_fails_after env (InstanceId inst) w2 resps
              err fuel) as [w3 [Hwait Htr]].
  { intros i resp Hi. rewrite Hd. apply Hresps. exact Hi. }
  { rewrite Hd. exact Herr. }
  { exact Hfuel. }
  rewrite Hwait. cbn [call]. eexists. split; [reflexivity|].
  assert (Hfinal :
            trace (emit (EvFatalf "Error occurred: %v"
                     [AErr (Errorf "error waiting for instance to be running: %v"
                              [AErr (Errorf "error describing instance %s: %v"
                                       [AStr (InstanceId inst); AErr err])])]) w3)
            = trace (afterConfig env n w)
                ++ EvRunInstances request (inl runResult)
                   :: flat_map (pollNotRunning (InstanceId inst)) resps
                ++ [EvDescribeInstances [InstanceId inst] (inr err);
                    EvFatalf "Error occurred: %v"
                      [AErr (Errorf "error waiting for instance to be running: %v"
                               [AErr (Errorf "error describing instance %s: %v"
                                        [AStr (InstanceId inst); AErr err])])]]).
  { rewrite trace_emit, Htr. unfold w2. rewrite trace_called.
    rewrite <- !app_assoc. reflexivity. }
  split; [exact Hfinal|].
  assert (Hpolls : forall kind,
             kind (EvSleep (5 * Second)) = false ->
             (forall ids r, kind (EvDescribeInstances ids r) = false) ->
             (forall f a, kind (EvInfof f a) = false) ->
             calls kind (flat_map (pollNotRunning (InstanceId inst)) resps)
             = 0%nat).
  { intros kind Hs Hdk Hi. apply calls_none. apply Forall_flat_map.
    apply Forall_forall. intros resp _. unfold pollNotRunning.
    repeat (apply Forall_cons; [auto|]). apply Forall_nil. }
  rewrite Hfinal. rewrite !calls_app, !calls_cons, !calls_app.
  rewrite !Hpolls by reflexivity.
  rewrite !calls_afterConfig by reflexivity.
  rewrite !calls_cons, !calls_nil. cbn [isTerminateInstances isSetOutput].
  split; lia.
Qed.

Lemma getInputs_start_describe_failure_witness :
  exists w',
    getInputs 2 (withInputs plainStartInputs flakyEnv) w0 = (Exit, w')
    /\ trace w'
       = trace (afterConfig (withInputs plainStartInputs flakyEnv) 300 w0)
           ++ EvRunInstances
                (startRequest "ami-1" "subnet-1" "sg-1" "t2.micro" "#!/bin/sh"
                   [] None)
                (inl {| RunInstances_Instances :=
                          [{| InstanceId := "i-1"; StateName := "pending" |}] |})
              :: flat_map (pollNotRunning "i-1") [stateResp "pending"]
           ++ [EvDescribeInstances ["i-1"] (inr (ApiError "RequestLimitExceeded"));
               EvFatalf "Error occurred: %v"
                 [AErr (Errorf "error waiting for instance to be running: %v"
                          [AErr (Errorf "error describing instance %s: %v"
                                   [AStr "i-1";
                                    AErr (ApiError "RequestLimitExceeded")])])]]
    /\ calls isTerminateInstances (trace w') = calls isTerminateInstances (trace w0)
    /\ calls isSetOutput (trace w') = calls isSetOutput (trace w0).
Proof.
  apply (getInputs_start_describe_failure 2 (withInputs plainStartInputs flakyEnv)
           w0 300
           {| RunInstances_Instances :=
                [{| InstanceId := "i-1"; StateName := "pending" |}] |}
           {| InstanceId := "i-1"; StateName := "pending" |} []
           [stateResp "pending"] (ApiError "RequestLimitExceeded"));
    try reflexivity; try discriminate.
  - intros i resp Hi.
    destruct i as [|[|i]]; simpl in Hi; try discriminate.
    injection Hi as <-. split; [reflexivity|].
    exists "pending". split; [reflexivity|discriminate].
  - simpl. lia.
Defined.

(** X11. A [start] invocation without role and tags, whose RunInstances call
    succeeds and whose instance is seen [running] after any number of polls
    that saw other states, succeeds: after the configuration load the
    history is the RunInstances call, the polls, the log line and, last,
    the output [ec2-instance-id] set to the id of the first instance of the
    RunInstances answer.  The instance type asked for is the input, or
    [t2.micro] when the input is empty. *)
Theorem getInputs_start_success :
  forall (fuel : nat) (env : Env) (w : World) (n : Z)
         (runResult : RunInstancesOutput) (inst : Instance)
         (more : list Instance) (resps : list DescribeInstancesOutput)
         (last : DescribeInstancesOutput),
    GetInput env "mode" = "start" ->
    GetInput env "ec2-image-id" <> "" ->
    GetInput env "subnet-id" <> "" ->
    GetInput env "security-group-id" <> "" ->
    GetInput env "iam-role-name" = "" ->
    GetInput env "tag-specifications" = "" ->
    Atoi (GetInput env "command-max-wait-secs") = inl n ->
    config_LoadDefaultConfig env = None ->
    let request :=
      {| ImageId := GetInput env "ec2-image-id";
         InstanceType :=
           if (GetInput env "ec2-instance-type" =? "")%string then "t2.micro"
           else GetInput env "ec2-instance-type";
         MaxCount := 1;
         MinCount := 1;
         MonitoringEnabled := false;
         SubnetId := GetInput env "subnet-id";
         SecurityGroupIds := [GetInput env "security-group-id"];
         UserData := StdEncoding (GetInput env "user-data");
         TagSpecifications := [];
         IamInstanceProfile := None |} in
    ec2_RunInstances env (calls isRunInstances (trace w)) request
      = inl runResult ->
    RunInstances_Instances runResult = inst :: more ->
    (forall i resp, nth_error resps i = Some resp ->
       ec2_DescribeInstances env (calls isDescribeInstances (trace w) + i)
         [InstanceId inst] = inl resp
       /\ exists st, describedState resp = Some st /\ st <> "running") ->
    ec2_DescribeInstances env
      (calls isDescribeInstances (trace w) + List.length resps)
      [InstanceId inst] = inl last ->
    describedState last = Some "running" ->
    (List.length resps < fuel)%nat ->
    exists w',
      getInputs fuel env w = (Ok tt, w')
      /\ trace w'
         = trace (afterConfig env n w)
             ++ EvRunInstances request (inl runResult)
                :: flat_map (pollNotRunning (InstanceId inst)) resps
             ++ pollRunning (InstanceId inst) last
             ++ [EvInfof "Started EC2 instance with ID: %s"
                   [AStr (InstanceId inst)];
                 EvSetOutput "ec2-instance-id" (InstanceId inst)].
Proof.
  intros fuel env w n runResult inst more resps last Hmode Hami Hsub Hsg Hrole
         Htags Hatoi Hcfg request Hrun Hinst Hresps Hlast Hrunning Hfuel.
  rewrite (getInputs_start fuel env w n Hmode Hami Hsub Hsg Hatoi Hcfg).
  rewrite CreateAndStartEC2Instance_stages, Hrole, Htags.
  cbn [String.eqb negb]. unfold launch.
  change (startRequest (GetInput env "ec2-image-id") (GetInput env "subnet-id")
            (GetInput env "security-group-id") (instanceTypeOf env)
            (GetInput env "user-data") [] None) with request.
  rewrite (calls_afterConfig isRunInstances) by reflexivity.
  rewrite Hrun, Hinst.
  set (w2 := called env (EvRunInstances request (inl runResult))
               (afterConfig env n w)).
  assert (Hd : calls isDescribeInstances (trace w2)
               = calls isDescribeInstances (trace w)).
  { unfold w2. rewrite trace_called, calls_snoc. cbn [isDescribeInstances].
    apply calls_afterConfig; reflexivity. }
  assert (Hempty : "" <> "running") by discriminate.
  destruct (WaitForInstanceRunning_loop_polls env (InstanceId inst) resps last
              fuel "" w2 Hempty) as [w3 [Hwait Htr]].
  { intros i resp Hi. rewrite Hd. apply Hresps. exact Hi. }
  { rewrite Hd. exact Hlast. }
  { exact Hrunning. }
  { exact Hfuel. }
  unfold WaitForInstanceRunning. rewrite Hwait. cbn [call].
  eexists. split; [reflexivity|].
  rewrite !trace_emit, Htr. unfold w2. rewrite trace_called.
  rewrite <- !app_assoc. reflexivity.
Qed.

Lemma getInputs_start_success_witness :
  exists w',
    getInputs 3 (withInputs plainStartInputs startingEnv) w0 = (Ok tt, w')
    /\ trace w'
       = trace (afterConfig (withInputs plainStartInputs startingEnv) 300 w0)
           ++ EvRunInstances
                {| ImageId := "ami-1";
                   InstanceType := "t2.micro";
                   MaxCount := 1;
                   MinCount := 1;
                   MonitoringEnabled := false;
                   SubnetId := "subnet-1";
                   SecurityGroupIds := ["sg-1"];
                   UserData := StdEncoding "#!/bin/sh";
                   TagSpecifications := [];
                   IamInstanceProfile := None |}
                (inl {| RunInstances_Instances :=
                          [{| InstanceId := "i-1"; StateName := "pending" |}] |})
              :: flat_map (pollNotRunning "i-1")
                   [stateResp "pending"; stateResp "pending"]
           ++ pollRunning "i-1" (stateResp "running")
           ++ [EvInfof "Started EC2 instance with ID: %s" [AStr "i-1"];
               EvSetOutput "ec2-instance-id" "i-1"].
Proof.
  apply (getInputs_start_success 3 (withInputs plainStartInputs startingEnv)
           w0 300
           {| RunInstances_Instances :=
                [{| InstanceId := "i-1"; StateName := "pending" |}] |}
           {| InstanceId := "i-1"; StateName := "pending" |} []
           [stateResp "pending"; stateResp "pending"] (stateResp "running"));
    try reflexivity; try discriminate.
  - intros i resp Hi.
    destruct i as [|[|[|i]]]; simpl in Hi; try discriminate;
      injection Hi as <-; (split; [reflexivity|]);
      exists "pending"; (split; [reflexivity|discriminate]).
  - simpl. lia.
Defined.

Lemma ExecuteCommandOnEC2Instance_grows fuel env ec2InstanceId command
    commandMaxWaitTime w o w' :
  ExecuteCommandOnEC2Instance fuel env ec2InstanceId command commandMaxWaitTime w
    = (o, w') ->
  grows (fun ev => execKind ev = true) w w' /\ o <> Exit.
Proof.
  intro H.
  destruct (Execute_adds _ _ _ _ _ _ _ _ H)
    as [reg [rest [Htr [Hall [_ [Hnow [Hexit [_ Hrest]]]]]]]].
  split; [|exact Hexit].
  exists (reg ++ rest). split; [exact Htr|]. split; [|exact Hnow].
  apply Forall_app. split.
  - eapply Forall_impl; [|exact Hall].
    intros [] Hk; try reflexivity; discriminate Hk.
  - cbv zeta in Hrest.
    destruct Hrest as [-> | [[err ->] | [[resp [err ->]] | [resp [d [_ ->]]]]]].
    + constructor.
    + repeat (apply Forall_cons; [reflexivity|]). apply Forall_nil.
    + repeat (apply Forall_cons; [reflexivity|]). apply Forall_nil.
    + do 2 (apply Forall_cons; [reflexivity|]).
      eapply Forall_impl; [|apply Forall_invocationLog_isLog].
      intros [] Hk; try reflexivity; discriminate Hk.
Qed.

Lemma CreateAndStartEC2Instance_grows fuel env ec2AmiId subnetId securityGroupId
    iamRoleName instanceType userData tagSpecifications w o w' :
  CreateAndStartEC2Instance fuel env ec2AmiId subnetId securityGroupId
    iamRoleName instanceType userData tagSpecifications w = (o, w') ->
  grows (fun ev => startKind ev = true) w w'.
Proof.
  intro H.
  destruct (CreateAndStartEC2Instance_adds _ _ _ _ _ _ _ _ _ _ _ _ H)
    as [new [Htr [Hnow Hcases]]].
  exists new. split; [exact Htr|]. split; [|exact Hnow].
  destruct Hcases as [[err [-> _]]
                     | [prof [tail [tags [-> [Hprof [_ [_ [_ Htail]]]]]]]]].
  - repeat (apply Forall_cons; [reflexivity|]). apply Forall_nil.
  - apply Forall_app. split.
    + eapply Forall_impl; [|exact Hprof].
      intros [] Hk; try reflexivity; discriminate Hk.
    + destruct Htail as [-> | [name [res [rest [-> [Hrest _]]]]]]; [constructor|].
      apply Forall_cons; [reflexivity|].
      eapply Forall_impl; [|exact Hrest].
      intros [] Hk; try reflexivity; discriminate Hk.
Qed.

Lemma TerminateEC2Instance_grows env ec2InstanceId w o w' :
  TerminateEC2Instance env ec2InstanceId w = (o, w') ->
  grows (fun ev => stopKind ev = true) w w'
  /\ ((exists e, o = Fail e) \/ o = Ok tt).
Proof.
  unfold TerminateEC2Instance. intro H.
  destruct (ec2_TerminateInstances env _ [ec2InstanceId]) as [err|];
    injection H as <- <-.
  - split; [|left; eexists; reflexivity]. apply grows_called. reflexivity.
  - split; [|right; reflexivity].
    eapply grows_trans; [apply grows_called|apply grows_emit]; reflexivity.
Qed.

Lemma getInputs_no_mode fuel env w :
  GetInput env "mode" = "" ->
  getInputs fuel env w = (Fail (Errorf "Required input 'mode' is missing." []), w).
Proof. intro H. unfold getInputs. rewrite H. reflexivity. Qed.

Lemma getInputs_bad_wait fuel env w err :
  GetInput env "mode" <> "" ->
  Atoi (GetInput env "command-max-wait-secs") = inr err ->
  getInputs fuel env w = (Fail err, w).
Proof.
  intros Hm Ha. apply String.eqb_neq in Hm. unfold getInputs.
  rewrite Hm, Ha. reflexivity.
Qed.

Lemma getInputs_no_config fuel env w n cerr :
  GetInput env "mode" <> "" ->
  Atoi (GetInput env "command-max-wait-secs") = inl n ->
  config_LoadDefaultConfig env = Some cerr ->
  getInputs fuel env w
  = (Fail cerr,
     called env (EvLoadDefaultConfig (Some cerr))
       (if n <=? 5 then emit raisedToMinimum w else w)).
Proof.
  intros Hm Ha Hc. apply String.eqb_neq in Hm. unfold getInputs.
  rewrite Hm, Ha, Hc. destruct (n <=? 5); reflexivity.
Qed.

Lemma getInputs_command fuel env w n :
  GetInput env "mode" = "command" ->
  GetInput env "ec2-instance-id" <> "" ->
  GetInput env "command" <> "" ->
  Atoi (GetInput env "command-max-wait-secs") = inl n ->
  config_LoadDefaultConfig env = None ->
  getInputs fuel env w
  = commandFlow fuel env (if n <=? 5 then 6 else n) (afterConfig env n w).
Proof.
  intros Hmode Hid Hcmd Hatoi Hcfg.
  apply String.eqb_neq in Hid, Hcmd.
  unfold getInputs, commandFlow, afterConfig.
  rewrite Hmode, Hatoi, Hcfg, Hid, Hcmd.
  cbn [String.eqb Ascii.eqb Bool.eqb orb].
  destruct (n <=? 5); reflexivity.
Qed.

Lemma getInputs_stop_flow fuel env w n :
  GetInput env "mode" = "stop" ->
  GetInput env "ec2-instance-id" <> "" ->
  Atoi (GetInput env "command-max-wait-secs") = inl n ->
  config_LoadDefaultConfig env = None ->
  getInputs fuel env w
  = call (TerminateEC2Instance env (GetInput env "ec2-instance-id")
            (afterConfig env n w))
      (fun _ w2 => (Ok tt, w2)) (fun err w2 => (Fail err, w2)).
Proof.
  intros Hmode Hid Hatoi Hcfg.
  apply String.eqb_neq in Hid.
  unfold getInputs, afterConfig.
  rewrite Hmode, Hatoi, Hcfg, Hid.
  cbn [String.eqb Ascii.eqb Bool.eqb orb].
  destruct (n <=? 5); reflexivity.
Qed.

(** An invocation that lacks what its mode requires, or names no supported
    mode, is refused right after the configuration load. *)
Lemma getInputs_refused fuel env w n :
  GetInput env "mode" <> "" ->
  Atoi (GetInput env "command-max-wait-secs") = inl n ->
  config_LoadDefaultConfig env = None ->
  requiredPresent env = false ->
  exists e, getInputs fuel env w = (Fail e, afterConfig env n w).
Proof.
  intros Hm Hatoi Hcfg Hreq. apply String.eqb_neq in Hm.
  unfold requiredPresent in Hreq. unfold getInputs, afterConfig.
  rewrite Hm, Hatoi, Hcfg.
  destruct (GetInput env "mode" =? "start")%string.
  - rewrite <- !negb_orb in Hreq. apply negb_false_iff in Hreq.
    rewrite Hreq. destruct (n <=? 5); eexists; reflexivity.
  - destruct (GetInput env "mode" =? "command")%string.
    + rewrite <- !negb_orb in Hreq. apply negb_false_iff in Hreq.
      rewrite Hreq. destruct (n <=? 5); eexists; reflexivity.
    + destruct (GetInput env "mode" =? "stop")%string.
      * apply negb_false_iff in Hreq.
        rewrite Hreq. destruct (n <=? 5); eexists; reflexivity.
      * destruct (n <=? 5); eexists; reflexivity.
Qed.

Lemma afterConfig_pre env n w :
  exists pre,
    trace (afterConfig env n w) = trace w ++ pre
    /\ Forall (fun ev => preKind ev = true) pre.
Proof.
  unfold afterConfig. destruct (n <=? 5).
  - exists [raisedToMinimum; EvLoadDefaultConfig None].
    rewrite trace_called, trace_emit, <- app_assoc.
    split; [reflexivity|].
    repeat (apply Forall_cons; [reflexivity|]). apply Forall_nil.
  - exists [EvLoadDefaultConfig None].
    rewrite trace_called. split; [reflexivity|].
    repeat (apply Forall_cons; [reflexivity|]). apply Forall_nil.
Qed.

(** The history of a run of [getInputs]: what precedes the mode switch,
    what the flow of the mode did, and how the run ended. *)
Lemma getInputs_adds fuel env w o w' :
  getInputs fuel env w = (o, w') ->
  exists pre flow tail,
    trace w' = trace w ++ pre ++ flow ++ tail
    /\ Forall (fun ev => preKind ev = true) pre
    /\ Forall (fun ev => innerKind (GetInput env "mode") ev = true) flow
    /\ flowEnd env o tail
    /\ (requiredPresent env = false ->
        flow = [] /\ tail = [] /\ exists e, o = Fail e).
Proof.
  intro H.
  assert (Hnone : forall e pre,
             o = Fail e -> trace w' = trace w ++ pre ->
             Forall (fun ev => preKind ev = true) pre ->
             exists pre flow tail,
               trace w' = trace w ++ pre ++ flow ++ tail
               /\ Forall (fun ev => preKind ev = true) pre
               /\ Forall (fun ev => innerKind (GetInput env "mode") ev = true) flow
               /\ flowEnd env o tail
               /\ (requiredPresent env = false ->
                   flow = [] /\ tail = [] /\ exists e, o = Fail e)).
  { intros e pre -> Htr Hpre. exists pre, [], [].
    rewrite !app_nil_r. split; [exact Htr|]. split; [exact Hpre|].
    split; [constructor|]. split; [left; reflexivity|].
    intros _. repeat split. eexists. reflexivity. }
  destruct (String.eqb_spec (GetInput env "mode") "") as [Hm | Hm].
  { rewrite (getInputs_no_mode fuel env w Hm) in H. injection H as <- <-.
    eapply (Hnone _ []); [reflexivity|now rewrite app_nil_r|constructor]. }
  destruct (Atoi (GetInput env "command-max-wait-secs")) as [n|err] eqn:Hatoi.
  2:{ rewrite (getInputs_bad_wait fuel env w err Hm Hatoi) in H.
      injection H as <- <-.
      eapply (Hnone _ []); [reflexivity|now rewrite app_nil_r|constructor]. }
  destruct (config_LoadDefaultConfig env) as [cerr|] eqn:Hcfg.
  { rewrite (getInputs_no_config fuel env w n cerr Hm Hatoi Hcfg) in H.
    injection H as <- <-.
    destruct (n <=? 5).
    - eapply (Hnone _ [raisedToMinimum; EvLoadDefaultConfig (Some cerr)]);
        [reflexivity| |].
      + rewrite trace_called, trace_emit, <- app_assoc. reflexivity.
      + repeat (apply Forall_cons; [reflexivity|]). apply Forall_nil.
    - eapply (Hnone _ [EvLoadDefaultConfig (Some cerr)]); [reflexivity| |].
      + apply trace_called.
      + repeat (apply Forall_cons; [reflexivity|]). apply Forall_nil. }
  destruct (afterConfig_pre env n w) as [pre [Htr1 Hp]].
  destruct (requiredPresent env) eqn:Hreq.
  2:{ destruct (getInputs_refused fuel env w n Hm Hatoi Hcfg Hreq) as [e He].
      rewrite He in H. injection H as <- <-.
      eapply (Hnone _ pre); [reflexivity|exact Htr1|exact Hp]. }
  unfold requiredPresent in Hreq. unfold innerKind.
  destruct (String.eqb_spec (GetInput env "mode") "start") as [Hstart | Hstart].
  { apply andb_prop in Hreq. destruct Hreq as [Hreq Hr3].
    apply andb_prop in Hreq. destruct Hreq as [Hr1 Hr2].
    apply negb_true_iff, String.eqb_neq in Hr1, Hr2, Hr3.
    rewrite (getInputs_start fuel env w n Hstart Hr1 Hr2 Hr3 Hatoi Hcfg) in H.
    destruct (CreateAndStartEC2Instance fuel env _ _ _ _ _ _ _ _)
      as [oc wc] eqn:Hcas.
    destruct (CreateAndStartEC2Instance_grows _ _ _ _ _ _ _ _ _ _ _ _ Hcas)
      as [flow [Htrc [Hflow _]]].
    exists pre, flow.
    destruct oc as [instanceId|e| | |]; cbn [call] in H; injection H as <- <-.
    - exists [EvInfof "Started EC2 instance with ID: %s" [AStr instanceId];
              EvSetOutput "ec2-instance-id" instanceId].
      rewrite !trace_emit, Htrc, Htr1, <- !app_assoc.
      split; [reflexivity|]. split; [exact Hp|]. split; [exact Hflow|].
      split; [|intro Hf; discriminate Hf].
      right. left. exists instanceId. auto.
    - exists [EvFatalf "Error occurred: %v" [AErr e]].
      rewrite !trace_emit, Htrc, Htr1, <- !app_assoc.
      split; [reflexivity|]. split; [exact Hp|]. split; [exact Hflow|].
      split; [|intro Hf; discriminate Hf].
      right. right. left. exists e. auto.
    - exists []. rewrite Htrc, Htr1, <- !app_assoc, app_nil_r.
      split; [reflexivity|]. split; [exact Hp|]. split; [exact Hflow|].
      split; [left; reflexivity|intro Hf; discriminate Hf].
    - exists []. rewrite Htrc, Htr1, <- !app_assoc, app_nil_r.
      split; [reflexivity|]. split; [exact Hp|]. split; [exact Hflow|].
      split; [left; reflexivity|intro Hf; discriminate Hf].
    - exists []. rewrite Htrc, Htr1, <- !app_assoc, app_nil_r.
      split; [reflexivity|]. split; [exact Hp|]. split; [exact Hflow|].
      split; [left; reflexivity|intro Hf; discriminate Hf]. }
  destruct (String.eqb_spec (GetInput env "mode") "command")
    as [Hcommand | Hcommand].
  { apply andb_prop in Hreq. destruct Hreq as [Hr1 Hr2].
    apply negb_true_iff, String.eqb_neq in Hr1, Hr2.
    rewrite (getInputs_command fuel env w n Hcommand Hr1 Hr2 Hatoi Hcfg) in H.
    unfold commandFlow in H.
    destruct (ExecuteCommandOnEC2Instance fuel env _ _ _ _) as [oc wc] eqn:Hexec.
    destruct (ExecuteCommandOnEC2Instance_grows _ _ _ _ _ _ _ _ Hexec)
      as [[flow [Htrc [Hflow _]]] _].
    exists pre, flow.
    destruct oc as [commandId|e| | |]; cbn [call] in H; injection H as <- <-.
    - eexists [EvInfof _ _; EvSetOutput "command-id" commandId].
      rewrite !trace_emit, Htrc, Htr1, <- !app_assoc.
      split; [reflexivity|]. split; [exact Hp|]. split; [exact Hflow|].
      split; [|intro Hf; discriminate Hf].
      right. right. right. eexists. eexists. auto.
    - exists []. rewrite Htrc, Htr1, <- !app_assoc, app_nil_r.
      split; [reflexivity|]. split; [exact Hp|]. split; [exact Hflow|].
      split; [left; reflexivity|intro Hf; discriminate Hf].
    - exists []. rewrite Htrc, Htr1, <- !app_assoc, app_nil_r.
      split; [reflexivity|]. split; [exact Hp|]. split; [exact Hflow|].
      split; [left; reflexivity|intro Hf; discriminate Hf].
    - exists []. rewrite Htrc, Htr1, <- !app_assoc, app_nil_r.
      split; [reflexivity|]. split; [exact Hp|]. split; [exact Hflow|].
      split; [left; reflexivity|intro Hf; discriminate Hf].
    - exists []. rewrite Htrc, Htr1, <- !app_assoc, app_nil_r.
      split; [reflexivity|]. split; [exact Hp|]. split; [exact Hflow|].
      split; [left; reflexivity|intro Hf; discriminate Hf]. }
  destruct (String.eqb_spec (GetInput env "mode") "stop") as [Hstop | Hstop];
    [|discriminate Hreq].
  apply negb_true_iff, String.eqb_neq in Hreq.
  rewrite (getInputs_stop_flow fuel env w n Hstop Hreq Hatoi Hcfg) in H.
  destruct (TerminateEC2Instance env _ _) as [oc wc] eqn:Hterm.
  destruct (TerminateEC2Instance_grows _ _ _ _ _ Hterm)
    as [[flow [Htrc [Hflow _]]] _].
  exists pre, flow, [].
  assert (Hw : w' = wc) by (destruct oc; cbn [call] in H; congruence).
  subst wc. rewrite Htrc, Htr1, <- !app_assoc, app_nil_r.
  split; [reflexivity|]. split; [exact Hp|]. split; [exact Hflow|].
  split; [left; reflexivity|intro Hf; discriminate Hf].
Qed.

(** Every event of a run of [getInputs] is one of: an event allowed before
    the mode switch, an event of the flow of the mode, or one of the closing
    log, output and fatal lines. *)
Lemma getInputs_all (Q : event -> Prop) fuel env w new :
  trace (snd (getInputs fuel env w)) = trace w ++ new ->
  (forall ev, preKind ev = true -> Q ev) ->
  (forall ev, innerKind (GetInput env "mode") ev = true -> Q ev) ->
  (forall k v, Q (EvSetOutput k v)) ->
  (forall f a, GetInput env "mode" = "start" -> Q (EvFatalf f a)) ->
  Forall Q new.
Proof.
  intros Hnew Hpre Hflow Hout Hfatal.
  destruct (getInputs fuel env w) as [o w'] eqn:H. cbn [snd] in Hnew.
  destruct (getInputs_adds _ _ _ _ _ H)
    as [pre [flow [tail [Htr [Hp [Hf [Hend _]]]]]]].
  rewrite Htr in Hnew. apply app_inv_head in Hnew. subst new.
  apply Forall_app. split; [eapply Forall_impl; [|exact Hp]; exact Hpre|].
  apply Forall_app. split; [eapply Forall_impl; [|exact Hf]; exact Hflow|].
  assert (Hlog : forall f a, Q (EvInfof f a)) by (intros; apply Hpre; reflexivity).
  destruct Hend as [-> | [[id [_ [_ ->]]] | [[err [Hm [_ ->]]]
                   | [cid [n [_ [_ ->]]]]]]].
  - constructor.
  - repeat (apply Forall_cons; [auto|]). apply Forall_nil.
  - repeat (apply Forall_cons; [auto|]). apply Forall_nil.
  - repeat (apply Forall_cons; [auto|]). apply Forall_nil.
Qed.

Lemma getInputs_extends fuel env w :
  exists new, trace (snd (getInputs fuel env w)) = trace w ++ new.
Proof.
  destruct (getInputs fuel env w) as [o w'] eqn:H.
  destruct (getInputs_adds _ _ _ _ _ H) as [pre [flow [tail [Htr _]]]].
  eexists. exact Htr.
Qed.

(** X12. The modes do not mix: whatever the inputs and the answers, a
    [start] invocation makes no SSM call and terminates nothing; a
    [command] invocation makes no EC2 and no IAM call; a [stop] invocation
    makes no SSM and no IAM call, launches and describes nothing and never
    sleeps; any other mode makes no call to the three services at all. *)
Theorem getInputs_modes_do_not_mix :
  forall (fuel : nat) (env : Env) (w : World),
    exists new,
      trace (snd (getInputs fuel env w)) = trace w ++ new
      /\ (GetInput env "mode" = "start" ->
          Forall (fun ev => isSSM ev = false /\ isTerminateInstances ev = false)
            new)
      /\ (GetInput env "mode" = "command" ->
          Forall (fun ev => isEC2 ev = false /\ isIAM ev = false) new)
      /\ (GetInput env "mode" = "stop" ->
          Forall (fun ev => isSSM ev = false /\ isIAM ev = false
                            /\ isRunInstances ev = false
                            /\ isDescribeInstances ev = false
                            /\ isSleep ev = false) new)
      /\ (GetInput env "mode" <> "start" ->
          GetInput env "mode" <> "command" ->
          GetInput env "mode" <> "stop" ->
          Forall (fun ev => isServiceCall ev = false) new).
Proof.
  intros fuel env w.
  destruct (getInputs_extends fuel env w) as [new Hnew].
  exists new. split; [exact Hnew|].
  split; [|split; [|split]].
  - intro Hm. apply (getInputs_all _ fuel env w new Hnew).
    + intros [] H; try discriminate H; split; reflexivity.
    + rewrite Hm. unfold innerKind. cbn [String.eqb Ascii.eqb Bool.eqb].
      intros [] H; try discriminate H; split; reflexivity.
    + intros; split; reflexivity.
    + intros; split; reflexivity.
  - intro Hm. apply (getInputs_all _ fuel env w new Hnew).
    + intros [] H; try discriminate H; split; reflexivity.
    + rewrite Hm. unfold innerKind. cbn [String.eqb Ascii.eqb Bool.eqb].
      intros [] H; try discriminate H; split; reflexivity.
    + intros; split; reflexivity.
    + intros f a Hs. rewrite Hm in Hs. discriminate Hs.
  - intro Hm. apply (getInputs_all _ fuel env w new Hnew).
    + intros [] H; try discriminate H; repeat split; reflexivity.
    + rewrite Hm. unfold innerKind. cbn [String.eqb Ascii.eqb Bool.eqb].
      intros [] H; try discriminate H; repeat split; reflexivity.
    + intros; repeat split; reflexivity.
    + intros f a Hs. rewrite Hm in Hs. discriminate Hs.
  - intros H1 H2 H3. apply (getInputs_all _ fuel env w new Hnew).
    + intros [] H; try discriminate H; reflexivity.
    + unfold innerKind.
      apply String.eqb_neq in H1, H2, H3. rewrite H1, H2, H3.
      intros ev H. discriminate H.
    + reflexivity.
    + intros f a Hs. contradiction.
Qed.

(** X13. Whatever the inputs and the answers, [getInputs] sets an output at
    most once, as the very last thing it does and only when it returns
    success: [ec2-instance-id] in a [start] invocation, [command-id] in a
    [command] invocation.  A run that fails, in whatever way, has set no
    output; and only a [start] invocation ends the process from inside
    [getInputs]. *)
Theorem getInputs_sets_output_last :
  forall (fuel : nat) (env : Env) (w : World),
    let r := getInputs fuel env w in
    exists new,
      trace (snd r) = trace w ++ new
      /\ (calls isSetOutput new <= 1)%nat
      /\ (forall k v, In (EvSetOutput k v) new ->
            fst r = Ok tt
            /\ (exists before, new = before ++ [EvSetOutput k v])
            /\ (GetInput env "mode" = "start" /\ k = "ec2-instance-id"
                \/ GetInput env "mode" = "command" /\ k = "command-id"))
      /\ (forall f a, In (EvFatalf f a) new -> GetInput env "mode" = "start").
Proof.
  intros fuel env w r.
  destruct r as [o w'] eqn:Hr. unfold r in Hr. cbn [fst snd].
  destruct (getInputs_adds _ _ _ _ _ Hr)
    as [pre [flow [tail [Htr [Hp [Hf [Hend _]]]]]]].
  exists (pre ++ flow ++ tail). split; [exact Htr|].
  assert (Hpre_no : forall ev, preKind ev = true ->
                               isSetOutput ev = false /\ isFatalf ev = false).
  { intros [] H; try discriminate H; split; reflexivity. }
  assert (Hflow_no : forall ev, innerKind (GetInput env "mode") ev = true ->
                                isSetOutput ev = false
                                /\ (isFatalf ev = true ->
                                    GetInput env "mode" = "start")).
  { unfold innerKind. intros ev H.
    destruct (String.eqb_spec (GetInput env "mode") "start") as [Hs|Hs].
    - destruct ev; try discriminate H; split; auto.
    - destruct (GetInput env "mode" =? "command")%string.
      + destruct ev; try discriminate H; split; auto; intro Hc; discriminate Hc.
      + destruct (GetInput env "mode" =? "stop")%string; [|discriminate H].
        destruct ev; try discriminate H; split; auto; intro Hc; discriminate Hc. }
  assert (Hpre0 : calls isSetOutput pre = 0%nat).
  { apply calls_none. eapply Forall_impl; [|exact Hp].
    intros ev H. apply Hpre_no. exact H. }
  assert (Hflow0 : calls isSetOutput flow = 0%nat).
  { apply calls_none. eapply Forall_impl; [|exact Hf].
    intros ev H. apply Hflow_no. exact H. }
  assert (Hnot_pre : forall k v, ~ In (EvSetOutput k v) pre).
  { intros k v Hin. rewrite Forall_forall in Hp.
    destruct (Hpre_no _ (Hp _ Hin)) as [H _]. discriminate H. }
  assert (Hnot_flow : forall k v, ~ In (EvSetOutput k v) flow).
  { intros k v Hin. rewrite Forall_forall in Hf.
    destruct (Hflow_no _ (Hf _ Hin)) as [H _]. discriminate H. }
  assert (Hfatal_pre : forall f a, ~ In (EvFatalf f a) pre).
  { intros f a Hin. rewrite Forall_forall in Hp.
    destruct (Hpre_no _ (Hp _ Hin)) as [_ H]. discriminate H. }
  assert (Hfatal_flow : forall f a, In (EvFatalf f a) flow ->
                                    GetInput env "mode" = "start").
  { intros f a Hin. rewrite Forall_forall in Hf.
    destruct (Hflow_no _ (Hf _ Hin)) as [_ H]. apply H. reflexivity. }
  rewrite !calls_app, Hpre0, Hflow0.
  destruct Hend as [-> | [[id [Hm [-> ->]]] | [[err [Hm [-> ->]]]
                   | [cid [n [Hm [-> ->]]]]]]].
  - split; [cbn; lia|]. split.
    + intros k v Hin. rewrite app_nil_r in Hin. apply in_app_or in Hin.
      destruct Hin as [Hin | Hin];
        [exfalso; exact (Hnot_pre _ _ Hin)|exfalso; exact (Hnot_flow _ _ Hin)].
    + intros f a Hin. rewrite app_nil_r in Hin. apply in_app_or in Hin.
      destruct Hin as [Hin | Hin];
        [exfalso; exact (Hfatal_pre _ _ Hin)|exact (Hfatal_flow _ _ Hin)].
  - split; [cbn; lia|]. split.
    + intros k v Hin. apply in_app_or in Hin.
      destruct Hin as [Hin | Hin]; [exfalso; exact (Hnot_pre _ _ Hin)|].
      apply in_app_or in Hin.
      destruct Hin as [Hin | [Hin | [Hin | []]]];
        [exfalso; exact (Hnot_flow _ _ Hin)|discriminate Hin|].
      injection Hin as <- <-. split; [reflexivity|]. split.
      * exists (pre ++ flow ++ [EvInfof "Started EC2 instance with ID: %s"
                                  [AStr id]]).
        rewrite <- !app_assoc. reflexivity.
      * left. split; [exact Hm|reflexivity].
    + intros; exact Hm.
  - split; [cbn; lia|]. split.
    + intros k v Hin. apply in_app_or in Hin.
      destruct Hin as [Hin | Hin]; [exfalso; exact (Hnot_pre _ _ Hin)|].
      apply in_app_or in Hin.
      destruct Hin as [Hin | [Hin | []]];
        [exfalso; exact (Hnot_flow _ _ Hin)|discriminate Hin].
    + intros; exact Hm.
  - split; [cbn; lia|]. split.
    + intros k v Hin. apply in_app_or in Hin.
      destruct Hin as [Hin | Hin]; [exfalso; exact (Hnot_pre _ _ Hin)|].
      apply in_app_or in Hin.
      destruct Hin as [Hin | [Hin | [Hin | []]]];
        [exfalso; exact (Hnot_flow _ _ Hin)|discriminate Hin|].
      injection Hin as <- <-. split; [reflexivity|]. split.
      * eexists (pre ++ flow ++ [_]).
        rewrite <- !app_assoc. reflexivity.
      * right. split; [exact Hm|reflexivity].
    + intros f a Hin. apply in_app_or in Hin.
      destruct Hin as [Hin | Hin]; [exfalso; exact (Hfatal_pre _ _ Hin)|].
      apply in_app_or in Hin.
      destruct Hin as [Hin | [Hin | [Hin | []]]];
        [exact (Hfatal_flow _ _ Hin)|discriminate Hin|discriminate Hin].
Qed.

(** X14. An invocation that names no mode, lacks an input its mode requires
    (image, subnet or security group for [start]; instance id or command
    for [command]; instance id for [stop]) or names another mode is refused
    with an error, and all [getInputs] has done by then is at most the
    warning on the wait time and the configuration load: no call to EC2,
    IAM or SSM.  With a parsable wait time and a loaded configuration, the
    error of an unknown mode is the "Unsupported mode" error naming it. *)
Theorem getInputs_refuses_before_any_call :
  forall (fuel : nat) (env : Env) (w : World),
    requiredPresent env = false ->
    (exists e new,
        fst (getInputs fuel env w) = Fail e
        /\ trace (snd (getInputs fuel env w)) = trace w ++ new
        /\ Forall (fun ev => preKind ev = true /\ isServiceCall ev = false) new)
    /\ (forall n,
          GetInput env "mode" <> "" ->
          GetInput env "mode" <> "start" ->
          GetInput env "mode" <> "command" ->
          GetInput env "mode" <> "stop" ->
          Atoi (GetInput env "command-max-wait-secs") = inl n ->
          config_LoadDefaultConfig env = None ->
          fst (getInputs fuel env w)
          = Fail (Errorf
                    "Unsupported mode: %s. Supported modes are 'start', 'command', and 'stop'."
                    [AStr (GetInput env "mode")])).
Proof.
  intros fuel env w Hreq. split.
  - destruct (getInputs fuel env w) as [o w'] eqn:H.
    destruct (getInputs_adds _ _ _ _ _ H)
      as [pre [flow [tail [Htr [Hp [_ [_ Hrefused]]]]]]].
    destruct (Hrefused Hreq) as [-> [-> [e ->]]].
    exists e, pre. cbn [fst snd]. rewrite !app_nil_r in Htr.
    split; [reflexivity|]. split; [exact Htr|].
    eapply Forall_impl; [|exact Hp].
    intros [] Hk; try discriminate Hk; split; reflexivity.
  - intros n Hm H1 H2 H3 Hatoi Hcfg.
    apply String.eqb_neq in Hm, H1, H2, H3.
    unfold getInputs. rewrite Hm, Hatoi, Hcfg, H1, H2, H3.
    destruct (n <=? 5); reflexivity.
Qed.

Lemma getInputs_refuses_before_any_call_witness :
  (exists e new,
      fst (getInputs 1 (mockEnv noSubnetInputs) w0) = Fail e
      /\ trace (snd (getInputs 1 (mockEnv noSubnetInputs) w0)) = trace w0 ++ new
      /\ Forall (fun ev => preKind ev = true /\ isServiceCall ev = false) new)
  /\ fst (getInputs 1 (mockEnv bogusInputs) w0)
     = Fail (Errorf
               "Unsupported mode: %s. Supported modes are 'start', 'command', and 'stop'."
               [AStr "bogus"]).
Proof.
  split.
  - apply (proj1 (getInputs_refuses_before_any_call 1 (mockEnv noSubnetInputs)
                    w0 eq_refl)).
  - apply (proj2 (getInputs_refuses_before_any_call 1 (mockEnv bogusInputs)
                    w0 eq_refl) 300);
      try reflexivity; discriminate.
Defined.

(** X15. A [stop] invocation with an instance id makes one TerminateInstances
    call for that instance and nothing else after the configuration load
    but, on acceptance, the log line: it does not wait for the instance to
    be gone.  A refusal is returned as the error "error stopping EC2
    instance <id>: <cause>". *)
Theorem getInputs_stop_terminates_once :
  forall (fuel : nat) (env : Env) (w : World) (n : Z),
    GetInput env "mode" = "stop" ->
    GetInput env "ec2-instance-id" <> "" ->
    Atoi (GetInput env "command-max-wait-secs") = inl n ->
    config_LoadDefaultConfig env = None ->
    let ec2InstanceId := GetInput env "ec2-instance-id" in
    let res := ec2_TerminateInstances env (calls isTerminateInstances (trace w))
                 [ec2InstanceId] in
    fst (getInputs fuel env w)
    = match res with
      | None => Ok tt
      | Some err =>
        Fail (Errorf "error stopping EC2 instance %s: %v"
                [AStr ec2InstanceId; AErr err])
      end
    /\ trace (snd (getInputs fuel env w))
       = trace (afterConfig env n w)
           ++ EvTerminateInstances [ec2InstanceId] res
              :: match res with
                 | None => [EvInfof "Instance %s is stopping..."
                              [AStr ec2InstanceId]]
                 | Some _ => []
                 end.
Proof.
  intros fuel env w n Hmode Hid Hatoi Hcfg ec2InstanceId res.
  rewrite (getInputs_stop_flow fuel env w n Hmode Hid Hatoi Hcfg).
  unfold TerminateEC2Instance. fold ec2InstanceId.
  rewrite (calls_afterConfig isTerminateInstances) by reflexivity.
  fold res. destruct res as [err|]; cbn [call fst snd].
  - split; [reflexivity|]. apply trace_called.
  - split; [reflexivity|].
    rewrite trace_emit, trace_called, <- app_assoc. reflexivity.
Qed.

Lemma getInputs_stop_terminates_once_witness :
  fst (getInputs 1 refusingEnv w0)
  = Fail (Errorf "error stopping EC2 instance %s: %v"
            [AStr "i-1"; AErr (ApiError "UnauthorizedOperation")])
  /\ trace (snd (getInputs 1 refusingEnv w0))
     = trace (afterConfig refusingEnv 300 w0)
         ++ [EvTerminateInstances ["i-1"]
               (Some (ApiError "UnauthorizedOperation"))].
Proof.
  apply (getInputs_stop_terminates_once 1 refusingEnv w0 300);
    try reflexivity; discriminate.
Defined.

(** ** GetCommandInvocationDetails: the duration *)

Lemma Seconds_exact n :
  Seconds n = n * 1000000000 <-> -9223372036 <= n <= 9223372036.
Proof.
  unfold Seconds, wrap64, Second.
  change (2 ^ 63) with 9223372036854775808.
  change (2 ^ 64) with 18446744073709551616.
  pose proof (Z.mod_pos_bound (n * 1000000000 + 9223372036854775808)
                18446744073709551616 eq_refl) as Hb.
  split.
  - intro H. lia.
  - intro H. rewrite Z.mod_small by lia. lia.
Qed.

(** X16. [GetCommandInvocationDetails] makes one waiter call, for the given
    command and instance, and passes on what the waiter answers.  The
    duration it hands to the waiter is [maxWaitTime] seconds exactly when
    [maxWaitTime] lies between -9223372036 and 9223372036; beyond, the
    multiplication by [time.Second] wraps around and another duration is
    passed. *)
Theorem GetCommandInvocationDetails_duration :
  forall (env : Env) (ec2InstanceId commandId : string) (maxWaitTime : Z)
         (w : World),
    let r := GetCommandInvocationDetails env ec2InstanceId commandId
               maxWaitTime w in
    let answer := ssm_WaitForOutput env (calls isWaitForOutput (trace w))
                    commandId ec2InstanceId (Seconds maxWaitTime) in
    trace (snd r)
    = trace w ++ [EvWaitForOutput commandId ec2InstanceId (Seconds maxWaitTime)
                    answer]
    /\ fst r = match answer with inl d => Ok d | inr err => Fail err end
    /\ (Seconds maxWaitTime = maxWaitTime * 1000000000
        <-> -9223372036 <= maxWaitTime <= 9223372036).
Proof.
  intros env ec2InstanceId commandId maxWaitTime w r answer.
  unfold r, GetCommandInvocationDetails. fold answer.
  split; [destruct answer; apply trace_called|].
  split; [destruct answer; reflexivity|].
  apply Seconds_exact.
Qed.

Example wait_of_9223372037_wraps : Seconds 9223372037 = -9223372036709551616.
Proof. reflexivity. Qed.

(** ** IsSSMAgentRegistered: the agent comes online *)

Lemma IsSSMAgentRegistered_loop_step fuel env ec2InstanceId endTime interval w
    resp :
  now w < endTime ->
  ssm_DescribeInstanceInformation env
    (calls isDescribeInstanceInformation (trace w)) [ec2InstanceId] = inl resp ->
  online ec2InstanceId resp = false ->
  IsSSMAgentRegistered_loop (S fuel) env ec2InstanceId endTime interval w
  = IsSSMAgentRegistered_loop fuel env ec2InstanceId endTime interval
      (time_Sleep env (Seconds interval)
         (emit (EvInfof
                  "SSM agent is not registered or not online for instance %s. Waiting..."
                  [AStr ec2InstanceId])
            (called env (EvDescribeInstanceInformation [ec2InstanceId] (inl resp))
               w))).
Proof.
  intros Hlt Hans Hoff. apply Z.ltb_lt in Hlt.
  simpl. rewrite Hlt, Hans, Hoff. reflexivity.
Qed.

Lemma IsSSMAgentRegistered_loop_online env ec2InstanceId endTime interval :
  (forall m, latency env m = 0%N) ->
  0 <= Seconds interval ->
  forall (resps : list DescribeInstanceInformationOutput)
         (last : DescribeInstanceInformationOutput) (fuel : nat) (w : World),
    (forall i resp, nth_error resps i = Some resp ->
       ssm_DescribeInstanceInformation env
         (calls isDescribeInstanceInformation (trace w) + i) [ec2InstanceId]
       = inl resp
       /\ online ec2InstanceId resp = false) ->
    ssm_DescribeInstanceInformation env
      (calls isDescribeInstanceInformation (trace w) + List.length resps)
      [ec2InstanceId] = inl last ->
    online ec2InstanceId last = true ->
    now w + Z.of_nat (List.length resps) * Seconds interval < endTime ->
    (List.length resps < fuel)%nat ->
    exists w',
      IsSSMAgentRegistered_loop fuel env ec2InstanceId endTime interval w
      = (Ok true, w')
      /\ trace w'
         = trace w ++ flat_map (pollOffline ec2InstanceId interval) resps
             ++ [EvDescribeInstanceInformation [ec2InstanceId] (inl last);
                 EvInfof "SSM agent is registered and online for instance %s"
                   [AStr ec2InstanceId]]
      /\ now w' = now w + Z.of_nat (List.length resps) * Seconds interval.
Proof.
  intros Hlat Hd.
  induction resps as [|resp resps IH];
    intros last fuel w Hresps Hlast Hon Htime Hfuel.
  - destruct fuel as [|fuel]; [simpl in Hfuel; lia|].
    cbn [List.length] in *. rewrite Nat.add_0_r in Hlast.
    simpl in Htime.
    assert (Hlt : (now w <? endTime) = true) by (apply Z.ltb_lt; lia).
    simpl. rewrite Hlt, Hlast, Hon.
    eexists. split; [reflexivity|]. split.
    + rewrite trace_emit, trace_called, <- app_assoc. reflexivity.
    + rewrite now_emit, now_called_eq, Hlat. lia.
  - destruct fuel as [|fuel]; [simpl in Hfuel; lia|].
    cbn [List.length] in Hfuel, Htime, Hlast.
    destruct (Hresps 0%nat resp eq_refl) as [Hans Hoff].
    rewrite Nat.add_0_r in Hans.
    set (d := Seconds interval) in *.
    assert (Hk : 0 <= Z.of_nat (List.length resps) * d)
      by (apply Z.mul_nonneg_nonneg; lia).
    rewrite Nat2Z.inj_succ in Htime.
    assert (Hlt : now w < endTime) by nia.
    rewrite (IsSSMAgentRegistered_loop_step fuel env ec2InstanceId endTime
               interval w resp Hlt Hans Hoff).
    fold d.
    match goal with
    | |- context [IsSSMAgentRegistered_loop _ _ _ _ _ ?w1] => set (w3 := w1)
    end.
    assert (Htr3 : trace w3 = trace w ++ pollOffline ec2InstanceId interval resp).
    { unfold w3. rewrite trace_time_Sleep, trace_emit, trace_called.
      rewrite <- !app_assoc. reflexivity. }
    assert (Hc : calls isDescribeInstanceInformation (trace w3)
                 = S (calls isDescribeInstanceInformation (trace w))).
    { unfold w3. rewrite trace_time_Sleep, trace_emit, trace_called.
      rewrite !calls_snoc. reflexivity. }
    assert (Hnow3 : now w3 = now w + d).
    { unfold w3. rewrite now_time_Sleep_eq, now_emit, now_called_eq, !Hlat.
      lia. }
    destruct (IH last fuel w3) as [w' [Hrun [Htr Hnow]]].
    + intros i r Hi. rewrite Hc.
      replace (S (calls isDescribeInstanceInformation (trace w)) + i)%nat
        with (calls isDescribeInstanceInformation (trace w) + S i)%nat by lia.
      apply Hresps. exact Hi.
    + rewrite Hc.
      replace (S (calls isDescribeInstanceInformation (trace w))
               + List.length resps)%nat
        with (calls isDescribeInstanceInformation (trace w)
              + S (List.length resps))%nat by lia.
      exact Hlast.
    + exact Hon.
    + rewrite Hnow3. nia.
    + lia.
    + exists w'. split; [exact Hrun|]. split.
      * rewrite Htr, Htr3. cbn [flat_map]. rewrite <- !app_assoc. reflexivity.
      * rewrite Hnow, Hnow3. cbn [List.length]. rewrite Nat2Z.inj_succ. nia.
Qed.

(** X17. When the calls themselves take no time and the interval is not
    negative: if the first [k] describe answers do not show the instance
    online, the next one does, and [k] intervals fit strictly inside the
    timeout, the check returns [true] without error after exactly [k]
    sleeps, having described the instance [k + 1] times, and the clock has
    advanced by [k] intervals. *)
Theorem IsSSMAgentRegistered_comes_online :
  forall (fuel : nat) (env : Env) (ec2InstanceId : string)
         (timeout interval : Z) (w : World)
         (resps : list DescribeInstanceInformationOutput)
         (last : DescribeInstanceInformationOutput),
    (forall m, latency env m = 0%N) ->
    0 <= Seconds interval ->
    (forall i resp, nth_error resps i = Some resp ->
       ssm_DescribeInstanceInformation env
         (calls isDescribeInstanceInformation (trace w) + i) [ec2InstanceId]
       = inl resp
       /\ online ec2InstanceId resp = false) ->
    ssm_DescribeInstanceInformation env
      (calls isDescribeInstanceInformation (trace w) + List.length resps)
      [ec2InstanceId] = inl last ->
    online ec2InstanceId last = true ->
    Z.of_nat (List.length resps) * Seconds interval < Seconds timeout ->
    (List.length resps < fuel)%nat ->
    exists w',
      IsSSMAgentRegistered fuel env ec2InstanceId timeout interval w
      = (Ok true, w')
      /\ trace w'
         = trace w ++ flat_map (pollOffline ec2InstanceId interval) resps
             ++ [EvDescribeInstanceInformation [ec2InstanceId] (inl last);
                 EvInfof "SSM agent is registered and online for instance %s"
                   [AStr ec2InstanceId]]
      /\ now w' = now w + Z.of_nat (List.length resps) * Seconds interval.
Proof.
  intros fuel env ec2InstanceId timeout interval w resps last Hlat Hd Hresps
         Hlast Hon Htime Hfuel.
  unfold IsSSMAgentRegistered.
  apply IsSSMAgentRegistered_loop_online; try assumption. lia.
Qed.

Lemma IsSSMAgentRegistered_comes_online_witness :
  exists w',
    IsSSMAgentRegistered 3 lateAgentEnv "i-1" 60 5 w0 = (Ok true, w')
    /\ trace w'
       = trace w0
           ++ flat_map (pollOffline "i-1" 5)
                [{| InstanceInformationList := [] |};
                 {| InstanceInformationList := [] |}]
           ++ [EvDescribeInstanceInformation ["i-1"]
                 (inl {| InstanceInformationList :=
                           [{| Info_InstanceId := "i-1";
                               PingStatus := PingStatusOnline |}] |});
               EvInfof "SSM agent is registered and online for instance %s"
                 [AStr "i-1"]]
    /\ now w' = now w0 + Z.of_nat 2 * Seconds 5.
Proof.
  apply (IsSSMAgentRegistered_comes_online 3 lateAgentEnv "i-1" 60 5 w0
           [{| InstanceInformationList := [] |};
            {| InstanceInformationList := [] |}]
           {| InstanceInformationList :=
                [{| Info_InstanceId := "i-1"; PingStatus := PingStatusOnline |}] |}).
  - reflexivity.
  - discriminate.
  - intros i resp Hi.
    destruct i as [|[|[|i]]]; simpl in Hi; try discriminate;
      injection Hi as <-; split; reflexivity.
  - reflexivity.
  - reflexivity.
  - reflexivity.
  - simpl. lia.
Defined.
